(** * Kibana stats collector: schema application and X-Pack event assembly

    Shallow embedding of [metricbeat/module/kibana/stats/data_xpack.go].

    The file declares the monitoring schema [schemaXPackMonitoring] as data
    and the function [eventMappingXPack], which decodes a stats payload,
    applies the schema, patches one field by hand, stamps metadata and hands
    the event to the reporter.  The schema engine itself ([s.Schema],
    [Apply], the [c.*] constructors), [common.MapStr.Put] and the helpers of
    package [elastic] live in other packages of the repository; they are
    modelled here from the written specification and marked as such. *)

From Stdlib Require Import ZArith String Ascii List Permutation.
From Stdlib Require Import Floats.SpecFloat.
From stdpp Require Import gmap strings list fin_maps.

#[local] Set Warnings "-register-all".
#[local] Open Scope string_scope.
#[local] Open Scope Z_scope.

(** ** Go values *)

(** [float64]: an IEEE 754 binary64 datum, as the sign, mantissa and exponent
    of the Standard Library's specification of floats. *)
Definition float64 := spec_float.

(** The [float64] nearest to an integer literal (round to nearest even). *)
Definition float64_of_Z (z : Z) : float64 :=
  match z with
  | Z0 => S754_zero false
  | Zpos m => binary_normalize 53 1024 (Zpos m) 0 false
  | Zneg m => SFopp (binary_normalize 53 1024 (Zpos m) 0 false)
  end.

Definition min_int64 : Z := - 2 ^ 63.
Definition max_int64 : Z := 2 ^ 63 - 1.

Definition in_int64 (z : Z) : bool := (min_int64 <=? z) && (z <=? max_int64).

(** Wrap-around of a 64-bit two's complement integer. *)
Definition wrap64 (z : Z) : Z := (z + 2 ^ 63) mod 2 ^ 64 - 2 ^ 63.

(** The integer obtained from a finite float by discarding its fraction.
    [Z.quot] rounds toward zero.  Infinities and NaN have none. *)
Definition trunc_toward_zero (f : float64) : option Z :=
  match f with
  | S754_zero _ => Some 0
  | S754_finite sg m e =>
      let sm := if sg then Zneg m else Zpos m in
      Some (match e with
            | Z0 => sm
            | Zpos p => sm * 2 ^ Zpos p
            | Zneg p => Z.quot sm (2 ^ Zpos p)
            end)
  | S754_infinity _ | S754_nan => None
  end.

(** Go converts a float to an integer by discarding the fraction; when the
    result does not fit the target type the conversion still succeeds, with a
    value the language leaves to the implementation.  That value is a field
    of the platform. *)
Class Arch := { int64_of_unrepresentable : float64 -> Z }.

(** amd64: CVTTSD2SQ yields the "integer indefinite" value. *)
Definition amd64 : Arch := {| int64_of_unrepresentable := fun _ => min_int64 |}.

(** The conversion [int64(f)] of a [float64]. *)
Definition int64_of_float64 `{Arch} (f : float64) : Z :=
  match trunc_toward_zero f with
  | Some t => if in_int64 t then t else wrap64 (int64_of_unrepresentable f)
  | None => wrap64 (int64_of_unrepresentable f)
  end.

(** What [encoding/json] decodes into an [interface{}]: [nil], [bool],
    [float64], [string], [map[string]interface{}] and [[]interface{}]. *)
Inductive Value :=
  | VNull
  | VBool (b : bool)
  | VNumber (f : float64)
  | VString (str : string)
  | VDocument (m : gmap string Value)
  | VSequence (l : list Value).

(** The values this file stores in a [common.MapStr]: [int64], [float64],
    [string], [bool], a nested [common.MapStr] and [time.Time] (as
    nanoseconds since the epoch). *)
Inductive Field :=
  | FInt (z : Z)
  | FFloat (f : float64)
  | FStr (str : string)
  | FBool (b : bool)
  | FDoc (m : gmap string Field)
  | FTime (t : Z).

(** ** Dotted paths *)

(** The segments of [str] between occurrences of [sep]; never empty. *)
Fixpoint split_on (sep : ascii) (str : string) : list string :=
  match str with
  | EmptyString => [EmptyString]
  | String ch rest =>
      if Ascii.eqb ch sep then EmptyString :: split_on sep rest
      else match split_on sep rest with
           | seg :: segs => String ch seg :: segs
           | [] => [String ch EmptyString]
           end
  end.

Definition split_path (key : string) : list string := split_on "."%char key.

(** Prefix an error path with the path of the enclosing node. *)
Definition join_path (pfx key : string) : string :=
  match pfx with
  | EmptyString => key
  | _ => pfx ++ "." ++ key
  end.

Module common.

(** [common.MapStr] *)
Abbreviation MapStr := (gmap string Field).

(** Write [v] at the path [segs], synthesising the intermediate documents;
    what was at the path before is overwritten. *)
Fixpoint put (segs : list string) (v : Field) (m : MapStr) : MapStr :=
  match segs with
  | [] => m
  | k :: rest =>
      match rest with
      | [] => <[k := v]> m
      | _ :: _ =>
          let sub := match m !! k with
                     | Some (FDoc d) => d
                     | _ => ∅
                     end in
          <[k := FDoc (put rest v sub)]> m
      end
  end.

(** Read the value at the path [segs]. *)
Fixpoint get (segs : list string) (m : MapStr) : option Field :=
  match segs with
  | [] => None
  | k :: rest =>
      match rest with
      | [] => m !! k
      | _ :: _ =>
          match m !! k with
          | Some (FDoc d) => get rest d
          | _ => None
          end
      end
  end.

(** Modelled from the spec: [MapStr.Put] (libbeat/common) is not among the
    sources.  The spec describes a patch as a "direct key write" at a
    possibly dotted path, synthesising intermediate sub-documents, where a
    later write wins over an earlier one at the same path.  The value the Go
    method returns is dropped by its only caller and is not modelled. *)
Definition Put (key : string) (v : Field) (m : MapStr) : MapStr :=
  put (split_path key) v m.

(** [MapStr.GetValue]-style read at a dotted path, used to state results. *)
Definition Get (key : string) (m : MapStr) : option Field :=
  get (split_path key) m.

End common.

(** ** Errors *)

(** Why a schema node produced no value. *)
Inductive Cause := MissingField | TypeMismatch.

(** A per-field (soft) error: the absolute source path and the cause. *)
Record FieldError := { path : string; cause : Cause }.

(** [elastic.Product]; this file names [elastic.Kibana] only. *)
Inductive Product := Kibana.

(** The [error] values that flow through this file: what [json.Unmarshal]
    returned, the aggregate of the soft errors of a schema application, and
    the error [elastic.ReportErrorForMissingField] builds for a field. *)
Inductive error :=
  | DecodeFailure (msg : string)
  | AggregateError (errs : list FieldError)
  | MissingFieldError (field : string) (product : Product).

(** ** The schema engine (package [schema], imported as [s]) *)

Module s.

(** The primitive kinds a leaf converts to. *)
Inductive Kind := KInt | KFloat | KString | KBool.

(** Modelled from the spec: the declarations of the schema types
    (libbeat/common/schema) are not among the sources.  A node is a leaf
    conversion or a nested dictionary, each with a source key, a target path
    (empty when absent: the field name is the key) and an optional flag.
    [Object] is the third form the source file uses ([s.Object{...}]): a
    group of nodes with no source key of its own, whose children read the
    same document and whose results are written under the field name. *)
Inductive SchemaNode :=
  | Leaf (sourceKey targetPath : string) (kind : Kind) (optional : bool)
  | Nested (sourceKey targetPath : string)
           (child : list (string * SchemaNode)) (optional : bool)
  | Object (child : list (string * SchemaNode)).

(** A schema: field names with their nodes.  The source writes its schemas as
    Go map literals ([s.Schema{...}]), so the field names are pairwise
    distinct and the map keeps no order of its own; a list of this type holds
    the entries in the order a traversal visits them, which for the schemas
    declared below is the order of the literal. *)
Abbreviation Schema := (list (string * SchemaNode)).

(** The options of the node constructors. *)
Inductive Option := Optional.

Record MappingResult := { output : common.MapStr; errors : list FieldError }.

Definition empty_result : MappingResult := {| output := ∅; errors := [] |}.

(** Follow the segments of a dotted source key through nested documents. *)
Fixpoint resolve (segs : list string) (d : gmap string Value) : option Value :=
  match segs with
  | [] => None
  | k :: rest =>
      match rest with
      | [] => d !! k
      | _ :: _ =>
          match d !! k with
          | Some (VDocument sub) => resolve rest sub
          | _ => None
          end
      end
  end.

Definition Resolve (sourceKey : string) (d : gmap string Value) : option Value :=
  resolve (split_path sourceKey) d.

(** Conversion of a present value to the kind of the leaf. *)
Definition coerce `{Arch} (k : Kind) (v : Value) : option Field :=
  match k, v with
  | KInt, VNumber f => Some (FInt (int64_of_float64 f))
  | KFloat, VNumber f => Some (FFloat f)
  | KString, VString str => Some (FStr str)
  | KBool, VBool b => Some (FBool b)
  | _, _ => None
  end.

Definition node_target (n : SchemaNode) : string :=
  match n with
  | Leaf _ t _ _ => t
  | Nested _ t _ _ => t
  | Object _ => EmptyString
  end.

(** Where a node writes: its target path, or the field name without one. *)
Definition target (field : string) (n : SchemaNode) : string :=
  match node_target n with
  | EmptyString => field
  | t => t
  end.

(** The errors of an absent source key. *)
Definition absent (optional : bool) (p : string) : list FieldError :=
  if optional then [] else [{| path := p; cause := MissingField |}].

(** Record what one node produced: its value at its target, its errors at
    the end of the list. *)
Definition emit (field : string) (n : SchemaNode)
    (r : option Field * list FieldError) (acc : MappingResult) : MappingResult :=
  {| output := match r.1 with
               | Some v => common.Put (target field n) v (output acc)
               | None => output acc
               end;
     errors := errors acc ++ r.2 |}.

(** Modelled from the spec: the traversal ([Schema.Apply] and the mappers of
    libbeat/common/schema) is not among the sources.  Per node: resolve the
    source key; absent and optional is skipped, absent and required is a
    [MissingField]; a present leaf is coerced or is a [TypeMismatch]; a
    present sub-document is mapped by the child schema, whose errors carry
    the parent's source key as prefix.  Nodes are visited in the order of
    the list, each error is appended to one flat list, and no error stops
    the walk. *)
Fixpoint map_node `{Arch} (pfx : string) (n : SchemaNode)
    (input : gmap string Value) {struct n} : option Field * list FieldError :=
  match n with
  | Leaf src _ kind opt =>
      match Resolve src input with
      | None => (None, absent opt (join_path pfx src))
      | Some v =>
          match coerce kind v with
          | Some x => (Some x, [])
          | None => (None, [{| path := join_path pfx src; cause := TypeMismatch |}])
          end
      end
  | Nested src _ child opt =>
      match Resolve src input with
      | None => (None, absent opt (join_path pfx src))
      | Some (VDocument sub) =>
          let r :=
            (fix walk (entries : list (string * SchemaNode)) (acc : MappingResult)
               {struct entries} : MappingResult :=
               match entries with
               | [] => acc
               | (field, c) :: rest =>
                   walk rest (emit field c (map_node (join_path pfx src) c sub) acc)
               end) child empty_result in
          (Some (FDoc (output r)), errors r)
      | Some _ => (None, [{| path := join_path pfx src; cause := TypeMismatch |}])
      end
  | Object child =>
      let r :=
        (fix walk (entries : list (string * SchemaNode)) (acc : MappingResult)
           {struct entries} : MappingResult :=
           match entries with
           | [] => acc
           | (field, c) :: rest =>
               walk rest (emit field c (map_node pfx c input) acc)
           end) child empty_result in
      (Some (FDoc (output r)), errors r)
  end.

(** One step of the walk: map the node of a field and record the result. *)
Definition apply_field `{Arch} (pfx : string) (input : gmap string Value)
    (acc : MappingResult) (entry : string * SchemaNode) : MappingResult :=
  emit entry.1 entry.2 (map_node pfx entry.2 input) acc.

(** The walk over the fields of a schema, in the order of the list. *)
Definition apply_schema `{Arch} (pfx : string) (input : gmap string Value)
    (sch : Schema) (acc : MappingResult) : MappingResult :=
  fold_left (apply_field pfx input) sch acc.

(** The output document and the ordered list of soft errors. *)
Definition ApplyTo `{Arch} (sch : Schema) (input : gmap string Value) : MappingResult :=
  apply_schema EmptyString input sch empty_result.

(** Modelled from the spec: [Apply] always returns the document built so far,
    paired with [nil] or an aggregate error saying that some field failed. *)
Definition Apply `{Arch} (sch : Schema) (input : gmap string Value)
    : common.MapStr * option error :=
  let r := ApplyTo sch input in
  (output r, match errors r with
             | [] => None
             | _ :: _ => Some (AggregateError (errors r))
             end).

End s.

(** ** The node constructors (package [mapstriface], imported as [c]) *)

Module c.

(** The option that makes a dictionary optional. *)
Inductive DictOption := DictOptional.

Definition is_optional (opts : list s.Option) : bool :=
  match opts with [] => false | _ :: _ => true end.

Definition is_dict_optional (opts : list DictOption) : bool :=
  match opts with [] => false | _ :: _ => true end.

(** Modelled from the spec: the constructors are not among the sources.  Each
    takes the source key and its options; none sets a target path, so the
    field name under which the node is declared is its key in the output. *)
Definition Int (key : string) (opts : list s.Option) : s.SchemaNode :=
  s.Leaf key EmptyString s.KInt (is_optional opts).

Definition Float (key : string) (opts : list s.Option) : s.SchemaNode :=
  s.Leaf key EmptyString s.KFloat (is_optional opts).

Definition Str (key : string) (opts : list s.Option) : s.SchemaNode :=
  s.Leaf key EmptyString s.KString (is_optional opts).

Definition Bool (key : string) (opts : list s.Option) : s.SchemaNode :=
  s.Leaf key EmptyString s.KBool (is_optional opts).

Definition Dict (key : string) (sch : s.Schema) (opts : list DictOption) : s.SchemaNode :=
  s.Nested key EmptyString sch (is_dict_optional opts).

End c.

(** ** The reporter (package [mb]) *)

Module mb.

(** [mb.Event], with the two fields this file sets. *)
Record Event := { RootFields : common.MapStr; Index : string }.

(** What a reporter has been handed, oldest first. *)
Inductive Report :=
  | ReportedError (e : error)
  | ReportedEvent (ev : Event).

(** [mb.ReporterV2], as the log of the calls it received. *)
Abbreviation ReporterV2 := (list Report).

(** [r.Error(err)] *)
Definition Error (r : ReporterV2) (e : error) : ReporterV2 := r ++ [ReportedError e].

(** [r.Event(event)]; the name [Event] is taken by the record. *)
Definition Emit (r : ReporterV2) (ev : Event) : ReporterV2 := r ++ [ReportedEvent ev].

(** The events among the reports. *)
Definition events (r : ReporterV2) : list Event :=
  omap (fun x => match x with ReportedEvent ev => Some ev | _ => None end) r.

(** The errors among the reports. *)
Definition errors (r : ReporterV2) : list error :=
  omap (fun x => match x with ReportedError e => Some e | _ => None end) r.

End mb.

(** How a call ends: it returns its [error] result, or it panics. *)
Inductive Outcome :=
  | Returned (err : option error)
  | Panicked.

(** Modelled from the spec: [elastic.ReportErrorForMissingField]
    (metricbeat/helper/elastic) is not among the sources.  A patch that
    cannot extract its value is a hard failure, handed to the error reporter
    and returned to the caller. *)
Definition ReportErrorForMissingField (field : string) (product : Product)
    (r : mb.ReporterV2) : mb.ReporterV2 * Outcome :=
  let err := MissingFieldError field product in
  (mb.Error r err, Returned (Some err)).

(** ** The monitoring schema *)

Definition reportingCsvDict : s.SchemaNode :=
  c.Dict "csv" [
    ("available", c.Bool "available" []);
    ("total", c.Int "total" [])
  ] [c.DictOptional].

Definition reportingPrintablePdfDict : s.SchemaNode :=
  c.Dict "printable_pdf" [
    ("available", c.Bool "available" []);
    ("total", c.Int "total" []);
    ("app", c.Dict "app" [
      ("visualization", c.Int "visualization" []);
      ("dashboard", c.Int "dashboard" [])
    ] [c.DictOptional]);
    ("layout", c.Dict "layout" [
      ("print", c.Int "print" []);
      ("preserve_layout", c.Int "preserve_layout" [])
    ] [c.DictOptional])
  ] [c.DictOptional].

Definition reportingStatusDict : s.SchemaNode :=
  c.Dict "status" [
    ("completed", c.Int "completed" [s.Optional]);
    ("failed", c.Int "failed" [s.Optional]);
    ("processing", c.Int "processing" [s.Optional]);
    ("pending", c.Int "pending" [s.Optional])
  ] [c.DictOptional].

Definition reportingPeriodSchema : s.Schema := [
  ("_all", c.Int "all" []);
  ("csv", reportingCsvDict);
  ("printable_pdf", reportingPrintablePdfDict);
  ("status", reportingStatusDict)
].

Section Collector.

Context `{Arch}.

(** [RequestsDict] is declared in another file of the package. *)
Variable RequestsDict : s.SchemaNode.

(** [json.Unmarshal] into a [map[string]interface{}]: an error message, or
    the decoded document. *)
Variable json_Unmarshal : list Byte.byte -> string + gmap string Value.

(** The instant [time.Now()] returns in the call. *)
Variable time_Now : Z.

(** [elastic.MakeXPackMonitoringIndexName], a collaborator. *)
Variable MakeXPackMonitoringIndexName : Product -> string.

Definition schemaXPackMonitoring : s.Schema := [
  ("concurrent_connections", c.Int "concurrent_connections" []);
  ("os", c.Dict "os" [
    ("load", c.Dict "load" [
      ("1m", c.Float "1m" []);
      ("5m", c.Float "5m" []);
      ("15m", c.Float "15m" [])
    ] []);
    ("memory", c.Dict "memory" [
      ("total_in_bytes", c.Int "total_bytes" []);
      ("free_in_bytes", c.Int "free_bytes" []);
      ("used_in_bytes", c.Int "used_bytes" [])
    ] []);
    ("uptime_in_millis", c.Int "uptime_ms" [])
  ] []);
  ("process", c.Dict "process" [
    ("event_loop_delay", c.Float "event_loop_delay" []);
    ("memory", c.Dict "memory" [
      ("heap", c.Dict "heap" [
        ("total_in_bytes", c.Int "total_bytes" []);
        ("used_in_bytes", c.Int "used_bytes" []);
        ("size_limit", c.Int "size_limit" [])
      ] [])
    ] []);
    ("uptime_in_millis", c.Int "uptime_ms" [])
  ] []);
  ("requests", RequestsDict);
  ("response_times", c.Dict "response_times" [
    ("average", c.Int "avg_ms" [s.Optional]);
    ("max", c.Int "max_ms" [s.Optional])
  ] [c.DictOptional]);
  ("kibana", c.Dict "kibana" [
    ("uuid", c.Str "uuid" []);
    ("name", c.Str "name" []);
    ("index", c.Str "index" []);
    ("host", c.Str "host" []);
    ("transport_address", c.Str "transport_address" []);
    ("version", c.Str "version" []);
    ("snapshot", c.Bool "snapshot" []);
    ("status", c.Str "status" [])
  ] []);
  ("usage", c.Dict "usage" [
    ("index", c.Str "kibana.index" []);
    ("index_pattern", c.Dict "kibana.index_pattern" [
      ("total", c.Int "total" [])
    ] []);
    ("search", c.Dict "kibana.search" [
      ("total", c.Int "total" [])
    ] []);
    ("visualization", c.Dict "kibana.visualization" [
      ("total", c.Int "total" [])
    ] []);
    ("dashboard", c.Dict "kibana.dashboard" [
      ("total", c.Int "total" [])
    ] []);
    ("timelion_sheet", c.Dict "kibana.timelion_sheet" [
      ("total", c.Int "total" [])
    ] []);
    ("graph_workspace", c.Dict "kibana.graph_workspace" [
      ("total", c.Int "total" [])
    ] []);
    ("xpack", s.Object [
      ("reporting", c.Dict "reporting" [
        ("available", c.Bool "available" []);
        ("enabled", c.Bool "enabled" []);
        ("browser_type", c.Str "browser_type" []);
        ("_all", c.Int "all" []);
        ("csv", reportingCsvDict);
        ("printable_pdf", reportingPrintablePdfDict);
        ("status", reportingStatusDict);
        ("lastDay", c.Dict "last_day" reportingPeriodSchema [c.DictOptional]);
        ("last7Days", c.Dict "last_7_days" reportingPeriodSchema [c.DictOptional])
      ] [c.DictOptional])
    ])
  ] [])
].

(** ** The event mapping *)

Definition eventMappingXPack (r : mb.ReporterV2) (intervalMs : Z)
    (content : list Byte.byte) : mb.ReporterV2 * Outcome :=
  match json_Unmarshal content with
  | inl msg =>
      let err := DecodeFailure msg in
      (mb.Error r err, Returned (Some err))
  | inr data =>
      let '(kibanaStatsFields, err) := s.Apply schemaXPackMonitoring data in
      match err with
      | Some err => (mb.Error r err, Returned (Some err))
      | None =>
          match data !! "process" with
          | Some (VDocument process) =>
              match process !! "memory" with
              | Some (VDocument memory) =>
                  match memory !! "resident_set_size_bytes" with
                  | Some (VNumber rss) =>
                      let kibanaStatsFields :=
                        common.Put "process.memory.resident_set_size_in_bytes"
                                   (FInt (int64_of_float64 rss)) kibanaStatsFields in
                      let timestamp := time_Now in
                      let kibanaStatsFields :=
                        common.Put "timestamp" (FTime timestamp) kibanaStatsFields in
                      match data !! "cluster_uuid" with
                      | Some (VString cluster_uuid) =>
                          let event :=
                            {| mb.RootFields :=
                                 <["cluster_uuid" := FStr cluster_uuid]>
                                 (<["timestamp" := FTime timestamp]>
                                 (<["interval_ms" := FInt intervalMs]>
                                 (<["type" := FStr "kibana_stats"]>
                                 (<["kibana_stats" := FDoc kibanaStatsFields]> ∅))));
                               mb.Index := MakeXPackMonitoringIndexName Kibana |} in
                          (mb.Emit r event, Returned None)
                      | _ => (r, Panicked)
                      end
                  | _ =>
                      ReportErrorForMissingField
                        "process.memory.resident_set_size_bytes" Kibana r
                  end
              | _ => ReportErrorForMissingField "process.memory" Kibana r
              end
          | _ => ReportErrorForMissingField "process" Kibana r
          end
      end
  end.

End Collector.

(** ** Documents for examples *)

(** A document from its key/value pairs, and an integral number. *)
Definition obj (l : list (string * Value)) : Value := VDocument (list_to_map l).
Definition num (z : Z) : Value := VNumber (float64_of_Z z).

(** The schema of the nested-flattening scenario: a nested node at source
    key "a.b" that maps to target "x" (by its field name, or by its target
    path under another field name) and holds one required leaf "c". *)
Definition flatten_schema (kind : s.Kind) (optional : bool) : s.Schema :=
  [("x", s.Nested "a.b" EmptyString [("c", s.Leaf "c" EmptyString kind false)] optional)].

Definition flatten_schema_by_path (kind : s.Kind) (optional : bool) : s.Schema :=
  [("y", s.Nested "a.b" "x" [("c", s.Leaf "c" EmptyString kind false)] optional)].

(** The documents [{"a":{"b":{"c":v}}}] and [{"a":{}}]. *)
Definition doc_a_b_c (v : Value) : gmap string Value :=
  list_to_map [("a", obj [("b", obj [("c", v)])])].

Definition doc_a_empty : gmap string Value := list_to_map [("a", obj [])].

(** The node of the usage schema with source key "kibana.index_pattern". *)
Definition index_pattern_node : s.SchemaNode :=
  c.Dict "kibana.index_pattern" [("total", c.Int "total" [])] [].

(** A stand-in for [RequestsDict] in examples. *)
Definition sample_RequestsDict : s.SchemaNode :=
  c.Dict "requests" [
    ("disconnects", c.Int "disconnects" [s.Optional]);
    ("total", c.Int "total" [s.Optional])
  ] [].

(** A stats payload carrying every field the schema requires, with the given
    value at [process.memory.resident_set_size_bytes]. *)
Definition sample_payload (rss : Value) : list (string * Value) := [
  ("concurrent_connections", num 4);
  ("os", obj [
    ("load", obj [("1m", num 1); ("5m", num 2); ("15m", num 3)]);
    ("memory", obj [("total_bytes", num 100); ("free_bytes", num 40);
                    ("used_bytes", num 60)]);
    ("uptime_ms", num 5000)]);
  ("process", obj [
    ("event_loop_delay", num 1);
    ("memory", obj [
      ("heap", obj [("total_bytes", num 10); ("used_bytes", num 5);
                    ("size_limit", num 20)]);
      ("resident_set_size_bytes", rss)]);
    ("uptime_ms", num 7000)]);
  ("requests", obj [("total", num 9)]);
  ("kibana", obj [
    ("uuid", VString "u1"); ("name", VString "kibana"); ("index", VString ".kibana");
    ("host", VString "localhost"); ("transport_address", VString "localhost:5601");
    ("version", VString "7.0.0"); ("snapshot", VBool false);
    ("status", VString "green")]);
  ("usage", obj [
    ("kibana", obj [
      ("index", VString ".kibana");
      ("index_pattern", obj [("total", num 1)]);
      ("search", obj [("total", num 2)]);
      ("visualization", obj [("total", num 3)]);
      ("dashboard", obj [("total", num 4)]);
      ("timelion_sheet", obj [("total", num 5)]);
      ("graph_workspace", obj [("total", num 6)])])])
].

(** The payload with the cluster identifier "c1". *)
Definition sample_data (rss : Value) : gmap string Value :=
  list_to_map (("cluster_uuid", VString "c1") :: sample_payload rss).

(** The payload without a cluster identifier. *)
Definition sample_data_no_uuid : gmap string Value :=
  list_to_map (sample_payload (num 123)).

(** The document of the end-to-end scenario:
    [{"cluster_uuid":"c1","process":{"memory":{"resident_set_size_bytes":123.0}}}]. *)
Definition scenario_data : gmap string Value :=
  list_to_map [
    ("cluster_uuid", VString "c1");
    ("process", obj [("memory", obj [("resident_set_size_bytes", num 123)])])
  ].

(** A decoder that yields the given document, and an index name. *)
Definition decodes_to (data : gmap string Value)
    : list Byte.byte -> string + gmap string Value := fun _ => inr data.

Definition sample_index (p : Product) : string := ".monitoring-kibana-6-mb".

(** The monitoring schema with the stand-in, and a call of the event mapping
    on amd64 with an empty reporter, interval 10000 and the instant 1700, whose
    payload decodes to the given document. *)
Definition sample_schema : s.Schema := schemaXPackMonitoring sample_RequestsDict.

Definition sample_run (data : gmap string Value) : mb.ReporterV2 * Outcome :=
  @eventMappingXPack amd64 sample_RequestsDict (decodes_to data) 1700 sample_index
    [] 10000 [].

(** The sub-document and the event that call builds on the full payload: the
    schema output, patched, stamped and wrapped as the code does. *)
Definition sample_sub : gmap string Field :=
  common.Put "timestamp" (FTime 1700)
    (common.Put "process.memory.resident_set_size_in_bytes" (FInt 123)
       (@s.Apply amd64 sample_schema (sample_data (num 123))).1).

Definition sample_event : mb.Event :=
  {| mb.RootFields :=
       <["cluster_uuid" := FStr "c1"]>
       (<["timestamp" := FTime 1700]>
       (<["interval_ms" := FInt 10000]>
       (<["type" := FStr "kibana_stats"]>
       (<["kibana_stats" := FDoc sample_sub]> ∅))));
     mb.Index := sample_index Kibana |}.

(** The float64 2^70: mantissa 2^52, exponent 18. *)
Definition two_pow_70 : float64 := S754_finite false (2 ^ 52) 18.

(** The fields of the reporting dictionary and of the usage dictionary, as
    [schemaXPackMonitoring] declares them inline. *)
Definition reporting_fields : s.Schema := [
  ("available", c.Bool "available" []);
  ("enabled", c.Bool "enabled" []);
  ("browser_type", c.Str "browser_type" []);
  ("_all", c.Int "all" []);
  ("csv", reportingCsvDict);
  ("printable_pdf", reportingPrintablePdfDict);
  ("status", reportingStatusDict);
  ("lastDay", c.Dict "last_day" reportingPeriodSchema [c.DictOptional]);
  ("last7Days", c.Dict "last_7_days" reportingPeriodSchema [c.DictOptional])
].

Definition usage_fields : s.Schema := [
  ("index", c.Str "kibana.index" []);
  ("index_pattern", c.Dict "kibana.index_pattern" [("total", c.Int "total" [])] []);
  ("search", c.Dict "kibana.search" [("total", c.Int "total" [])] []);
  ("visualization", c.Dict "kibana.visualization" [("total", c.Int "total" [])] []);
  ("dashboard", c.Dict "kibana.dashboard" [("total", c.Int "total" [])] []);
  ("timelion_sheet", c.Dict "kibana.timelion_sheet" [("total", c.Int "total" [])] []);
  ("graph_workspace", c.Dict "kibana.graph_workspace" [("total", c.Int "total" [])] []);
  ("xpack", s.Object [
    ("reporting", c.Dict "reporting" reporting_fields [c.DictOptional])
  ])
].

(** The required fields of a reporting document, by source key. *)
Definition reporting_required : list string :=
  ["available"; "enabled"; "browser_type"; "all"].

(** The sample payload with the given value at usage.reporting. *)
Definition sample_data_reporting (reporting : Value) : gmap string Value :=
  <["usage" := obj [
      ("kibana", obj [
        ("index", VString ".kibana");
        ("index_pattern", obj [("total", num 1)]);
        ("search", obj [("total", num 2)]);
        ("visualization", obj [("total", num 3)]);
        ("dashboard", obj [("total", num 4)]);
        ("timelion_sheet", obj [("total", num 5)]);
        ("graph_workspace", obj [("total", num 6)])]);
      ("reporting", reporting)]]>
  (sample_data (num 123)).

(** A reporting document with its four required fields, and one without the
    browser type. *)
Definition sample_reporting : gmap string Value :=
  list_to_map [("available", VBool true); ("enabled", VBool true);
               ("browser_type", VString "chromium"); ("all", num 3)].

Definition sample_reporting_incomplete : gmap string Value :=
  list_to_map [("available", VBool true); ("enabled", VBool true); ("all", num 3)].

(** The sample payload with the given value at response_times. *)
Definition sample_data_response_times (rt : Value) : gmap string Value :=
  <["response_times" := rt]> (sample_data (num 123)).

(** A reporting document that also has a CSV block, a PDF block with its
    app figures, one status count, and the figures of the last day. *)
Definition sample_reporting_full : gmap string Value :=
  list_to_map [
    ("available", VBool true); ("enabled", VBool true);
    ("browser_type", VString "chromium"); ("all", num 3);
    ("csv", obj [("available", VBool true); ("total", num 2)]);
    ("printable_pdf", obj [
      ("available", VBool true); ("total", num 1);
      ("app", obj [("visualization", num 1); ("dashboard", num 0)])]);
    ("status", obj [("completed", num 3)]);
    ("last_day", obj [("all", num 1)])
  ].

(** A schema with one dictionary of two required leaves, and a document
    whose dictionary holds the first of them. *)
Definition sample_os_schema : s.Schema :=
  [("os", c.Dict "os" [("up", c.Int "up" []); ("name", c.Str "name" [])] [])].

Definition sample_os_data : gmap string Value :=
  list_to_map [("os", obj [("up", num 7)])].

(** The dotted path the manual patch reads. *)
Definition rss_path : string := "process.memory.resident_set_size_bytes".

(** ** Statement vocabulary *)

#[local] Open Scope list_scope.

(** The first segment of a dotted key: the key of the top-level entry a
    write at that path touches. *)
Definition head_key (key : string) : string := hd EmptyString (split_path key).

(** The top-level output key a schema entry writes to. *)
Definition entry_head (entry : string * s.SchemaNode) : string :=
  head_key (s.target entry.1 entry.2).

(** The source key of a node that has one. *)
Definition node_source (n : s.SchemaNode) : option string :=
  match n with
  | s.Leaf src _ _ _ => Some src
  | s.Nested src _ _ _ => Some src
  | s.Object _ => None
  end.

Definition node_optional (n : s.SchemaNode) : bool :=
  match n with
  | s.Leaf _ _ _ opt => opt
  | s.Nested _ _ _ opt => opt
  | s.Object _ => false
  end.

(** What one entry does to the output document alone. *)
Definition write_field `{Arch} (pfx : string) (d : gmap string Value)
    (out : gmap string Field) (entry : string * s.SchemaNode) : gmap string Field :=
  match (s.map_node pfx entry.2 d).1 with
  | Some v => common.Put (s.target entry.1 entry.2) v out
  | None => out
  end.

(** Two nodes, or two lists of entries, denote the same schema when they hold
    the same entries in whatever order, at every level.  The source writes
    schemas as Go map literals, and Go leaves the order in which a [range]
    loop visits a map unspecified, so either list may be what one application
    of the schema walks. *)
Inductive same_node : s.SchemaNode -> s.SchemaNode -> Prop :=
  | same_node_refl n : same_node n n
  | same_Nested src t ch ch' opt :
      same_map ch ch' -> same_node (s.Nested src t ch opt) (s.Nested src t ch' opt)
  | same_Object ch ch' :
      same_map ch ch' -> same_node (s.Object ch) (s.Object ch')
with same_map : s.Schema -> s.Schema -> Prop :=
  | same_map_refl l : same_map l l
  | same_map_skip f n n' l l' :
      same_node n n' -> same_map l l' -> same_map ((f, n) :: l) ((f, n') :: l')
  | same_map_swap e1 e2 l : same_map (e1 :: e2 :: l) (e2 :: e1 :: l)
  | same_map_trans l1 l2 l3 : same_map l1 l2 -> same_map l2 l3 -> same_map l1 l3.

Scheme same_node_mut := Minimality for same_node Sort Prop
  with same_map_mut := Minimality for same_map Sort Prop.

Combined Scheme same_mutind from same_node_mut, same_map_mut.

(** No two entries of a node's children write under the same top-level key,
    at every level below the node. *)
Fixpoint well_keyed (n : s.SchemaNode) : Prop :=
  match n with
  | s.Leaf _ _ _ _ => True
  | s.Nested _ _ child _ | s.Object child =>
      NoDup (map entry_head child)
      /\ (fix all (entries : list (string * s.SchemaNode)) : Prop :=
            match entries with
            | [] => True
            | (_, c) :: rest => well_keyed c /\ all rest
            end) child
  end.

(** The same for the entries of a schema. *)
Definition well_keyed_schema (sch : s.Schema) : Prop :=
  NoDup (map entry_head sch) /\ Forall (fun entry => well_keyed entry.2) sch.

(** What a schema can map from an input, at any depth: the converted value
    of a leaf whose source key resolves to a value of its kind, reached
    through dictionaries whose source keys resolve to documents, at the path
    made of the targets on the way.  Nothing here looks at the other fields,
    or at errors. *)
Inductive yields `{Arch} : s.Schema -> gmap string Value -> list string -> Field -> Prop :=
  | yields_leaf sch d field src t kind opt v x :
      In (field, s.Leaf src t kind opt) sch ->
      s.Resolve src d = Some v -> s.coerce kind v = Some x ->
      yields sch d (split_path (s.target field (s.Leaf src t kind opt))) x
  | yields_nested sch d field src t child opt sub path x :
      In (field, s.Nested src t child opt) sch ->
      s.Resolve src d = Some (VDocument sub) ->
      yields child sub path x ->
      yields sch d (split_path (s.target field (s.Nested src t child opt)) ++ path) x
  | yields_object sch d field child path x :
      In (field, s.Object child) sch ->
      yields child d path x ->
      yields sch d (split_path (s.target field (s.Object child)) ++ path) x.

(** The errors one entry raises. *)
Definition entry_errors `{Arch} (pfx : string) (d : gmap string Value)
    (entry : string * s.SchemaNode) : list FieldError :=
  (s.map_node pfx entry.2 d).2.

(** The soft error of a required source key that is absent. *)
Definition missing (p : string) : FieldError := {| path := p; cause := MissingField |}.

(** The value of a finite float is [sm * 2 ^ e]; [t] is that value with its
    fraction discarded when it has the sign of [sm] (or is zero) and its
    magnitude is the largest integer not above the magnitude of the value. *)
Definition discards_fraction (sm e t : Z) : Prop :=
  if (0 <=? e) then t = sm * 2 ^ e
  else Z.abs t * 2 ^ (- e) <= Z.abs sm < (Z.abs t + 1) * 2 ^ (- e)
       /\ 0 <= t * sm.

(** ** Paths and writes *)

(** Membership of a literal string in a literal list, and its negation. *)
Ltac among := repeat first [apply list_elem_of_here | apply list_elem_of_further].
Ltac distinct :=
  repeat (apply NoDup_cons; split;
          [repeat (apply not_elem_of_cons; split; [discriminate|]);
           apply not_elem_of_nil|]);
  apply NoDup_nil_2.
Ltac well_keyed_tac :=
  repeat match goal with
         | |- Forall _ _ => constructor
         | |- well_keyed _ => vm_compute
         | |- _ /\ _ => split
         | |- True => exact I
         | |- NoDup _ => vm_compute; distinct
         end.
Ltac not_among :=
  repeat (apply not_elem_of_cons; split; [discriminate|]); apply not_elem_of_nil.

Section PathLemmas.

Lemma split_on_cons sep str : exists seg segs, split_on sep str = seg :: segs.
Proof.
  induction str as [|ch rest [seg [segs IH]]]; simpl; [eauto|].
  destruct (Ascii.eqb ch sep); [eauto|]. rewrite IH. eauto.
Qed.

Lemma split_path_head key : exists segs, split_path key = head_key key :: segs.
Proof.
  unfold head_key, split_path.
  destruct (split_on_cons "."%char key) as [seg [segs E]]. rewrite E. eauto.
Qed.

Lemma put_lookup_ne k rest v (m : gmap string Field) k' :
  k <> k' -> common.put (k :: rest) v m !! k' = m !! k'.
Proof.
  intros Hne. destruct rest; simpl; by rewrite lookup_insert_ne.
Qed.

Lemma get_put segs v (m : gmap string Field) :
  segs <> [] -> common.get segs (common.put segs v m) = Some v.
Proof.
  revert m. induction segs as [|k rest IH]; intros m Hne; [done|].
  destruct rest as [|k' rest'].
  - simpl. by rewrite lookup_insert_eq.
  - change (common.put (k :: k' :: rest') v m)
      with (<[k := FDoc (common.put (k' :: rest') v
                 match m !! k with Some (FDoc d) => d | _ => ∅ end)]> m).
    change (common.get (k :: k' :: rest') ?x)
      with (match x !! k with
            | Some (FDoc d) => common.get (k' :: rest') d
            | _ => None
            end).
    rewrite lookup_insert_eq. by apply IH.
Qed.

Lemma get_lookup_ext k rest (m1 m2 : gmap string Field) :
  m1 !! k = m2 !! k -> common.get (k :: rest) m1 = common.get (k :: rest) m2.
Proof.
  intros E. destruct rest; simpl; by rewrite E.
Qed.

Lemma put_commute k1 r1 v1 k2 r2 v2 (m : gmap string Field) :
  k1 <> k2 ->
  common.put (k1 :: r1) v1 (common.put (k2 :: r2) v2 m)
  = common.put (k2 :: r2) v2 (common.put (k1 :: r1) v1 m).
Proof.
  intros Hne.
  destruct r1 as [|a1 r1], r2 as [|a2 r2]; simpl;
    rewrite ?lookup_insert_ne by done; by apply insert_insert_ne.
Qed.

Lemma Get_Put key v (m : gmap string Field) :
  common.Get key (common.Put key v m) = Some v.
Proof.
  unfold common.Get, common.Put.
  destruct (split_path_head key) as [segs E]. rewrite E. by apply get_put.
Qed.

Lemma Put_single key v (m : gmap string Field) :
  split_path key = [key] -> common.Put key v m = <[key := v]> m.
Proof. unfold common.Put. by intros ->. Qed.

Lemma Put_lookup_ne key v (m : gmap string Field) k :
  head_key key <> k -> common.Put key v m !! k = m !! k.
Proof.
  unfold common.Put. destruct (split_path_head key) as [segs E]. rewrite E.
  apply put_lookup_ne.
Qed.

Lemma Get_lookup_ext key (m1 m2 : gmap string Field) :
  m1 !! head_key key = m2 !! head_key key -> common.Get key m1 = common.Get key m2.
Proof.
  unfold common.Get. destruct (split_path_head key) as [segs E]. rewrite E.
  apply get_lookup_ext.
Qed.

Lemma Put_commute key1 v1 key2 v2 (m : gmap string Field) :
  head_key key1 <> head_key key2 ->
  common.Put key1 v1 (common.Put key2 v2 m)
  = common.Put key2 v2 (common.Put key1 v1 m).
Proof.
  unfold common.Put.
  destruct (split_path_head key1) as [segs1 E1].
  destruct (split_path_head key2) as [segs2 E2].
  rewrite E1, E2. apply put_commute.
Qed.

(** Reading below a sub-document reads in the sub-document. *)
Lemma get_app segs path (m sub : gmap string Field) :
  common.get segs m = Some (FDoc sub) -> path <> [] ->
  common.get (segs ++ path) m = common.get path sub.
Proof.
  revert m. induction segs as [|k rest IH]; intros m Hget Hpath; [discriminate|].
  destruct rest as [|r rs].
  - cbn [common.get] in Hget. cbn [app common.get].
    destruct path as [|p ps]; [done|]. by rewrite Hget.
  - change ((k :: r :: rs) ++ path) with (k :: (r :: rs) ++ path).
    change (common.get (k :: (r :: rs) ++ path) m)
      with (match m !! k with
            | Some (FDoc d) => common.get ((r :: rs) ++ path) d
            | _ => None
            end).
    change (common.get (k :: r :: rs) m)
      with (match m !! k with
            | Some (FDoc d) => common.get (r :: rs) d
            | _ => None
            end) in Hget.
    destruct (m !! k) as [[| | | |doc|]|]; try discriminate. by apply IH.
Qed.

End PathLemmas.

(** ** The walk over a schema *)

Section WalkLemmas.

Context `{Arch}.

Implicit Types (d : gmap string Value) (sch : s.Schema) (acc : s.MappingResult).

(** The walk inside a nested node is the walk of [apply_schema]. *)
Lemma map_node_Nested pfx src t child opt d :
  s.map_node pfx (s.Nested src t child opt) d
  = match s.Resolve src d with
    | None => (None, s.absent opt (join_path pfx src))
    | Some (VDocument sub) =>
        let r := s.apply_schema (join_path pfx src) sub child s.empty_result in
        (Some (FDoc (s.output r)), s.errors r)
    | Some _ =>
        (None, [{| path := join_path pfx src; cause := TypeMismatch |}])
    end.
Proof.
  simpl. destruct (s.Resolve src d) as [[| | | |sub|]|]; try reflexivity.
  unfold s.apply_schema. generalize s.empty_result.
  induction child as [|[field c] rest IH]; intros acc; [reflexivity|].
  simpl in *. apply IH.
Qed.

Lemma map_node_Object pfx child d :
  s.map_node pfx (s.Object child) d
  = let r := s.apply_schema pfx d child s.empty_result in
    (Some (FDoc (s.output r)), s.errors r).
Proof.
  simpl. unfold s.apply_schema. generalize s.empty_result.
  induction child as [|[field c] rest IH]; intros acc; [reflexivity|].
  simpl in *. apply IH.
Qed.

Lemma apply_schema_cons pfx d entry sch acc :
  s.apply_schema pfx d (entry :: sch) acc
  = s.apply_schema pfx d sch (s.apply_field pfx d acc entry).
Proof. reflexivity. Qed.

Lemma apply_schema_app pfx d sch1 sch2 acc :
  s.apply_schema pfx d (sch1 ++ sch2) acc
  = s.apply_schema pfx d sch2 (s.apply_schema pfx d sch1 acc).
Proof. unfold s.apply_schema. apply fold_left_app. Qed.

(** The error list is the errors of the nodes, one node after the other. *)
Lemma apply_schema_errors pfx d sch acc :
  s.errors (s.apply_schema pfx d sch acc)
  = s.errors acc ++ flat_map (fun entry => (s.map_node pfx entry.2 d).2) sch.
Proof.
  revert acc. induction sch as [|entry sch IH]; intros acc.
  - simpl. by rewrite app_nil_r.
  - rewrite apply_schema_cons, IH. simpl. by rewrite <- app_assoc.
Qed.

(** The output document does not depend on the errors gathered so far. *)
Lemma apply_schema_output pfx d sch acc :
  s.output (s.apply_schema pfx d sch acc)
  = fold_left (write_field pfx d) sch (s.output acc).
Proof.
  revert acc. induction sch as [|entry sch IH]; intros acc; [reflexivity|].
  rewrite apply_schema_cons, IH. reflexivity.
Qed.

Lemma write_field_lookup_ne pfx d out entry k :
  entry_head entry <> k -> write_field pfx d out entry !! k = out !! k.
Proof.
  intros Hne. unfold write_field.
  destruct ((s.map_node pfx entry.2 d).1); [|done].
  by apply Put_lookup_ne.
Qed.

(** A key no entry writes to keeps the value it had. *)
Lemma apply_schema_lookup_ne pfx d sch acc k :
  Forall (fun entry => entry_head entry <> k) sch ->
  s.output (s.apply_schema pfx d sch acc) !! k = s.output acc !! k.
Proof.
  rewrite apply_schema_output. generalize (s.output acc).
  induction sch as [|entry sch IH]; intros out Hall; [done|].
  inversion Hall; subst. simpl. rewrite IH by done.
  by apply write_field_lookup_ne.
Qed.

Lemma write_field_commute pfx d out e1 e2 :
  entry_head e1 <> entry_head e2 ->
  write_field pfx d (write_field pfx d out e1) e2
  = write_field pfx d (write_field pfx d out e2) e1.
Proof.
  intros Hne. unfold write_field.
  destruct ((s.map_node pfx e1.2 d).1), ((s.map_node pfx e2.2 d).1); try done.
  apply Put_commute. unfold entry_head in Hne. congruence.
Qed.

(** The value a node produced is at its target in the final document, when no
    other entry writes under the same top-level key. *)
Lemma apply_schema_Get pfx d sch1 field n sch2 acc v :
  (s.map_node pfx n d).1 = Some v ->
  Forall (fun entry => entry_head entry <> entry_head (field, n)) sch2 ->
  common.Get (s.target field n)
    (s.output (s.apply_schema pfx d (sch1 ++ (field, n) :: sch2) acc)) = Some v.
Proof.
  intros Hv Hall.
  rewrite apply_schema_app, apply_schema_cons.
  erewrite Get_lookup_ext; [|by apply apply_schema_lookup_ne].
  unfold s.apply_field, s.emit. simpl. rewrite Hv. apply Get_Put.
Qed.

(** In a walk whose entries write under distinct keys, no entry before or
    after a given one writes under its key. *)
Lemma NoDup_heads_split sch1 entry sch2 :
  NoDup (map entry_head (sch1 ++ entry :: sch2)) ->
  Forall (fun e => entry_head e <> entry_head entry) sch1
  /\ Forall (fun e => entry_head e <> entry_head entry) sch2.
Proof.
  rewrite map_app. cbn [map]. intros (_ & Hdisj & Hnd)%NoDup_app.
  apply NoDup_cons in Hnd as [Hnotin _].
  split; apply Forall_forall; intros e He E.
  - apply (Hdisj (entry_head e)).
    + apply list_elem_of_In, in_map. by apply list_elem_of_In.
    + rewrite E. apply list_elem_of_here.
  - apply Hnotin. rewrite <- E. apply list_elem_of_In, in_map.
    by apply list_elem_of_In.
Qed.

End WalkLemmas.

(** ** Properties of schema application *)

#[local] Arguments s.map_node : simpl never.

Section ApplyProperties.

Context `{Arch}.

Implicit Types (d : gmap string Value) (sch : s.Schema) (acc : s.MappingResult).

Lemma Apply_output sch d : (s.Apply sch d).1 = s.output (s.ApplyTo sch d).
Proof. reflexivity. Qed.

Lemma Apply_error_nil sch d :
  (s.Apply sch d).2 = None <-> s.errors (s.ApplyTo sch d) = [].
Proof.
  unfold s.Apply. simpl. destruct (s.errors (s.ApplyTo sch d)); split; congruence.
Qed.

Lemma map_node_Leaf pfx src t kind opt d :
  s.map_node pfx (s.Leaf src t kind opt) d
  = match s.Resolve src d with
    | None => (None, s.absent opt (join_path pfx src))
    | Some v =>
        match s.coerce kind v with
        | Some x => (Some x, [])
        | None => (None, [{| path := join_path pfx src; cause := TypeMismatch |}])
        end
    end.
Proof. reflexivity. Qed.

(** A node whose source key is absent yields no value, and no error or one
    [MissingField], by its optional flag. *)
Lemma map_node_absent pfx n src d :
  node_source n = Some src -> s.Resolve src d = None ->
  s.map_node pfx n d
  = (None, if node_optional n then [] else [missing (join_path pfx src)]).
Proof.
  intros Hsrc Hres. destruct n as [src' t kind opt|src' t child opt|child];
    simpl in Hsrc; simplify_eq.
  - rewrite map_node_Leaf, Hres. by destruct opt.
  - rewrite map_node_Nested, Hres. by destruct opt.
Qed.

(** A node's children are collision free as a schema. *)
Lemma well_keyed_children child :
  (NoDup (map entry_head child)
   /\ (fix all (entries : list (string * s.SchemaNode)) : Prop :=
         match entries with
         | [] => True
         | (_, c) :: rest => well_keyed c /\ all rest
         end) child)
  <-> well_keyed_schema child.
Proof.
  unfold well_keyed_schema. apply and_iff_compat_l.
  induction child as [|[f c] rest IH]; [by split; [constructor|]|].
  rewrite Forall_cons. simpl. by rewrite IH.
Qed.

(** The value a node produced is at its target in the document of a walk
    whose entries write under distinct keys. *)
Lemma apply_schema_Get_In pfx d sch field n v :
  NoDup (map entry_head sch) ->
  In (field, n) sch ->
  (s.map_node pfx n d).1 = Some v ->
  common.Get (s.target field n)
    (s.output (s.apply_schema pfx d sch s.empty_result)) = Some v.
Proof.
  intros Hnd Hin Hv. apply in_split in Hin as (sch1 & sch2 & ->).
  apply NoDup_heads_split in Hnd as [_ Hafter]. by apply apply_schema_Get.
Qed.

Lemma yields_nonempty sch d path x : yields sch d path x -> path <> [].
Proof.
  assert (Hsplit : forall key rest, split_path key ++ rest <> []).
  { intros key rest. destruct (split_path_head key) as [segs ->]. discriminate. }
  destruct 1 as [sch d field src t kind opt v x _ _ _| |].
  - rewrite <- (app_nil_r (split_path _)). apply Hsplit.
  - apply Hsplit.
  - apply Hsplit.
Qed.

(** Every value a schema can map is in the document of the walk, at its
    path, whatever the other fields did. *)
Lemma yields_get sch d path x :
  yields sch d path x ->
  forall pfx, well_keyed_schema sch ->
  common.get path (s.output (s.apply_schema pfx d sch s.empty_result)) = Some x.
Proof.
  induction 1 as [sch d field src t kind opt v x Hin Hres Hc
                 |sch d field src t child opt sub path x Hin Hres Hsub IH
                 |sch d field child path x Hin Hsub IH];
    intros pfx [Hnd Hwk].
  - apply (apply_schema_Get_In pfx d sch field _ x Hnd Hin).
    by rewrite map_node_Leaf, Hres, Hc.
  - pose proof (proj1 (Forall_forall _ _) Hwk _ (proj2 (list_elem_of_In _ _) Hin))
      as Hchild.
    cbn [snd] in Hchild. apply well_keyed_children in Hchild.
    rewrite (get_app _ path _ (s.output (s.apply_schema (join_path pfx src) sub child
                                           s.empty_result))).
    + by apply IH.
    + apply (apply_schema_Get_In pfx d sch field _ _ Hnd Hin).
      by rewrite map_node_Nested, Hres.
    + by apply yields_nonempty in Hsub.
  - pose proof (proj1 (Forall_forall _ _) Hwk _ (proj2 (list_elem_of_In _ _) Hin))
      as Hchild.
    cbn [snd] in Hchild. apply well_keyed_children in Hchild.
    rewrite (get_app _ path _ (s.output (s.apply_schema pfx d child s.empty_result))).
    + by apply IH.
    + apply (apply_schema_Get_In pfx d sch field _ _ Hnd Hin).
      by rewrite map_node_Object.
    + by apply yields_nonempty in Hsub.
Qed.

(** C4: [Apply] hands back the document the walk built whether or not a field
    failed.  Every value the schema can map from the input, at any depth, is
    in that document at its path, whatever errors its siblings, the fields
    around its dictionary or the fields below it raised.  The error is [nil]
    exactly when no field failed; a value a node produced is in the document
    whatever errors its siblings raised; and a schema of two required leaves,
    one present and convertible and one absent, gives (in either order) the
    converted value and exactly one error. *)
Theorem Apply_best_effort :
  (forall sch d path x,
     well_keyed_schema sch -> yields sch d path x ->
     common.get path (s.Apply sch d).1 = Some x)
  /\ (forall sch d,
     (s.Apply sch d).1 = s.output (s.ApplyTo sch d)
     /\ ((s.Apply sch d).2 = None <-> s.errors (s.ApplyTo sch d) = []))
  /\ (forall sch1 field n sch2 d v,
        (s.map_node EmptyString n d).1 = Some v ->
        Forall (fun entry => entry_head entry <> entry_head (field, n)) sch2 ->
        common.Get (s.target field n) (s.Apply (sch1 ++ (field, n) :: sch2) d).1
        = Some v)
  /\ (forall f1 k1 t1 kind1 f2 k2 t2 kind2 d v x sch,
        let present := (f1, s.Leaf k1 t1 kind1 false) in
        let gone := (f2, s.Leaf k2 t2 kind2 false) in
        s.Resolve k1 d = Some v -> s.coerce kind1 v = Some x ->
        s.Resolve k2 d = None ->
        sch = [present; gone] \/ sch = [gone; present] ->
        common.Get (s.target f1 present.2) (s.Apply sch d).1 = Some x
        /\ s.errors (s.ApplyTo sch d) = [missing k2]
        /\ length (s.errors (s.ApplyTo sch d)) = 1%nat
        /\ (s.Apply sch d).2 = Some (AggregateError [missing k2])).
Proof.
  split; [|split; [|split]].
  - intros sch d path x Hwk Hyields. rewrite Apply_output.
    by apply yields_get.
  - intros sch d. split; [apply Apply_output | apply Apply_error_nil].
  - intros sch1 field n sch2 d v Hv Hall. rewrite Apply_output.
    by apply apply_schema_Get.
  - intros f1 k1 t1 kind1 f2 k2 t2 kind2 d v x sch present gone Hk1 Hc Hk2 Hsch.
    assert (Hp : s.map_node EmptyString (s.Leaf k1 t1 kind1 false) d = (Some x, [])).
    { by rewrite map_node_Leaf, Hk1, Hc. }
    assert (Hg : s.map_node EmptyString (s.Leaf k2 t2 kind2 false) d
                 = (None, [missing k2])).
    { by rewrite map_node_Leaf, Hk2. }
    subst present gone.
    assert (Herr : s.errors (s.ApplyTo sch d) = [missing k2]).
    { unfold s.ApplyTo. rewrite apply_schema_errors.
      destruct Hsch as [-> | ->]; simpl; by rewrite Hp, Hg. }
    split; [|split; [exact Herr|split; [by rewrite Herr|]]].
    + rewrite Apply_output. unfold s.ApplyTo. rewrite apply_schema_output.
      destruct Hsch as [-> | ->]; simpl; unfold write_field; simpl.
      all: rewrite Hp, Hg; simpl; apply Get_Put.
    + unfold s.Apply. simpl. by rewrite Herr.
Qed.



(** C7: the nested node at the dotted source key "a.b" with target "x" maps
    [{"a":{"b":{"c":v}}}] to [{"x":{"c":v'}}] for the converted [v'] (5 gives
    5); on [{"a":{}}] it gives the empty document, with no error when
    optional and one [MissingField] at "a.b" when required.  The usage schema
    reads its sub-documents through such dotted keys. *)
Theorem nested_flattening kind v x optional RequestsDict f :
  s.coerce kind v = Some x ->
  s.ApplyTo (flatten_schema kind optional) (doc_a_b_c v)
    = {| s.output := {["x" := FDoc {["c" := x]}]}; s.errors := [] |}
  /\ s.ApplyTo (flatten_schema_by_path kind optional) (doc_a_b_c v)
    = {| s.output := {["x" := FDoc {["c" := x]}]}; s.errors := [] |}
  /\ s.ApplyTo (flatten_schema s.KInt false) (doc_a_b_c (num 5))
    = {| s.output := {["x" := FDoc {["c" := FInt 5]}]}; s.errors := [] |}
  /\ s.ApplyTo (flatten_schema kind true) doc_a_empty
    = {| s.output := ∅; s.errors := [] |}
  /\ s.ApplyTo (flatten_schema kind false) doc_a_empty
    = {| s.output := ∅; s.errors := [missing "a.b"] |}
  /\ (exists usage,
        In ("usage", c.Dict "usage" usage []) (schemaXPackMonitoring RequestsDict)
        /\ In ("index_pattern", index_pattern_node) usage)
  /\ s.map_node "usage" index_pattern_node
       (list_to_map [("kibana", obj [("index_pattern", obj [("total", VNumber f)])])])
     = (Some (FDoc {["total" := FInt (int64_of_float64 f)]}), [])
  /\ s.map_node "usage" index_pattern_node (list_to_map [("kibana", obj [])])
     = (None, [missing "usage.kibana.index_pattern"]).
Proof.
  intros Hc.
  assert (Hleaf : forall pfx, s.map_node pfx (s.Leaf "c" EmptyString kind false)
                    (list_to_map [("c", v)]) = (Some x, [])).
  { intros pfx. rewrite map_node_Leaf.
    replace (s.Resolve "c" (list_to_map [("c", v)])) with (Some v)
      by (vm_compute; reflexivity).
    by rewrite Hc. }
  assert (Hnested : forall pfx t,
            s.map_node pfx (s.Nested "a.b" t [("c", s.Leaf "c" EmptyString kind false)]
                              optional) (doc_a_b_c v)
            = (Some (FDoc {["c" := x]}), [])).
  { intros pfx t. rewrite map_node_Nested.
    replace (s.Resolve "a.b" (doc_a_b_c v)) with (Some (obj [("c", v)]))
      by (vm_compute; reflexivity).
    unfold obj, s.apply_schema, fold_left, s.apply_field, s.emit.
    cbn [fst snd]. rewrite Hleaf. cbn [fst snd s.output s.errors s.empty_result app].
    rewrite Put_single by reflexivity. by rewrite insert_empty. }
  assert (Habsent : forall opt,
            s.map_node EmptyString
              (s.Nested "a.b" EmptyString [("c", s.Leaf "c" EmptyString kind false)] opt)
              doc_a_empty
            = (None, if opt then [] else [missing "a.b"])).
  { intros opt. rewrite (map_node_absent _ _ "a.b");
      [reflexivity|reflexivity|vm_compute; reflexivity]. }
  split; [|split; [|split; [|split; [|split; [|split; [|split]]]]]].
  - unfold s.ApplyTo, flatten_schema, s.apply_schema, fold_left, s.apply_field, s.emit.
    cbn [fst snd]. rewrite Hnested. cbn [fst snd s.output s.errors s.empty_result app].
    rewrite Put_single by reflexivity. by rewrite insert_empty.
  - unfold s.ApplyTo, flatten_schema_by_path, s.apply_schema, fold_left,
      s.apply_field, s.emit.
    cbn [fst snd]. rewrite Hnested. cbn [fst snd s.output s.errors s.empty_result app].
    rewrite Put_single by reflexivity. by rewrite insert_empty.
  - vm_compute. reflexivity.
  - unfold s.ApplyTo, flatten_schema, s.apply_schema, fold_left, s.apply_field, s.emit.
    cbn [fst snd]. by rewrite Habsent.
  - unfold s.ApplyTo, flatten_schema, s.apply_schema, fold_left, s.apply_field, s.emit.
    cbn [fst snd]. by rewrite Habsent.
  - eexists. split.
    + unfold schemaXPackMonitoring. do 6 right. left. reflexivity.
    + right. left. reflexivity.
  - unfold index_pattern_node, c.Dict. rewrite map_node_Nested.
    replace (s.Resolve _ _) with (Some (obj [("total", VNumber f)]))
      by (vm_compute; reflexivity).
    unfold obj, s.apply_schema, fold_left, s.apply_field, s.emit, c.Int.
    cbn [fst snd]. rewrite map_node_Leaf.
    replace (s.Resolve _ _) with (Some (VNumber f)) by (vm_compute; reflexivity).
    cbn [s.coerce fst snd s.output s.errors s.empty_result app].
    rewrite Put_single by reflexivity. by rewrite insert_empty.
  - unfold index_pattern_node, c.Dict.
    rewrite (map_node_absent _ _ "kibana.index_pattern");
      [reflexivity|reflexivity|vm_compute; reflexivity].
Qed.

Lemma Permutation_same_map sch sch' : Permutation sch sch' -> same_map sch sch'.
Proof.
  induction 1 as [|[f n] l l' _ IH| |l1 l2 l3 _ IH1 _ IH2].
  - apply same_map_refl.
  - apply same_map_skip; [apply same_node_refl|exact IH].
  - apply same_map_swap.
  - by apply same_map_trans with l2.
Qed.

(** Visiting the entries in another order, at any level, changes neither what
    a node writes nor which errors it raises. *)
Lemma same_schema_same_result :
  (forall n n', same_node n n' ->
     s.node_target n' = s.node_target n
     /\ (well_keyed n ->
         well_keyed n'
         /\ forall pfx d,
              (s.map_node pfx n' d).1 = (s.map_node pfx n d).1
              /\ Permutation (s.map_node pfx n' d).2 (s.map_node pfx n d).2))
  /\ (forall l l', same_map l l' ->
        Permutation (map entry_head l') (map entry_head l)
        /\ (well_keyed_schema l ->
            Forall (fun entry => well_keyed entry.2) l'
            /\ forall pfx d,
                 (forall out, fold_left (write_field pfx d) l' out
                              = fold_left (write_field pfx d) l out)
                 /\ Permutation (flat_map (entry_errors pfx d) l')
                                (flat_map (entry_errors pfx d) l))).
Proof.
  apply same_mutind.
  - (* a node and itself *)
    intros n. split; [done|]. intros Hwk. split; [done|]. by intros pfx d.
  - (* nested dictionaries *)
    intros src t ch ch' opt _ [Hheads IH]. split; [done|].
    intros Hwk. simpl in Hwk. apply well_keyed_children in Hwk.
    destruct (IH Hwk) as [Hall Hres]. split.
    { simpl. apply well_keyed_children. split; [|exact Hall].
      destruct Hwk as [Hnd _]. by rewrite Hheads. }
    intros pfx d. rewrite !map_node_Nested.
    destruct (s.Resolve src d) as [[| | | |sub|]|]; try done.
    cbv zeta. cbn [fst snd].
    rewrite !apply_schema_output, !apply_schema_errors.
    destruct (Hres (join_path pfx src) sub) as [Hout Herr].
    by rewrite Hout.
  - (* groups *)
    intros ch ch' _ [Hheads IH]. split; [done|].
    intros Hwk. simpl in Hwk. apply well_keyed_children in Hwk.
    destruct (IH Hwk) as [Hall Hres]. split.
    { simpl. apply well_keyed_children. split; [|exact Hall].
      destruct Hwk as [Hnd _]. by rewrite Hheads. }
    intros pfx d. rewrite !map_node_Object.
    cbv zeta. cbn [fst snd].
    rewrite !apply_schema_output, !apply_schema_errors.
    destruct (Hres pfx d) as [Hout Herr].
    by rewrite Hout.
  - (* a list and itself *)
    intros l. split; [done|]. intros [_ Hall]. split; [done|]. by intros pfx d.
  - (* the same head on both sides *)
    intros f n n' l l' _ [Htarget IHn] _ [Hheads IHl].
    assert (Hhead : entry_head (f, n') = entry_head (f, n)).
    { unfold entry_head, s.target. simpl. by rewrite Htarget. }
    split; [simpl; by rewrite Hhead, Hheads|].
    intros [Hnd Hall]. simpl in Hnd. apply NoDup_cons in Hnd as [_ Hnd].
    apply Forall_cons in Hall as [Hwk Hall].
    destruct (IHn Hwk) as [Hwk' Hnode]. destruct (IHl (conj Hnd Hall)) as [Hall' Hres].
    split; [by constructor|].
    intros pfx d. destruct (Hnode pfx d) as [Hv He]. destruct (Hres pfx d) as [Hout Herr].
    split.
    + intros out. simpl. rewrite Hout. f_equal.
      unfold write_field, s.target. simpl. by rewrite Hv, Htarget.
    + simpl. unfold entry_errors at 1 3. simpl. by apply Permutation_app.
  - (* two neighbours exchanged *)
    intros e1 e2 l. split; [simpl; apply perm_swap|].
    intros [Hnd Hall]. split.
    { apply Forall_cons in Hall as [H1 Hall]. apply Forall_cons in Hall as [H2 Hall].
      by repeat constructor. }
    intros pfx d. split.
    + intros out. simpl. f_equal. apply write_field_commute.
      simpl in Hnd. apply NoDup_cons in Hnd as [Hnotin _].
      apply not_elem_of_cons in Hnotin as [Hne _]. congruence.
    + simpl. rewrite !app_assoc. apply Permutation_app_tail, Permutation_app_comm.
  - (* one after the other *)
    intros l1 l2 l3 _ [Hheads12 IH12] _ [Hheads23 IH23].
    split; [by rewrite Hheads23|].
    intros Hwk. destruct (IH12 Hwk) as [Hall2 Hres12].
    assert (Hwk2 : well_keyed_schema l2).
    { split; [|exact Hall2]. destruct Hwk as [Hnd _]. by rewrite Hheads12. }
    destruct (IH23 Hwk2) as [Hall3 Hres23]. split; [exact Hall3|].
    intros pfx d. destruct (Hres12 pfx d) as [Hout12 Herr12].
    destruct (Hres23 pfx d) as [Hout23 Herr23]. split.
    + intros out. by rewrite Hout23.
    + by rewrite Herr23.
Qed.

(** C8: two traversals of one schema over one input, whatever the order in
    which each visits the fields at any level, write the same output document
    and raise the same errors up to their order, so both fail or both
    succeed; the ordered error lists are identical when the fields are
    visited in the same order, or when at most one field fails. *)
Theorem Apply_deterministic_up_to_order sch sch' d :
  same_map sch sch' ->
  well_keyed_schema sch ->
  s.output (s.ApplyTo sch' d) = s.output (s.ApplyTo sch d)
  /\ Permutation (s.errors (s.ApplyTo sch' d)) (s.errors (s.ApplyTo sch d))
  /\ ((s.Apply sch' d).2 = None <-> (s.Apply sch d).2 = None)
  /\ (sch' = sch -> s.ApplyTo sch' d = s.ApplyTo sch d)
  /\ ((length (s.errors (s.ApplyTo sch d)) <= 1)%nat ->
      s.errors (s.ApplyTo sch' d) = s.errors (s.ApplyTo sch d)).
Proof.
  intros Hsame Hwk.
  destruct (proj2 same_schema_same_result sch sch' Hsame) as [_ Hres].
  destruct (Hres Hwk) as [_ Hres']. destruct (Hres' EmptyString d) as [Hfold Hperm].
  assert (Hout : s.output (s.ApplyTo sch' d) = s.output (s.ApplyTo sch d)).
  { unfold s.ApplyTo. rewrite !apply_schema_output. apply Hfold. }
  assert (Herr : Permutation (s.errors (s.ApplyTo sch' d)) (s.errors (s.ApplyTo sch d))).
  { unfold s.ApplyTo. rewrite !apply_schema_errors. exact Hperm. }
  split; [exact Hout|]. split; [exact Herr|]. split; [|split].
  - rewrite !Apply_error_nil. split; intros E; rewrite E in Herr.
    + apply Permutation_nil_r. by symmetry.
    + by apply Permutation_nil_r.
  - by intros ->.
  - intros Hlen.
    destruct (s.errors (s.ApplyTo sch d)) as [|e [|e' rest]].
    + by apply Permutation_nil_r.
    + by apply Permutation_singleton_r.
    + simpl in Hlen. lia.
Qed.

End ApplyProperties.

(** ** Properties of the event mapping *)

Section EventProperties.

Context `{Arch}.

Variable RequestsDict : s.SchemaNode.
Variable json_Unmarshal : list Byte.byte -> string + gmap string Value.
Variable time_Now : Z.
Variable MakeXPackMonitoringIndexName : Product -> string.

#[local] Abbreviation schema := (schemaXPackMonitoring RequestsDict).
#[local] Abbreviation run :=
  (eventMappingXPack RequestsDict json_Unmarshal time_Now MakeXPackMonitoringIndexName).

Implicit Types (r : mb.ReporterV2) (data : gmap string Value).

(** The path of the patch, read step by step as the code does. *)
Lemma Resolve_rss_path data :
  s.Resolve rss_path data
  = match data !! "process" with
    | Some (VDocument process) =>
        match process !! "memory" with
        | Some (VDocument memory) => memory !! "resident_set_size_bytes"
        | _ => None
        end
    | _ => None
    end.
Proof. reflexivity. Qed.

(** Reading the root document the code assembles. *)
Lemma RootFields_lookup (uuid timestamp interval type stats : Field) :
  let root : gmap string Field :=
    <["cluster_uuid" := uuid]>
    (<["timestamp" := timestamp]>
    (<["interval_ms" := interval]>
    (<["type" := type]>
    (<["kibana_stats" := stats]> ∅)))) in
  root !! "cluster_uuid" = Some uuid
  /\ root !! "timestamp" = Some timestamp
  /\ root !! "interval_ms" = Some interval
  /\ root !! "type" = Some type
  /\ root !! "kibana_stats" = Some stats.
Proof.
  cbv zeta.
  repeat split;
    repeat (rewrite lookup_insert_ne by discriminate); apply lookup_insert_eq.
Qed.

(** The event of a call in which every step succeeds. *)
Lemma eventMappingXPack_success r intervalMs content data rss uuid :
  json_Unmarshal content = inr data ->
  (s.Apply schema data).2 = None ->
  s.Resolve rss_path data = Some (VNumber rss) ->
  data !! "cluster_uuid" = Some (VString uuid) ->
  run r intervalMs content
  = (mb.Emit r
       {| mb.RootFields :=
            <["cluster_uuid" := FStr uuid]>
            (<["timestamp" := FTime time_Now]>
            (<["interval_ms" := FInt intervalMs]>
            (<["type" := FStr "kibana_stats"]>
            (<["kibana_stats" :=
                 FDoc (common.Put "timestamp" (FTime time_Now)
                        (common.Put "process.memory.resident_set_size_in_bytes"
                           (FInt (int64_of_float64 rss))
                           (s.Apply schema data).1))]> ∅))));
          mb.Index := MakeXPackMonitoringIndexName Kibana |},
     Returned None).
Proof.
  intros Hdec Happly Hrss Huuid. unfold eventMappingXPack. rewrite Hdec.
  destruct (s.Apply schema data) as [out err]. cbn [fst snd] in *. subst err.
  rewrite Resolve_rss_path in Hrss.
  destruct (data !! "process") as [[| | | |process|]|]; try discriminate.
  destruct (process !! "memory") as [[| | | |memory|]|]; try discriminate.
  rewrite Hrss, Huuid. reflexivity.
Qed.

(** A call that returns [nil] went through every step. *)
Lemma eventMappingXPack_nil_inv r intervalMs content :
  (run r intervalMs content).2 = Returned None ->
  exists data rss uuid,
    json_Unmarshal content = inr data
    /\ (s.Apply schema data).2 = None
    /\ s.Resolve rss_path data = Some (VNumber rss)
    /\ data !! "cluster_uuid" = Some (VString uuid).
Proof.
  unfold eventMappingXPack. intros Hrun.
  destruct (json_Unmarshal content) as [msg|data]; [discriminate|].
  destruct (s.Apply schema data) as [out [err|]] eqn:Happly; [discriminate|].
  exists data. rewrite Happly, Resolve_rss_path. cbn [snd].
  destruct (data !! "process") as [[| | | |process|]|]; try discriminate.
  destruct (process !! "memory") as [[| | | |memory|]|]; try discriminate.
  destruct (memory !! "resident_set_size_bytes") as [[| |rss| | |]|];
    try discriminate.
  destruct (data !! "cluster_uuid") as [[| | |uuid| |]|]; try discriminate.
  by exists rss, uuid.
Qed.

(** The schema rejects the bare scenario document: its first required field
    is already missing. *)
Lemma scenario_data_rejected :
  exists errs, s.Apply schema scenario_data
               = (s.output (s.ApplyTo schema scenario_data),
                  Some (AggregateError (missing "concurrent_connections" :: errs))).
Proof.
  unfold s.Apply.
  assert (E : exists errs, s.errors (s.ApplyTo schema scenario_data)
                           = missing "concurrent_connections" :: errs).
  { unfold s.ApplyTo. rewrite apply_schema_errors. simpl. eauto. }
  destruct E as [errs E]. exists errs. by rewrite E.
Qed.

(** C1: on a payload that carries the cluster identifier "c1", the resident
    set size 123.0 and every field the schema requires (schema application
    reports no error), with interval 10000, the reporter receives one event
    whose root holds cluster_uuid "c1", interval_ms 10000, type
    "kibana_stats" and, inside the kibana_stats sub-document, the patched
    integer 123 at process.memory.resident_set_size_in_bytes.  On the bare
    scenario document schema application fails, the error is reported and
    returned, and no event is emitted. *)
Theorem scenario_event r content data :
  json_Unmarshal content = inr data ->
  ((s.Apply schema data).2 = None ->
   data !! "cluster_uuid" = Some (VString "c1") ->
   s.Resolve rss_path data = Some (num 123) ->
   exists ev sub,
     run r 10000 content = (mb.Emit r ev, Returned None)
     /\ mb.RootFields ev !! "cluster_uuid" = Some (FStr "c1")
     /\ mb.RootFields ev !! "interval_ms" = Some (FInt 10000)
     /\ mb.RootFields ev !! "type" = Some (FStr "kibana_stats")
     /\ mb.RootFields ev !! "kibana_stats" = Some (FDoc sub)
     /\ common.Get "process.memory.resident_set_size_in_bytes" sub
        = Some (FInt 123))
  /\ (data = scenario_data ->
      exists e, run r 10000 content = (mb.Error r e, Returned (Some e))
                /\ mb.events (run r 10000 content).1 = mb.events r).
Proof.
  intros Hdec. split.
  - intros Happly Huuid Hrss.
    rewrite (eventMappingXPack_success r 10000 content data
               (float64_of_Z 123) "c1") by done.
    eexists _, _. split; [reflexivity|]. cbn [mb.RootFields].
    match goal with
    | |- context [<["cluster_uuid" := ?a]> (<[_ := ?b]> (<[_ := ?c]> (<[_ := ?d]>
                    (<[_ := ?e]> ∅))))] =>
        destruct (RootFields_lookup a b c d e) as (Hu & _ & Hi & Hty & Hst)
    end.
    split; [exact Hu|]. split; [exact Hi|]. split; [exact Hty|]. split; [exact Hst|].
    erewrite Get_lookup_ext; [|by apply Put_lookup_ne].
    rewrite Get_Put. reflexivity.
  - intros ->. destruct scenario_data_rejected as [errs E].
    unfold eventMappingXPack. rewrite Hdec, E.
    eexists. split; [reflexivity|]. simpl.
    unfold mb.Error, mb.events. rewrite omap_app. simpl. by rewrite app_nil_r.
Qed.

(** The top-level keys the monitoring schema writes. *)
Lemma schema_lookup_other data k :
  s.node_target RequestsDict = EmptyString ->
  k ∉ ["concurrent_connections"; "os"; "process"; "requests"; "response_times";
       "kibana"; "usage"] ->
  (s.Apply schema data).1 !! k = None.
Proof.
  intros Htarget Hk. rewrite Apply_output. unfold s.ApplyTo.
  rewrite apply_schema_lookup_ne; [done|].
  assert (Hreq : entry_head ("requests", RequestsDict) = "requests").
  { unfold entry_head, s.target. simpl. by rewrite Htarget. }
  unfold schemaXPackMonitoring.
  repeat (apply Forall_cons; split;
          [try rewrite Hreq; intros <-; apply Hk; among |]).
  apply Forall_nil_2.
Qed.

(** C2: in every call that returns [nil] the reporter received exactly one
    more event; interval_ms, type and cluster_uuid are at the root and not in
    the kibana_stats sub-document, while the capture timestamp is written at
    the root and also inside the sub-document, with the same instant. *)
Theorem metadata_placement r intervalMs content :
  s.node_target RequestsDict = EmptyString ->
  (run r intervalMs content).2 = Returned None ->
  exists ev sub uuid,
    (run r intervalMs content).1 = mb.Emit r ev
    /\ mb.RootFields ev !! "kibana_stats" = Some (FDoc sub)
    /\ mb.RootFields ev !! "timestamp" = Some (FTime time_Now)
    /\ mb.RootFields ev !! "interval_ms" = Some (FInt intervalMs)
    /\ mb.RootFields ev !! "type" = Some (FStr "kibana_stats")
    /\ mb.RootFields ev !! "cluster_uuid" = Some (FStr uuid)
    /\ sub !! "timestamp" = Some (FTime time_Now)
    /\ sub !! "interval_ms" = None
    /\ sub !! "type" = None
    /\ sub !! "cluster_uuid" = None.
Proof.
  intros Htarget Hrun.
  destruct (eventMappingXPack_nil_inv _ _ _ Hrun)
    as (data & rss & uuid & Hdec & Happly & Hrss & Huuid).
  rewrite (eventMappingXPack_success r intervalMs content data rss uuid) by done.
  assert (Hout : forall k,
             k ∉ ["concurrent_connections"; "os"; "process"; "requests";
                  "response_times"; "kibana"; "usage"] ->
             (s.Apply schema data).1 !! k = None).
  { intros k Hk. by apply schema_lookup_other. }
  eexists _, _, uuid. split; [reflexivity|]. cbn [mb.RootFields].
  match goal with
  | |- context [<["cluster_uuid" := ?a]> (<[_ := ?b]> (<[_ := ?c]> (<[_ := ?d]>
                  (<[_ := ?e]> ∅))))] =>
      destruct (RootFields_lookup a b c d e) as (Hu & Hts & Hi & Hty & Hst)
  end.
  split; [exact Hst|]. split; [exact Hts|]. split; [exact Hi|].
  split; [exact Hty|]. split; [exact Hu|].
  split; [rewrite Put_single by reflexivity; by rewrite lookup_insert_eq|].
  repeat split.
  all: rewrite Put_lookup_ne by (vm_compute; discriminate).
  all: rewrite Put_lookup_ne by (vm_compute; discriminate).
  all: apply Hout; not_among.
Qed.

Lemma events_Error r e : mb.events (mb.Error r e) = mb.events r.
Proof.
  unfold mb.Error, mb.events. rewrite omap_app. simpl. by rewrite app_nil_r.
Qed.

Lemma errors_Error r e : mb.errors (mb.Error r e) = mb.errors r ++ [e].
Proof. unfold mb.Error, mb.errors. by rewrite omap_app. Qed.

(** C3: when decoding fails, or schema application returns an error, or the
    manual patch cannot extract the resident set size (no process document,
    no process.memory document, or no number at resident_set_size_bytes),
    the call hands one error to the reporter, returns that same non-nil
    error, and emits no event. *)
Theorem hard_errors_short_circuit r intervalMs content :
  (exists msg, json_Unmarshal content = inl msg)
  \/ (exists data, json_Unmarshal content = inr data
       /\ ((s.Apply schema data).2 <> None
           \/ forall rss, s.Resolve rss_path data <> Some (VNumber rss))) ->
  exists e,
    run r intervalMs content = (mb.Error r e, Returned (Some e))
    /\ mb.errors (run r intervalMs content).1 = mb.errors r ++ [e]
    /\ mb.events (run r intervalMs content).1 = mb.events r
    /\ match json_Unmarshal content with
       | inl msg => e = DecodeFailure msg
       | inr data =>
           match (s.Apply schema data).2 with
           | Some err => e = err
           | None =>
               exists field, e = MissingFieldError field Kibana
                 /\ field ∈ ["process"; "process.memory"; rss_path]
           end
       end.
Proof.
  intros Hfail.
  assert (Hgoal : exists e,
    run r intervalMs content = (mb.Error r e, Returned (Some e))
    /\ match json_Unmarshal content with
       | inl msg => e = DecodeFailure msg
       | inr data =>
           match (s.Apply schema data).2 with
           | Some err => e = err
           | None =>
               exists field, e = MissingFieldError field Kibana
                 /\ field ∈ ["process"; "process.memory"; rss_path]
           end
       end).
  { unfold eventMappingXPack.
    destruct Hfail as [[msg Hdec]|[data [Hdec Hfail]]]; rewrite Hdec; [eauto|].
    destruct (s.Apply schema data) as [out [err|]] eqn:Happly; simpl; [eauto|].
    destruct Hfail as [Herr|Hrss]; [done|].
    rewrite Resolve_rss_path in Hrss. unfold ReportErrorForMissingField.
    destruct (data !! "process") as [[| | | |process|]|];
      try (eexists; split; [reflexivity|]; eexists; split; [reflexivity|among]).
    destruct (process !! "memory") as [[| | | |memory|]|];
      try (eexists; split; [reflexivity|]; eexists; split; [reflexivity|among]).
    destruct (memory !! "resident_set_size_bytes") as [[| |rss| | |]|];
      try (eexists; split; [reflexivity|]; eexists; split; [reflexivity|among]).
    by destruct (Hrss rss). }
  destruct Hgoal as [e [Hrun He]]. exists e. rewrite Hrun. simpl.
  split; [done|]. split; [apply errors_Error|]. split; [apply events_Error|done].
Qed.

(** C9: when decoding, schema application and the patch all succeed but
    "cluster_uuid" is absent or not a string, the call neither returns nor
    emits: the unchecked assertion panics and the reporter is left as it
    was. *)
Theorem unchecked_cluster_uuid_panics r intervalMs content data rss :
  json_Unmarshal content = inr data ->
  (s.Apply schema data).2 = None ->
  s.Resolve rss_path data = Some (VNumber rss) ->
  (forall uuid, data !! "cluster_uuid" <> Some (VString uuid)) ->
  run r intervalMs content = (r, Panicked).
Proof.
  intros Hdec Happly Hrss Huuid. unfold eventMappingXPack. rewrite Hdec.
  destruct (s.Apply schema data) as [out err]. cbn [snd] in Happly. subst err.
  rewrite Resolve_rss_path in Hrss.
  destruct (data !! "process") as [[| | | |process|]|]; try discriminate.
  destruct (process !! "memory") as [[| | | |memory|]|]; try discriminate.
  rewrite Hrss.
  destruct (data !! "cluster_uuid") as [[| | |uuid| |]|]; try reflexivity.
  by destruct (Huuid uuid).
Qed.

(** The patch when the assertion to [float64] fails, for whatever reason. *)
Lemma rss_assertion_failure r intervalMs content data process memory :
  json_Unmarshal content = inr data ->
  (s.Apply schema data).2 = None ->
  data !! "process" = Some (VDocument process) ->
  process !! "memory" = Some (VDocument memory) ->
  (forall rss, memory !! "resident_set_size_bytes" <> Some (VNumber rss)) ->
  run r intervalMs content
  = ReportErrorForMissingField "process.memory.resident_set_size_bytes" Kibana r.
Proof.
  intros Hdec Happly Hprocess Hmemory Hrss.
  unfold eventMappingXPack. rewrite Hdec.
  destruct (s.Apply schema data) as [out err]. cbn [snd] in Happly. subst err.
  rewrite Hprocess, Hmemory.
  destruct (memory !! "resident_set_size_bytes") as [[| |rss| | |]|];
    try reflexivity.
  by destruct (Hrss rss).
Qed.

(** C10: a value that is present at process.memory.resident_set_size_bytes
    but is not a number goes through the missing-field helper: the reporter
    receives, and the call returns, the missing-field error for that path,
    the same as when the key is absent; no type mismatch is reported and no
    event is emitted. *)
Theorem non_number_rss_reported_missing
    r intervalMs content data process memory v :
  json_Unmarshal content = inr data ->
  (s.Apply schema data).2 = None ->
  data !! "process" = Some (VDocument process) ->
  process !! "memory" = Some (VDocument memory) ->
  memory !! "resident_set_size_bytes" = Some v ->
  (forall rss, v <> VNumber rss) ->
  run r intervalMs content
    = ReportErrorForMissingField "process.memory.resident_set_size_bytes" Kibana r
  /\ run r intervalMs content
     = (mb.Error r (MissingFieldError rss_path Kibana),
        Returned (Some (MissingFieldError rss_path Kibana)))
  /\ mb.events (run r intervalMs content).1 = mb.events r
  /\ (forall content' data' process' memory',
        json_Unmarshal content' = inr data' ->
        (s.Apply schema data').2 = None ->
        data' !! "process" = Some (VDocument process') ->
        process' !! "memory" = Some (VDocument memory') ->
        memory' !! "resident_set_size_bytes" = None ->
        run r intervalMs content' = run r intervalMs content).
Proof.
  intros Hdec Happly Hprocess Hmemory Hv Hnot.
  assert (Hrun : run r intervalMs content
            = ReportErrorForMissingField "process.memory.resident_set_size_bytes"
                Kibana r).
  { eapply rss_assertion_failure; eauto. intros rss. rewrite Hv.
    intros [= ->]. by destruct (Hnot rss). }
  rewrite Hrun. unfold ReportErrorForMissingField. cbn [fst].
  split; [done|]. split; [done|]. split; [apply events_Error|].
  intros content' data' process' memory' Hdec' Happly' Hprocess' Hmemory' Hnone.
  erewrite rss_assertion_failure; eauto. by rewrite Hnone.
Qed.

(** What [trunc_toward_zero] computes is the value without its fraction. *)
Lemma trunc_toward_zero_finite sg m e t :
  trunc_toward_zero (S754_finite sg m e) = Some t ->
  discards_fraction (if sg then Zneg m else Zpos m) e t.
Proof.
  unfold trunc_toward_zero, discards_fraction. intros Ht. simplify_eq.
  destruct e as [|p|p]; simpl Z.leb; cbv iota.
  - by rewrite Z.pow_0_r, Z.mul_1_r.
  - reflexivity.
  - change (- Z.neg p) with (Z.pos p).
    assert (Hpow : 0 < 2 ^ Z.pos p) by (apply Z.pow_pos_nonneg; lia).
    set (b := 2 ^ Z.pos p) in *.
    assert (Habs : forall a, 0 <= a -> Z.abs (Z.quot a b) * b <= a < (Z.abs (Z.quot a b) + 1) * b).
    { intros a Ha. rewrite Z.quot_div_nonneg by lia.
      rewrite Z.abs_eq by (apply Z.div_pos; lia).
      pose proof (Z.mul_div_le a b Hpow).
      pose proof (Z.mul_succ_div_gt a b Hpow). lia. }
    destruct sg.
    + change (Z.neg m) with (- Z.pos m). rewrite Z.quot_opp_l by lia.
      rewrite Z.abs_opp. specialize (Habs (Z.pos m) ltac:(lia)).
      assert (0 <= Z.quot (Z.pos m) b) by (apply Z.quot_pos; lia).
      split; [lia|nia].
    + specialize (Habs (Z.pos m) ltac:(lia)).
      assert (0 <= Z.quot (Z.pos m) b) by (apply Z.quot_pos; lia).
      split; [lia|nia].
Qed.

Lemma int64_of_float64_in_range f t :
  trunc_toward_zero f = Some t -> in_int64 t = true -> int64_of_float64 f = t.
Proof. unfold int64_of_float64. by intros -> ->. Qed.

(** The converted integer always fits 64 bits. *)
Lemma int64_of_float64_bounds f : min_int64 <= int64_of_float64 f <= max_int64.
Proof.
  assert (Hwrap : forall z, min_int64 <= wrap64 z <= max_int64).
  { intros z. unfold wrap64, min_int64, max_int64.
    pose proof (Z.mod_pos_bound (z + 2 ^ 63) (2 ^ 64) ltac:(lia)). lia. }
  unfold int64_of_float64.
  destruct (trunc_toward_zero f) as [t|]; [|apply Hwrap].
  destruct (in_int64 t) eqn:Hin; [|apply Hwrap].
  unfold in_int64 in Hin. apply andb_true_iff in Hin as [H1 H2].
  apply Z.leb_le in H1. apply Z.leb_le in H2. lia.
Qed.

(** C6: for a number whose value without its fraction fits a 64-bit integer,
    an [Int] leaf yields exactly that integer (42.0 gives 42), and the manual
    patch stores the same integer for the resident set size. *)
Theorem int_coercion_truncates f t :
  trunc_toward_zero f = Some t ->
  in_int64 t = true ->
  s.coerce s.KInt (VNumber f) = Some (FInt t)
  /\ (forall pfx key opts d,
        s.Resolve key d = Some (VNumber f) ->
        s.map_node pfx (c.Int key opts) d = (Some (FInt t), []))
  /\ (forall r intervalMs content data uuid,
        json_Unmarshal content = inr data ->
        (s.Apply schema data).2 = None ->
        s.Resolve rss_path data = Some (VNumber f) ->
        data !! "cluster_uuid" = Some (VString uuid) ->
        exists ev sub,
          run r intervalMs content = (mb.Emit r ev, Returned None)
          /\ mb.RootFields ev !! "kibana_stats" = Some (FDoc sub)
          /\ common.Get "process.memory.resident_set_size_in_bytes" sub
             = Some (FInt t))
  /\ (forall sg m e, f = S754_finite sg m e ->
        discards_fraction (if sg then Zneg m else Zpos m) e t)
  /\ s.coerce s.KInt (num 42) = Some (FInt 42).
Proof.
  intros Ht Hin.
  pose proof (int64_of_float64_in_range f t Ht Hin) as Hconv.
  split; [by simpl; rewrite Hconv|]. split.
  { intros pfx key opts d Hres. unfold c.Int. rewrite map_node_Leaf, Hres.
    simpl. by rewrite Hconv. }
  split.
  { intros r intervalMs content data uuid Hdec Happly Hrss Huuid.
    rewrite (eventMappingXPack_success r intervalMs content data f uuid) by done.
    eexists _, _. split; [reflexivity|]. cbn [mb.RootFields].
    match goal with
    | |- context [<["cluster_uuid" := ?a]> (<[_ := ?b]> (<[_ := ?c]> (<[_ := ?d]>
                    (<[_ := ?e]> ∅))))] =>
        destruct (RootFields_lookup a b c d e) as (_ & _ & _ & _ & Hst)
    end.
    split; [exact Hst|].
    erewrite Get_lookup_ext; [|by apply Put_lookup_ne].
    by rewrite Get_Put, Hconv. }
  split; [|reflexivity].
  intros sg m e ->. by apply trunc_toward_zero_finite.
Qed.

End EventProperties.

(** ** The properties at concrete inputs *)

(** C1, on the full sample payload. *)
Lemma scenario_event_witness :
  exists ev sub,
    sample_run (sample_data (num 123)) = (mb.Emit [] ev, Returned None)
    /\ mb.RootFields ev !! "cluster_uuid" = Some (FStr "c1")
    /\ mb.RootFields ev !! "interval_ms" = Some (FInt 10000)
    /\ mb.RootFields ev !! "type" = Some (FStr "kibana_stats")
    /\ mb.RootFields ev !! "kibana_stats" = Some (FDoc sub)
    /\ common.Get "process.memory.resident_set_size_in_bytes" sub = Some (FInt 123).
Proof.
  apply (proj1 (@scenario_event amd64 sample_RequestsDict
                  (decodes_to (sample_data (num 123))) 1700 sample_index [] []
                  (sample_data (num 123)) eq_refl)).
  - vm_compute. reflexivity.
  - vm_compute. reflexivity.
  - vm_compute. reflexivity.
Defined.

(** C1 as stated fails: on the scenario document itself the schema reports
    its required fields missing, and the reporter gets the error, no event. *)
Lemma scenario_event_counterexample :
  let errs := [missing "concurrent_connections"; missing "os";
               missing "process.event_loop_delay"; missing "process.memory.heap";
               missing "process.uptime_ms"; missing "requests"; missing "kibana";
               missing "usage"] in
  sample_run scenario_data
  = ([mb.ReportedError (AggregateError errs)], Returned (Some (AggregateError errs)))
  /\ mb.events (sample_run scenario_data).1 = [].
Proof. split; vm_compute; reflexivity. Defined.

(** C2, on the full sample payload. *)
Lemma metadata_placement_witness :
  exists ev sub,
    (sample_run (sample_data (num 123))).1 = [mb.ReportedEvent ev]
    /\ mb.RootFields ev !! "kibana_stats" = Some (FDoc sub)
    /\ mb.RootFields ev !! "interval_ms" = Some (FInt 10000)
    /\ sub !! "interval_ms" = None
    /\ sub !! "type" = None
    /\ sub !! "cluster_uuid" = None.
Proof.
  destruct (@metadata_placement amd64 sample_RequestsDict
              (decodes_to (sample_data (num 123))) 1700 sample_index []
              10000 [] eq_refl)
    as (ev & sub & uuid & Hr & Hsub & _ & Hint & _ & _ & _ & Hn1 & Hn2 & Hn3).
  - vm_compute. reflexivity.
  - exists ev, sub. split; [exact Hr|]. repeat split; assumption.
Defined.

(** C2 as stated fails: the sub-document of an emitted event holds the
    timestamp. *)
Lemma metadata_placement_counterexample :
  sample_run (sample_data (num 123))
  = ([mb.ReportedEvent sample_event], Returned None)
  /\ mb.RootFields sample_event !! "kibana_stats" = Some (FDoc sample_sub)
  /\ sample_sub !! "timestamp" = Some (FTime 1700).
Proof.
  split; [vm_compute; reflexivity|].
  split; vm_compute; reflexivity.
Defined.

(** C3, on the scenario document, which the schema rejects. *)
Lemma hard_errors_short_circuit_witness :
  exists e,
    sample_run scenario_data = ([mb.ReportedError e], Returned (Some e))
    /\ mb.events (sample_run scenario_data).1 = [].
Proof.
  destruct (@hard_errors_short_circuit amd64 sample_RequestsDict
              (decodes_to scenario_data) 1700 sample_index [] 10000 [])
    as (e & Hrun & _ & Hev & _).
  - right. exists scenario_data. split; [reflexivity|].
    left. vm_compute. discriminate.
  - exists e. split; [exact Hrun|exact Hev].
Defined.

(** C4, on a dictionary of two required leaves of which the input holds one,
    and on a schema of two required leaves of which the input holds one. *)
Lemma Apply_best_effort_witness :
  (well_keyed_schema sample_os_schema
   /\ yields (H := amd64) sample_os_schema sample_os_data ["os"; "up"] (FInt 7)
   /\ common.get ["os"; "up"] (@s.Apply amd64 sample_os_schema sample_os_data).1
      = Some (FInt 7)
   /\ s.errors (@s.ApplyTo amd64 sample_os_schema sample_os_data)
      = [missing "os.name"])
  /\ (let sch := [("count", c.Int "n" []); ("name", c.Str "title" [])] in
      let d : gmap string Value := list_to_map [("n", num 7)] in
      common.Get "count" (@s.Apply amd64 sch d).1 = Some (FInt 7)
      /\ s.errors (@s.ApplyTo amd64 sch d) = [missing "title"]
      /\ length (s.errors (@s.ApplyTo amd64 sch d)) = 1%nat
      /\ (@s.Apply amd64 sch d).2 = Some (AggregateError [missing "title"])).
Proof.
  assert (Hwk : well_keyed_schema sample_os_schema).
  { split; [vm_compute; distinct|well_keyed_tac]. }
  assert (Hyields : yields (H := amd64) sample_os_schema sample_os_data
                      ["os"; "up"] (FInt 7)).
  { refine (yields_nested sample_os_schema sample_os_data "os" "os" EmptyString
              [("up", c.Int "up" []); ("name", c.Str "name" [])] false
              (list_to_map [("up", num 7)]) ["up"] (FInt 7) _ _ _).
    - left. reflexivity.
    - vm_compute. reflexivity.
    - refine (yields_leaf _ _ "up" "up" EmptyString s.KInt false (num 7) (FInt 7)
                _ _ _).
      + left. reflexivity.
      + vm_compute. reflexivity.
      + vm_compute. reflexivity. }
  split.
  - split; [exact Hwk|]. split; [exact Hyields|]. split.
    + exact (proj1 (@Apply_best_effort amd64) _ _ _ _ Hwk Hyields).
    + vm_compute. reflexivity.
  - cbv zeta.
    apply (proj2 (proj2 (proj2 (@Apply_best_effort amd64)))
             "count" "n" EmptyString s.KInt "name" "title" EmptyString s.KString
             (list_to_map [("n", num 7)]) (num 7) (FInt 7)).
    + vm_compute. reflexivity.
    + vm_compute. reflexivity.
    + vm_compute. reflexivity.
    + left. reflexivity.
Defined.


(** C6, on 42.0. *)
Lemma int_coercion_truncates_witness :
  trunc_toward_zero (float64_of_Z 42) = Some 42
  /\ in_int64 42 = true
  /\ @s.coerce amd64 s.KInt (VNumber (float64_of_Z 42)) = Some (FInt 42).
Proof.
  split; [reflexivity|]. split; [reflexivity|].
  apply (@int_coercion_truncates amd64 sample_RequestsDict
           (decodes_to (sample_data (num 42))) 1700 sample_index
           (float64_of_Z 42) 42 eq_refl eq_refl).
Defined.

(** C6 as stated fails: 2^70 is a number whose value without its fraction is
    2^70, and no 64-bit integer is 2^70, on any platform. *)
Lemma int_coercion_counterexample :
  valid_binary 53 1024 two_pow_70 = true
  /\ trunc_toward_zero two_pow_70 = Some (2 ^ 70)
  /\ (forall A : Arch,
        @s.coerce A s.KInt (VNumber two_pow_70) <> Some (FInt (2 ^ 70))
        /\ @int64_of_float64 A two_pow_70 <> 2 ^ 70)
  /\ @s.coerce amd64 s.KInt (VNumber two_pow_70) = Some (FInt min_int64)
  /\ exists ev sub,
       sample_run (sample_data (VNumber two_pow_70)) = (mb.Emit [] ev, Returned None)
       /\ mb.RootFields ev !! "kibana_stats" = Some (FDoc sub)
       /\ common.Get "process.memory.resident_set_size_in_bytes" sub
          = Some (FInt min_int64).
Proof.
  split; [reflexivity|]. split; [reflexivity|]. split; [|split; [reflexivity|]].
  - intros A.
    assert (Hne : @int64_of_float64 A two_pow_70 <> 2 ^ 70).
    { pose proof (@int64_of_float64_bounds A two_pow_70) as [_ Hmax].
      unfold max_int64 in Hmax. intros E. rewrite E in Hmax. revert Hmax.
      apply Z.lt_nge. reflexivity. }
    split; [|exact Hne]. cbn [s.coerce]. intros [= E]. by apply Hne.
  - unfold sample_run.
    rewrite (@eventMappingXPack_success amd64 sample_RequestsDict
               (decodes_to (sample_data (VNumber two_pow_70))) 1700 sample_index
               [] 10000 [] (sample_data (VNumber two_pow_70)) two_pow_70 "c1" eq_refl)
      by (vm_compute; reflexivity).
    eexists _, _. split; [reflexivity|]. cbn [mb.RootFields]. split.
    + repeat (rewrite lookup_insert_ne by discriminate). apply lookup_insert_eq.
    + erewrite Get_lookup_ext; [|by apply Put_lookup_ne].
      rewrite Get_Put. reflexivity.
Defined.

(** C7, on the integer leaf and the number 5. *)
Lemma nested_flattening_witness :
  @s.coerce amd64 s.KInt (num 5) = Some (FInt 5)
  /\ @s.ApplyTo amd64 (flatten_schema s.KInt false) (doc_a_b_c (num 5))
     = {| s.output := {["x" := FDoc {["c" := FInt 5]}]}; s.errors := [] |}
  /\ @s.ApplyTo amd64 (flatten_schema s.KInt true) doc_a_empty
     = {| s.output := ∅; s.errors := [] |}
  /\ @s.ApplyTo amd64 (flatten_schema s.KInt false) doc_a_empty
     = {| s.output := ∅; s.errors := [missing "a.b"] |}.
Proof.
  split; [reflexivity|].
  destruct (@nested_flattening amd64 s.KInt (num 5) (FInt 5) false
              sample_RequestsDict (float64_of_Z 5) eq_refl)
    as (Hpresent & _ & _ & Hoptional & Hrequired & _).
  split; [exact Hpresent|]. split; [exact Hoptional|exact Hrequired].
Defined.

(** C8, on the monitoring schema visited in declaration order and in the
    reverse order, over the scenario document. *)
Lemma Apply_deterministic_up_to_order_witness :
  same_map sample_schema (rev sample_schema)
  /\ well_keyed_schema sample_schema
  /\ s.output (@s.ApplyTo amd64 (rev sample_schema) scenario_data)
     = s.output (@s.ApplyTo amd64 sample_schema scenario_data)
  /\ Permutation (s.errors (@s.ApplyTo amd64 (rev sample_schema) scenario_data))
                 (s.errors (@s.ApplyTo amd64 sample_schema scenario_data)).
Proof.
  assert (Hsame : same_map sample_schema (rev sample_schema))
    by apply Permutation_same_map, Permutation_rev.
  assert (Hwk : well_keyed_schema sample_schema) by (split; well_keyed_tac).
  split; [exact Hsame|]. split; [exact Hwk|].
  destruct (@Apply_deterministic_up_to_order amd64 sample_schema (rev sample_schema)
              scenario_data Hsame Hwk) as (Hout & Herr & _).
  split; [exact Hout|exact Herr].
Defined.

(** C8 as stated fails for the ordered error list: the monitoring schema, a
    Go map, visited in two orders over the scenario document reports the same
    missing fields in two different orders; so do two required leaves. *)
Lemma Apply_order_counterexample :
  same_map sample_schema (rev sample_schema)
  /\ s.errors (@s.ApplyTo amd64 sample_schema scenario_data)
     = [missing "concurrent_connections"; missing "os";
        missing "process.event_loop_delay"; missing "process.memory.heap";
        missing "process.uptime_ms"; missing "requests"; missing "kibana";
        missing "usage"]
  /\ s.errors (@s.ApplyTo amd64 (rev sample_schema) scenario_data)
     = [missing "usage"; missing "kibana"; missing "requests";
        missing "process.event_loop_delay"; missing "process.memory.heap";
        missing "process.uptime_ms"; missing "os";
        missing "concurrent_connections"]
  /\ same_map [("a", c.Int "a" []); ("b", c.Int "b" [])]
              [("b", c.Int "b" []); ("a", c.Int "a" [])]
  /\ s.errors (@s.ApplyTo amd64 [("a", c.Int "a" []); ("b", c.Int "b" [])] ∅)
     = [missing "a"; missing "b"]
  /\ s.errors (@s.ApplyTo amd64 [("b", c.Int "b" []); ("a", c.Int "a" [])] ∅)
     = [missing "b"; missing "a"].
Proof.
  split; [apply Permutation_same_map, Permutation_rev|].
  split; [vm_compute; reflexivity|]. split; [vm_compute; reflexivity|].
  split; [apply same_map_swap|].
  split; vm_compute; reflexivity.
Defined.

(** C9, on the sample payload without a cluster identifier. *)
Lemma unchecked_cluster_uuid_panics_witness :
  sample_data_no_uuid !! "cluster_uuid" = None
  /\ sample_run sample_data_no_uuid = ([], Panicked).
Proof.
  split; [vm_compute; reflexivity|].
  apply (@unchecked_cluster_uuid_panics amd64 sample_RequestsDict
           (decodes_to sample_data_no_uuid) 1700 sample_index [] 10000 []
           sample_data_no_uuid (float64_of_Z 123) eq_refl).
  - vm_compute. reflexivity.
  - vm_compute. reflexivity.
  - intros uuid. vm_compute. discriminate.
Defined.

(** C10, on the sample payload with the string "big" as resident set size. *)
Lemma non_number_rss_reported_missing_witness :
  s.Resolve rss_path (sample_data (VString "big")) = Some (VString "big")
  /\ sample_run (sample_data (VString "big"))
     = ([mb.ReportedError (MissingFieldError rss_path Kibana)],
        Returned (Some (MissingFieldError rss_path Kibana))).
Proof.
  split; [vm_compute; reflexivity|].
  refine (proj1 (proj2 (@non_number_rss_reported_missing amd64 sample_RequestsDict
           (decodes_to (sample_data (VString "big"))) 1700 sample_index [] 10000 []
           (sample_data (VString "big"))
           (list_to_map [
              ("event_loop_delay", num 1);
              ("memory", obj [
                 ("heap", obj [("total_bytes", num 10); ("used_bytes", num 5);
                               ("size_limit", num 20)]);
                 ("resident_set_size_bytes", VString "big")]);
              ("uptime_ms", num 7000)])
           (list_to_map [
              ("heap", obj [("total_bytes", num 10); ("used_bytes", num 5);
                            ("size_limit", num 20)]);
              ("resident_set_size_bytes", VString "big")])
           (VString "big") eq_refl _ _ _ _ _))).
  - vm_compute. reflexivity.
  - vm_compute. reflexivity.
  - vm_compute. reflexivity.
  - vm_compute. reflexivity.
  - intros rss. discriminate.
Defined.

(** ** What an accepted payload looks like *)

Section AcceptedPayload.

Context `{Arch}.

Implicit Types (d : gmap string Value) (sch : s.Schema).

(** A source key without a dot is looked up as it stands. *)
Lemma Resolve_single k d : split_path k = [k] -> s.Resolve k d = d !! k.
Proof. unfold s.Resolve. by intros ->. Qed.

Lemma Get_single k (m : gmap string Field) :
  split_path k = [k] -> common.Get k m = m !! k.
Proof. unfold common.Get. by intros ->. Qed.

(** A walk raises no error exactly when no entry does. *)
Lemma apply_schema_no_error pfx d sch :
  s.errors (s.apply_schema pfx d sch s.empty_result) = []
  <-> Forall (fun entry => entry_errors pfx d entry = []) sch.
Proof.
  rewrite apply_schema_errors. cbn [s.errors s.empty_result app].
  induction sch as [|entry sch IH]; [by split; [constructor|]|].
  cbn [flat_map]. rewrite Forall_cons, <- IH. unfold entry_errors.
  split; [by intros [-> ->]%app_eq_nil|by intros [-> ->]].
Qed.

(** What each kind of leaf accepts. *)
Lemma coerce_Some kind v x :
  s.coerce kind v = Some x ->
  match kind with
  | s.KInt => exists f, v = VNumber f /\ x = FInt (int64_of_float64 f)
  | s.KFloat => exists f, v = VNumber f /\ x = FFloat f
  | s.KString => exists str, v = VString str /\ x = FStr str
  | s.KBool => exists b, v = VBool b /\ x = FBool b
  end.
Proof. destruct kind, v; simpl; intros [= <-]; eauto. Qed.

(** A required leaf that raises no error found its value and converted it. *)
Lemma required_leaf_no_error pfx src t kind d :
  (s.map_node pfx (s.Leaf src t kind false) d).2 = [] ->
  exists v x, s.Resolve src d = Some v /\ s.coerce kind v = Some x
              /\ s.map_node pfx (s.Leaf src t kind false) d = (Some x, []).
Proof.
  rewrite map_node_Leaf. destruct (s.Resolve src d) as [v|]; [|discriminate].
  destruct (s.coerce kind v) as [x|] eqn:Hc; [|discriminate].
  intros _. by exists v, x.
Qed.

(** A required dictionary that raises no error found a sub-document, and the
    walk of its children raised none. *)
Lemma required_dict_no_error pfx src t child d :
  (s.map_node pfx (s.Nested src t child false) d).2 = [] ->
  exists sub,
    s.Resolve src d = Some (VDocument sub)
    /\ s.errors (s.apply_schema (join_path pfx src) sub child s.empty_result) = []
    /\ s.map_node pfx (s.Nested src t child false) d
       = (Some (FDoc (s.output (s.apply_schema (join_path pfx src) sub child
                                  s.empty_result))), []).
Proof.
  rewrite map_node_Nested.
  destruct (s.Resolve src d) as [[| | | |sub|]|]; try discriminate.
  cbv zeta. cbn [snd]. intros E. exists sub. by rewrite E.
Qed.

(** The error of [Apply], when there is one, is the aggregate. *)
Lemma Apply_error_shape sch d e :
  (s.Apply sch d).2 = Some e -> e = AggregateError (s.errors (s.ApplyTo sch d)).
Proof.
  unfold s.Apply. cbn [snd]. destruct (s.errors (s.ApplyTo sch d)); [discriminate|].
  by intros [= <-].
Qed.

(** The required leaves of each kind, as the constructors build them. *)
Lemma required_Int_no_error pfx field key d :
  entry_errors pfx d (field, c.Int key []) = [] ->
  exists x, s.Resolve key d = Some (VNumber x)
            /\ s.map_node pfx (c.Int key []) d = (Some (FInt (int64_of_float64 x)), []).
Proof.
  intros (v & y & Hres & Hc & Hmap)%required_leaf_no_error.
  apply coerce_Some in Hc as (x & -> & ->). by exists x.
Qed.

Lemma required_Float_no_error pfx field key d :
  entry_errors pfx d (field, c.Float key []) = [] ->
  exists x, s.Resolve key d = Some (VNumber x)
            /\ s.map_node pfx (c.Float key []) d = (Some (FFloat x), []).
Proof.
  intros (v & y & Hres & Hc & Hmap)%required_leaf_no_error.
  apply coerce_Some in Hc as (x & -> & ->). by exists x.
Qed.

Lemma required_Str_no_error pfx field key d :
  entry_errors pfx d (field, c.Str key []) = [] ->
  exists x, s.Resolve key d = Some (VString x)
            /\ s.map_node pfx (c.Str key []) d = (Some (FStr x), []).
Proof.
  intros (v & y & Hres & Hc & Hmap)%required_leaf_no_error.
  apply coerce_Some in Hc as (x & -> & ->). by exists x.
Qed.

Lemma required_Bool_no_error pfx field key d :
  entry_errors pfx d (field, c.Bool key []) = [] ->
  exists x, s.Resolve key d = Some (VBool x)
            /\ s.map_node pfx (c.Bool key []) d = (Some (FBool x), []).
Proof.
  intros (v & y & Hres & Hc & Hmap)%required_leaf_no_error.
  apply coerce_Some in Hc as (x & -> & ->). by exists x.
Qed.

Lemma required_Dict_no_error pfx field key child d :
  entry_errors pfx d (field, c.Dict key child []) = [] ->
  exists sub,
    s.Resolve key d = Some (VDocument sub)
    /\ Forall (fun entry => entry_errors (join_path pfx key) sub entry = []) child
    /\ s.map_node pfx (c.Dict key child []) d
       = (Some (FDoc (s.output (s.apply_schema (join_path pfx key) sub child
                                  s.empty_result))), []).
Proof.
  intros (sub & Hres & Hchild & Hmap)%required_dict_no_error.
  apply apply_schema_no_error in Hchild. by exists sub.
Qed.

(** The value of an entry under a key without a dot, when no later entry
    writes under that key. *)
Lemma apply_schema_lookup pfx d sch1 field n sch2 acc k v :
  split_path (s.target field n) = [k] ->
  (s.map_node pfx n d).1 = Some v ->
  Forall (fun entry => entry_head entry <> k) sch2 ->
  s.output (s.apply_schema pfx d (sch1 ++ (field, n) :: sch2) acc) !! k = Some v.
Proof.
  intros Hk Hv Hall.
  assert (Hhead : entry_head (field, n) = k).
  { unfold entry_head, head_key. cbn [fst snd]. by rewrite Hk. }
  rewrite <- (apply_schema_Get pfx d sch1 field n sch2 acc v Hv)
    by by rewrite Hhead.
  unfold common.Get. by rewrite Hk.
Qed.

(** A source key with one dot goes through one sub-document. *)
Lemma Resolve_pair key a b d :
  split_path key = [a; b] ->
  s.Resolve key d = match d !! a with
                    | Some (VDocument sub) => sub !! b
                    | _ => None
                    end.
Proof. unfold s.Resolve. by intros ->. Qed.

Lemma Resolve_pair_Some key a b d v :
  split_path key = [a; b] -> s.Resolve key d = Some v ->
  exists sub, d !! a = Some (VDocument sub) /\ sub !! b = Some v.
Proof.
  intros Hkey. rewrite (Resolve_pair key a b) by done.
  destruct (d !! a) as [[| | | |sub|]|]; try discriminate. eauto.
Qed.

(** The value of any entry of a walk in which no two entries write under the
    same key. *)
Lemma apply_schema_lookup_In pfx d sch field n k v :
  NoDup (map entry_head sch) ->
  In (field, n) sch ->
  split_path (s.target field n) = [k] ->
  (s.map_node pfx n d).1 = Some v ->
  s.output (s.apply_schema pfx d sch s.empty_result) !! k = Some v.
Proof.
  intros Hnd Hin Hk Hv.
  apply in_split in Hin as (sch1 & sch2 & ->).
  apply apply_schema_lookup; [done|done|].
  rewrite map_app in Hnd. apply NoDup_app in Hnd as (_ & _ & Hnd).
  cbn [map] in Hnd. apply NoDup_cons in Hnd as [Hnotin _].
  assert (Hhead : entry_head (field, n) = k).
  { unfold entry_head, head_key. cbn [fst snd]. by rewrite Hk. }
  rewrite Hhead in Hnotin. apply Forall_forall. intros entry Hentry E.
  apply Hnotin. rewrite <- E. apply list_elem_of_In, in_map.
  by apply list_elem_of_In.
Qed.

(** A key no entry writes under is absent from the output of a walk. *)
Lemma apply_schema_lookup_None pfx d sch k :
  Forall (fun entry => entry_head entry <> k) sch ->
  s.output (s.apply_schema pfx d sch s.empty_result) !! k = None.
Proof. intros Hall. by rewrite apply_schema_lookup_ne. Qed.

(** The errors of an entry are among the errors of the walk. *)
Lemma entry_errors_in pfx d sch entry e :
  In entry sch -> In e (entry_errors pfx d entry) ->
  In e (s.errors (s.apply_schema pfx d sch s.empty_result)).
Proof.
  intros Hin He. rewrite apply_schema_errors. cbn [s.errors s.empty_result app].
  apply in_flat_map. by exists entry.
Qed.

(** A required leaf whose source key is absent is among the errors. *)
Lemma required_leaf_missing pfx sch field src kind d :
  In (field, s.Leaf src EmptyString kind false) sch ->
  s.Resolve src d = None ->
  In (missing (join_path pfx src))
     (s.errors (s.apply_schema pfx d sch s.empty_result)).
Proof.
  intros Hin Hres. apply (entry_errors_in _ _ _ _ _ Hin).
  unfold entry_errors. cbn [snd]. rewrite map_node_Leaf, Hres. by left.
Qed.

(** An optional dictionary that raises no error is absent, or is a document
    whose children raise none. *)
Lemma optional_Dict_no_error pfx field key child d :
  entry_errors pfx d (field, c.Dict key child [c.DictOptional]) = [] ->
  (s.Resolve key d = None
   /\ s.map_node pfx (c.Dict key child [c.DictOptional]) d = (None, []))
  \/ (exists sub,
        s.Resolve key d = Some (VDocument sub)
        /\ Forall (fun entry => entry_errors (join_path pfx key) sub entry = []) child
        /\ s.map_node pfx (c.Dict key child [c.DictOptional]) d
           = (Some (FDoc (s.output (s.apply_schema (join_path pfx key) sub child
                                      s.empty_result))), [])).
Proof.
  unfold entry_errors, c.Dict. cbn [snd c.is_dict_optional].
  rewrite map_node_Nested.
  destruct (s.Resolve key d) as [[| | | |sub|]|]; try discriminate.
  - cbv zeta. cbn [snd]. intros E. right. exists sub. split; [done|].
    split; [by apply apply_schema_no_error|by rewrite E].
  - intros _. by left.
Qed.

(** A write three levels deep through documents that are there. *)
Lemma put_through k1 k2 k3 v (m0 p m : gmap string Field) :
  m0 !! k1 = Some (FDoc p) -> p !! k2 = Some (FDoc m) ->
  common.put [k1; k2; k3] v m0
  = <[k1 := FDoc (<[k2 := FDoc (<[k3 := v]> m)]> p)]> m0.
Proof. intros H1 H2. cbn [common.put]. by rewrite H1, H2. Qed.

(** An optional integer leaf that raises no error is absent, or is a number. *)
Lemma optional_Int_no_error pfx field key d :
  entry_errors pfx d (field, c.Int key [s.Optional]) = [] ->
  (s.Resolve key d = None
   /\ s.map_node pfx (c.Int key [s.Optional]) d = (None, []))
  \/ (exists x,
        s.Resolve key d = Some (VNumber x)
        /\ s.map_node pfx (c.Int key [s.Optional]) d
           = (Some (FInt (int64_of_float64 x)), [])).
Proof.
  unfold entry_errors, c.Int. cbn [snd c.is_optional].
  rewrite map_node_Leaf.
  destruct (s.Resolve key d) as [v|]; [|by left].
  destruct (s.coerce s.KInt v) as [x|] eqn:Hc; [|discriminate].
  apply coerce_Some in Hc as (f & -> & ->). intros _. right. by exists f.
Qed.

(** The key of an entry that produced nothing is absent from the output, when
    no other entry writes under it. *)
Lemma apply_schema_lookup_absent pfx d sch1 field n sch2 k :
  (s.map_node pfx n d).1 = None ->
  Forall (fun entry => entry_head entry <> k) sch1 ->
  Forall (fun entry => entry_head entry <> k) sch2 ->
  s.output (s.apply_schema pfx d (sch1 ++ (field, n) :: sch2) s.empty_result) !! k
  = None.
Proof.
  intros Hv H1 H2.
  rewrite apply_schema_app, apply_schema_cons, apply_schema_lookup_ne by done.
  unfold s.apply_field, s.emit. cbn [s.output fst snd]. rewrite Hv.
  by rewrite apply_schema_lookup_ne.
Qed.

(** An optional dictionary inside an error-free walk with distinct keys: it
    is absent from the input and from the output, or the input has a
    document there, the children raise no error on it, and the output holds
    their walk under the field name. *)
Lemma accepted_optional_Dict pfx d sch name key child :
  NoDup (map entry_head sch) ->
  Forall (fun entry => entry_errors pfx d entry = []) sch ->
  In (name, c.Dict key child [c.DictOptional]) sch ->
  split_path name = [name] ->
  (s.Resolve key d = None
   /\ s.output (s.apply_schema pfx d sch s.empty_result) !! name = None)
  \/ (exists sub,
        s.Resolve key d = Some (VDocument sub)
        /\ Forall (fun entry => entry_errors (join_path pfx key) sub entry = []) child
        /\ s.output (s.apply_schema pfx d sch s.empty_result) !! name
           = Some (FDoc (s.output (s.apply_schema (join_path pfx key) sub child
                                     s.empty_result)))).
Proof.
  intros Hnd Hall Hin Hname.
  pose proof (proj1 (Forall_forall _ _) Hall _ (proj2 (list_elem_of_In _ _) Hin))
    as Hentry.
  apply optional_Dict_no_error in Hentry as [[Hres Hmap]|(sub & Hres & Hchild & Hmap)].
  - left. split; [done|]. apply in_split in Hin as (sch1 & sch2 & ->).
    apply NoDup_heads_split in Hnd as [H1 H2].
    assert (Hhead : entry_head (name, c.Dict key child [c.DictOptional]) = name).
    { unfold entry_head, head_key. cbn [fst snd].
      change (s.target name (c.Dict key child [c.DictOptional])) with name.
      by rewrite Hname. }
    rewrite Hhead in H1, H2.
    apply apply_schema_lookup_absent; [by rewrite Hmap|done|done].
  - right. exists sub. split; [done|]. split; [done|].
    apply (apply_schema_lookup_In pfx d sch name _ name _ Hnd Hin Hname).
    by rewrite Hmap.
Qed.

(** An optional integer inside an error-free walk with distinct keys: what
    the input holds under the source key is a number, and the output holds
    its conversion under the field name, or nothing when the input has
    nothing. *)
Lemma accepted_optional_Int pfx d sch name key :
  NoDup (map entry_head sch) ->
  Forall (fun entry => entry_errors pfx d entry = []) sch ->
  In (name, c.Int key [s.Optional]) sch ->
  split_path name = [name] ->
  split_path key = [key] ->
  (forall v, d !! key = Some v -> exists x, v = VNumber x)
  /\ s.output (s.apply_schema pfx d sch s.empty_result) !! name
     = d !! key ≫= s.coerce s.KInt.
Proof.
  intros Hnd Hall Hin Hname Hkey.
  pose proof (proj1 (Forall_forall _ _) Hall _ (proj2 (list_elem_of_In _ _) Hin))
    as Hentry.
  apply optional_Int_no_error in Hentry as [[Hres Hmap]|(x & Hres & Hmap)];
    rewrite Resolve_single in Hres by done; rewrite Hres.
  - split; [discriminate|]. apply in_split in Hin as (sch1 & sch2 & ->).
    apply NoDup_heads_split in Hnd as [H1 H2].
    assert (Hhead : entry_head (name, c.Int key [s.Optional]) = name).
    { unfold entry_head, head_key. cbn [fst snd].
      change (s.target name (c.Int key [s.Optional])) with name.
      by rewrite Hname. }
    rewrite Hhead in H1, H2.
    apply apply_schema_lookup_absent; [by rewrite Hmap|done|done].
  - split; [intros v [= <-]; by exists x|].
    apply (apply_schema_lookup_In pfx d sch name _ name _ Hnd Hin Hname).
    by rewrite Hmap.
Qed.

Section Monitoring.

Variable RequestsDict : s.SchemaNode.

#[local] Abbreviation schema := (schemaXPackMonitoring RequestsDict).

(** The entries of the monitoring schema that an accepted payload satisfied,
    one per top-level field. *)
Lemma accepted_entries d :
  (s.Apply schema d).2 = None ->
  Forall (fun entry => entry_errors EmptyString d entry = []) schema.
Proof.
  rewrite Apply_error_nil. unfold s.ApplyTo. by rewrite apply_schema_no_error.
Qed.

(** An accepted payload has a process document with a memory document in
    it: the schema requires both dictionaries. *)
Lemma accepted_process_memory d :
  (s.Apply schema d).2 = None ->
  exists process memory,
    d !! "process" = Some (VDocument process)
    /\ process !! "memory" = Some (VDocument memory).
Proof.
  intros Hok. pose proof (accepted_entries d Hok) as Hall.
  unfold schemaXPackMonitoring in Hall.
  apply Forall_cons in Hall as [_ Hall]. apply Forall_cons in Hall as [_ Hall].
  apply Forall_cons in Hall as [Hprocess _].
  unfold entry_errors in Hprocess. cbn [snd] in Hprocess.
  apply required_dict_no_error in Hprocess as (process & Hres & Hchild & _).
  rewrite Resolve_single in Hres by reflexivity.
  apply apply_schema_no_error in Hchild.
  apply Forall_cons in Hchild as [_ Hchild].
  apply Forall_cons in Hchild as [Hmemory _].
  unfold entry_errors in Hmemory. cbn [snd] in Hmemory.
  apply required_dict_no_error in Hmemory as (memory & Hres' & _).
  rewrite Resolve_single in Hres' by reflexivity.
  by exists process, memory.
Qed.

(** Computing a short walk once the result of each entry is known. *)
Ltac walk_output :=
  unfold s.apply_schema, fold_left, s.apply_field, s.emit;
  cbn [fst snd s.output s.errors s.empty_result].
Ltac literal_keys :=
  cbn [fst snd s.target s.node_target c.Int c.Float c.Str c.Bool c.Dict];
  rewrite ?Put_single by reflexivity.

(** The process block of an accepted payload: the three heap figures are
    numbers, and the schema output holds them, converted, under
    process.memory.heap and nothing else under process.memory. *)
Lemma accepted_process_block d :
  s.node_target RequestsDict = EmptyString ->
  (s.Apply schema d).2 = None ->
  exists process memory heap total used limit pout,
    d !! "process" = Some (VDocument process)
    /\ process !! "memory" = Some (VDocument memory)
    /\ memory !! "heap" = Some (VDocument heap)
    /\ heap !! "total_bytes" = Some (VNumber total)
    /\ heap !! "used_bytes" = Some (VNumber used)
    /\ heap !! "size_limit" = Some (VNumber limit)
    /\ (s.Apply schema d).1 !! "process" = Some (FDoc pout)
    /\ pout !! "memory"
       = Some (FDoc (<["heap" :=
                        FDoc (<["size_limit" := FInt (int64_of_float64 limit)]>
                             (<["used_in_bytes" := FInt (int64_of_float64 used)]>
                             (<["total_in_bytes" := FInt (int64_of_float64 total)]> ∅)))]>
                     ∅)).
Proof.
  intros Htarget Hok. pose proof (accepted_entries d Hok) as Hall.
  unfold schemaXPackMonitoring in Hall.
  apply Forall_cons in Hall as [_ Hall]. apply Forall_cons in Hall as [_ Hall].
  apply Forall_cons in Hall as [Hprocess _].
  apply required_Dict_no_error in Hprocess as (process & Hres & Hchild & Hpmap).
  rewrite Resolve_single in Hres by reflexivity.
  apply Forall_cons in Hchild as [_ Hchild].
  apply Forall_cons in Hchild as [Hmemory _].
  apply required_Dict_no_error in Hmemory as (memory & Hres' & Hchild' & Hmmap).
  rewrite Resolve_single in Hres' by reflexivity.
  apply Forall_cons in Hchild' as [Hheap _].
  apply required_Dict_no_error in Hheap as (heap & Hres'' & Hleaves & Hhmap).
  rewrite Resolve_single in Hres'' by reflexivity.
  apply Forall_cons in Hleaves as [Htotal Hleaves].
  apply Forall_cons in Hleaves as [Hused Hleaves].
  apply Forall_cons in Hleaves as [Hlimit _].
  apply required_Int_no_error in Htotal as (total & Htotal & Htmap).
  apply required_Int_no_error in Hused as (used & Hused & Humap).
  apply required_Int_no_error in Hlimit as (limit & Hlimit & Hlmap).
  rewrite Resolve_single in Htotal, Hused, Hlimit by reflexivity.
  eexists process, memory, heap, total, used, limit, _.
  repeat (split; [eassumption|]). split.
  - rewrite Apply_output. unfold s.ApplyTo, schemaXPackMonitoring.
    match goal with
    | |- context [s.apply_schema _ _ (?e1 :: ?e2 :: (?f, ?n) :: ?rest)] =>
        apply (apply_schema_lookup EmptyString d [e1; e2] f n rest)
    end.
    + reflexivity.
    + by rewrite Hpmap.
    + assert (Hreq : entry_head ("requests", RequestsDict) = "requests").
      { unfold entry_head, s.target. cbn [fst snd]. by rewrite Htarget. }
      repeat (apply Forall_cons; split; [try rewrite Hreq; discriminate|]).
      apply Forall_nil_2.
  - match goal with
    | |- context [s.apply_schema ?pfx ?sub (?e1 :: (?f, ?n) :: ?rest)] =>
        pose proof (apply_schema_lookup pfx sub [e1] f n rest s.empty_result
                      "memory" _ eq_refl ltac:(by rewrite Hmmap)) as Hlookup
    end.
    cbn [app] in Hlookup. rewrite Hlookup.
    + do 2 f_equal. walk_output. rewrite Hhmap. literal_keys.
      do 3 f_equal.
      walk_output. rewrite Htmap, Humap, Hlmap. by literal_keys.
    + repeat (apply Forall_cons; split; [discriminate|]). apply Forall_nil_2.
Qed.

(** X5: a payload the schema accepts has an os document with a load
    document of three numbers, a memory document of three numbers and a
    number uptime_ms; the os block of the output holds exactly these, the
    loads as floats, the memory figures as integers under total_in_bytes,
    free_in_bytes and used_in_bytes, and the uptime under uptime_in_millis. *)
Theorem accepted_os_block d :
  s.node_target RequestsDict = EmptyString ->
  (s.Apply schema d).2 = None ->
  exists os load memory l1 l5 l15 total free used uptime,
    d !! "os" = Some (VDocument os)
    /\ os !! "load" = Some (VDocument load)
    /\ load !! "1m" = Some (VNumber l1)
    /\ load !! "5m" = Some (VNumber l5)
    /\ load !! "15m" = Some (VNumber l15)
    /\ os !! "memory" = Some (VDocument memory)
    /\ memory !! "total_bytes" = Some (VNumber total)
    /\ memory !! "free_bytes" = Some (VNumber free)
    /\ memory !! "used_bytes" = Some (VNumber used)
    /\ os !! "uptime_ms" = Some (VNumber uptime)
    /\ (s.Apply schema d).1 !! "os"
       = Some (FDoc
           (<["uptime_in_millis" := FInt (int64_of_float64 uptime)]>
           (<["memory" :=
               FDoc (<["used_in_bytes" := FInt (int64_of_float64 used)]>
                    (<["free_in_bytes" := FInt (int64_of_float64 free)]>
                    (<["total_in_bytes" := FInt (int64_of_float64 total)]> ∅)))]>
           (<["load" :=
               FDoc (<["15m" := FFloat l15]>
                    (<["5m" := FFloat l5]>
                    (<["1m" := FFloat l1]> ∅)))]> ∅)))).
Proof.
  intros Htarget Hok. pose proof (accepted_entries d Hok) as Hall.
  unfold schemaXPackMonitoring in Hall.
  apply Forall_cons in Hall as [_ Hall]. apply Forall_cons in Hall as [Hos _].
  apply required_Dict_no_error in Hos as (os & Hres & Hchild & Hosmap).
  rewrite Resolve_single in Hres by reflexivity.
  apply Forall_cons in Hchild as [Hload Hchild].
  apply Forall_cons in Hchild as [Hmemory Hchild].
  apply Forall_cons in Hchild as [Huptime _].
  apply required_Dict_no_error in Hload as (load & Hload & Hloads & Hloadmap).
  apply required_Dict_no_error in Hmemory as (memory & Hmemory & Hfigures & Hmemmap).
  apply required_Int_no_error in Huptime as (uptime & Huptime & Hupmap).
  apply Forall_cons in Hloads as [H1 Hloads].
  apply Forall_cons in Hloads as [H5 Hloads].
  apply Forall_cons in Hloads as [H15 _].
  apply required_Float_no_error in H1 as (l1 & H1 & H1map).
  apply required_Float_no_error in H5 as (l5 & H5 & H5map).
  apply required_Float_no_error in H15 as (l15 & H15 & H15map).
  apply Forall_cons in Hfigures as [Htotal Hfigures].
  apply Forall_cons in Hfigures as [Hfree Hfigures].
  apply Forall_cons in Hfigures as [Hused _].
  apply required_Int_no_error in Htotal as (total & Htotal & Htotalmap).
  apply required_Int_no_error in Hfree as (free & Hfree & Hfreemap).
  apply required_Int_no_error in Hused as (used & Hused & Husedmap).
  rewrite Resolve_single in Hload, Hmemory, Huptime, H1, H5, H15, Htotal, Hfree, Hused
    by reflexivity.
  exists os, load, memory, l1, l5, l15, total, free, used, uptime.
  repeat (split; [assumption|]).
  rewrite Apply_output. unfold s.ApplyTo, schemaXPackMonitoring.
  match goal with
  | |- context [s.apply_schema _ _ (?e1 :: (?f, ?n) :: ?rest)] =>
      pose proof (apply_schema_lookup EmptyString d [e1] f n rest s.empty_result
                    "os" _ eq_refl ltac:(by rewrite Hosmap)) as Hlookup
  end.
  cbn [app] in Hlookup. rewrite Hlookup.
  - do 2 f_equal. walk_output. rewrite Hloadmap, Hmemmap, Hupmap. literal_keys.
    assert (Hm : forall pfx,
              s.map_node pfx (c.Int "total_bytes" []) memory
                = (Some (FInt (int64_of_float64 total)), [])
              /\ s.map_node pfx (c.Int "free_bytes" []) memory
                = (Some (FInt (int64_of_float64 free)), [])
              /\ s.map_node pfx (c.Int "used_bytes" []) memory
                = (Some (FInt (int64_of_float64 used)), [])).
    { intros pfx. unfold c.Int. rewrite !map_node_Leaf, !Resolve_single by reflexivity.
      by rewrite Htotal, Hfree, Hused. }
    repeat f_equal; walk_output.
    + destruct (Hm (join_path (join_path "" "os") "memory")) as (-> & -> & ->).
      by literal_keys.
    + rewrite H1map, H5map, H15map. by literal_keys.
  - assert (Hreq : entry_head ("requests", RequestsDict) = "requests").
    { unfold entry_head, s.target. cbn [fst snd]. by rewrite Htarget. }
    repeat (apply Forall_cons; split; [try rewrite Hreq; discriminate|]).
    apply Forall_nil_2.
Qed.

(** One counter of the usage schema inside a walk: the dictionary is read at
    a two-segment source key and holds a number total, and the output holds
    the converted total under the field name. *)
Lemma accepted_counter pfx usage sch name key parent :
  NoDup (map entry_head sch) ->
  Forall (fun entry => entry_errors pfx usage entry = []) sch ->
  In (name, c.Dict key [("total", c.Int "total" [])] []) sch ->
  split_path name = [name] ->
  split_path key = [parent; name] ->
  exists pdoc counter total,
    usage !! parent = Some (VDocument pdoc)
    /\ pdoc !! name = Some (VDocument counter)
    /\ counter !! "total" = Some (VNumber total)
    /\ s.output (s.apply_schema pfx usage sch s.empty_result) !! name
       = Some (FDoc {["total" := FInt (int64_of_float64 total)]}).
Proof.
  intros Hnd Hall Hin Hname Hkey.
  pose proof (proj1 (Forall_forall _ _) Hall _ (proj2 (list_elem_of_In _ _) Hin))
    as Hentry.
  apply required_Dict_no_error in Hentry as (counter & Hres & Hchild & Hmap).
  apply (Resolve_pair_Some key parent name) in Hres as (pdoc & Hparent & Hcounter);
    [|done].
  apply Forall_cons in Hchild as [Htotal _].
  apply required_Int_no_error in Htotal as (total & Htotal & Htotalmap).
  rewrite Resolve_single in Htotal by reflexivity.
  exists pdoc, counter, total. repeat (split; [assumption|]).
  rewrite (apply_schema_lookup_In pfx usage sch name _ name _ Hnd Hin Hname
             ltac:(by rewrite Hmap)).
  do 2 f_equal. walk_output. rewrite Htotalmap. literal_keys.
  by rewrite insert_empty.
Qed.

(** X6: the usage block flattens one level of the payload: an accepted
    payload has usage.kibana.index as a string and, for each of the six
    counters, a number at usage.kibana.<counter>.total; the output holds the
    string at usage.index and each converted total at usage.<counter>.total,
    and has no usage.kibana level. *)
Theorem accepted_usage_flattened d :
  (s.Apply schema d).2 = None ->
  exists usage kibana index uout,
    d !! "usage" = Some (VDocument usage)
    /\ usage !! "kibana" = Some (VDocument kibana)
    /\ kibana !! "index" = Some (VString index)
    /\ (s.Apply schema d).1 !! "usage" = Some (FDoc uout)
    /\ uout !! "index" = Some (FStr index)
    /\ uout !! "kibana" = None
    /\ forall name,
         name ∈ ["index_pattern"; "search"; "visualization"; "dashboard";
                 "timelion_sheet"; "graph_workspace"] ->
         exists counter total,
           kibana !! name = Some (VDocument counter)
           /\ counter !! "total" = Some (VNumber total)
           /\ uout !! name = Some (FDoc {["total" := FInt (int64_of_float64 total)]}).
Proof.
  intros Hok. pose proof (accepted_entries d Hok) as Hall.
  unfold schemaXPackMonitoring in Hall.
  do 6 (apply Forall_cons in Hall as [_ Hall]).
  apply Forall_cons in Hall as [Husage _].
  apply required_Dict_no_error in Husage as (usage & Hres & Hchild & Humap).
  rewrite Resolve_single in Hres by reflexivity.
  cbn [join_path] in Hchild, Humap.
  match type of Hchild with Forall _ ?l => set (child := l) in * end.
  assert (Hnd : NoDup (map entry_head child)) by (vm_compute; distinct).
  pose proof Hchild as Hindex. apply Forall_cons in Hindex as [Hindex _].
  apply required_Str_no_error in Hindex as (index & Hindex & Hindexmap).
  apply (Resolve_pair_Some _ "kibana" "index") in Hindex as (kibana & Hkibana & Hindex);
    [|reflexivity].
  exists usage, kibana, index, (s.output (s.apply_schema "usage" usage child s.empty_result)).
  split; [done|]. split; [done|]. split; [done|]. split; [|split; [|split]].
  - rewrite Apply_output. unfold s.ApplyTo, schemaXPackMonitoring.
    match goal with
    | |- context [s.apply_schema _ _ (?e1 :: ?e2 :: ?e3 :: ?e4 :: ?e5 :: ?e6
                                        :: (?f, ?n) :: ?rest)] =>
        apply (apply_schema_lookup EmptyString d [e1; e2; e3; e4; e5; e6] f n rest)
    end; [reflexivity|unfold child in Humap |- *; by rewrite Humap|apply Forall_nil_2].
  - apply (apply_schema_lookup_In "usage" usage child "index" (c.Str "kibana.index" []));
      [done|by left|reflexivity|by rewrite Hindexmap].
  - apply apply_schema_lookup_None.
    repeat (apply Forall_cons; split; [discriminate|]). apply Forall_nil_2.
  - intros name Hname.
    assert (Hcounter : forall key,
              In (name, c.Dict key [("total", c.Int "total" [])] []) child ->
              split_path name = [name] -> split_path key = ["kibana"; name] ->
              exists counter total,
                kibana !! name = Some (VDocument counter)
                /\ counter !! "total" = Some (VNumber total)
                /\ s.output (s.apply_schema "usage" usage child s.empty_result) !! name
                   = Some (FDoc {["total" := FInt (int64_of_float64 total)]})).
    { intros key Hin Hsplit Hkey.
      destruct (accepted_counter "usage" usage child name key "kibana" Hnd Hchild Hin
                  Hsplit Hkey) as (pdoc & counter & total & Hp & Hc & Ht & Hout).
      rewrite Hkibana in Hp. injection Hp as <-. by exists counter, total. }
    repeat (apply elem_of_cons in Hname as [-> | Hname];
            [eapply Hcounter;
             [unfold child; cbn [In]; repeat (first [left; reflexivity | right])
             |reflexivity|reflexivity]|]).
    by apply elem_of_nil in Hname.
Qed.

(** The usage entry of the monitoring schema is its last, with the fields
    named above. *)
Lemma schema_usage_entry :
  exists front, schema = front ++ [("usage", c.Dict "usage" usage_fields [])].
Proof. by eexists [_; _; _; _; _; _]. Qed.

Lemma usage_fields_distinct : NoDup (map entry_head usage_fields).
Proof. vm_compute. distinct. Qed.

Lemma reporting_fields_distinct : NoDup (map entry_head reporting_fields).
Proof. vm_compute. distinct. Qed.

(** The errors of the whole schema hold the errors the usage fields raise on
    the usage document. *)
Lemma usage_errors_in d usage e :
  d !! "usage" = Some (VDocument usage) ->
  In e (s.errors (s.apply_schema "usage" usage usage_fields s.empty_result)) ->
  In e (s.errors (s.ApplyTo schema d)).
Proof.
  intros Husage He. destruct schema_usage_entry as [front ->].
  unfold s.ApplyTo.
  apply (entry_errors_in _ _ _ ("usage", c.Dict "usage" usage_fields []));
    [apply in_or_app; right; by left|].
  unfold entry_errors, c.Dict. cbn [snd].
  rewrite map_node_Nested, Resolve_single, Husage by reflexivity. exact He.
Qed.

(** The errors of the usage fields hold the errors the reporting fields raise
    on the reporting document. *)
Lemma reporting_errors_in usage rep e :
  usage !! "reporting" = Some (VDocument rep) ->
  In e (s.errors (s.apply_schema "usage.reporting" rep reporting_fields
                    s.empty_result)) ->
  In e (s.errors (s.apply_schema "usage" usage usage_fields s.empty_result)).
Proof.
  intros Hrep He.
  apply (entry_errors_in _ _ _
           ("xpack", s.Object [("reporting",
                                c.Dict "reporting" reporting_fields [c.DictOptional])]));
    [unfold usage_fields; cbn [In]; tauto|].
  unfold entry_errors. cbn [snd]. rewrite map_node_Object. cbv zeta. cbn [snd].
  apply (entry_errors_in _ _ _
           ("reporting", c.Dict "reporting" reporting_fields [c.DictOptional]));
    [by left|].
  unfold entry_errors, c.Dict. cbn [snd].
  rewrite map_node_Nested, Resolve_single, Hrep by reflexivity. exact He.
Qed.

(** A reporting document that lacks one of its required fields makes the
    schema fail with that field reported missing. *)
Lemma reporting_incomplete_rejected d rep k :
  s.Resolve "usage.reporting" d = Some (VDocument rep) ->
  k ∈ reporting_required ->
  rep !! k = None ->
  In (missing (join_path "usage.reporting" k)) (s.errors (s.ApplyTo schema d))
  /\ (s.Apply schema d).2 <> None.
Proof.
  intros Hres Hk Hnone.
  apply (Resolve_pair_Some _ "usage" "reporting") in Hres as (usage & Husage & Hrep);
    [|reflexivity].
  assert (Hin : In (missing (join_path "usage.reporting" k))
                  (s.errors (s.ApplyTo schema d))).
  { apply (usage_errors_in d usage); [done|].
    apply (reporting_errors_in usage rep); [done|].
    unfold reporting_required in Hk.
    repeat (apply elem_of_cons in Hk as [-> | Hk];
            [eapply (required_leaf_missing "usage.reporting" reporting_fields);
             [unfold reporting_fields; cbn [In];
              repeat (first [left; reflexivity | right])
             |by rewrite Resolve_single by reflexivity]|]).
    by apply elem_of_nil in Hk. }
  split; [exact Hin|]. rewrite Apply_error_nil. intros E. rewrite E in Hin.
  destruct Hin.
Qed.

(** X8: reporting is optional as a whole.  In a payload the schema accepts,
    usage has no reporting entry and the output has an empty usage.xpack, or
    usage.reporting is a document whose available and enabled are booleans,
    browser_type a string and all a number, and the output holds them under
    usage.xpack.reporting, the count under the name _all. *)
Theorem accepted_reporting_block d :
  (s.Apply schema d).2 = None ->
  exists usage uout,
    d !! "usage" = Some (VDocument usage)
    /\ (s.Apply schema d).1 !! "usage" = Some (FDoc uout)
    /\ ((usage !! "reporting" = None /\ uout !! "xpack" = Some (FDoc ∅))
        \/ (exists rep available enabled browser count rout,
              usage !! "reporting" = Some (VDocument rep)
              /\ rep !! "available" = Some (VBool available)
              /\ rep !! "enabled" = Some (VBool enabled)
              /\ rep !! "browser_type" = Some (VString browser)
              /\ rep !! "all" = Some (VNumber count)
              /\ uout !! "xpack" = Some (FDoc {["reporting" := FDoc rout]})
              /\ rout !! "available" = Some (FBool available)
              /\ rout !! "enabled" = Some (FBool enabled)
              /\ rout !! "browser_type" = Some (FStr browser)
              /\ rout !! "_all" = Some (FInt (int64_of_float64 count))
              /\ rout !! "all" = None)).
Proof.
  intros Hok. pose proof (accepted_entries d Hok) as Hall.
  destruct schema_usage_entry as [front Hschema].
  rewrite Hschema in Hall. apply Forall_app in Hall as [_ Hall].
  apply Forall_cons in Hall as [Husage _].
  apply required_Dict_no_error in Husage as (usage & Hres & Hfields & Humap).
  rewrite Resolve_single in Hres by reflexivity. cbn [join_path] in Hfields, Humap.
  exists usage, (s.output (s.apply_schema "usage" usage usage_fields s.empty_result)).
  split; [done|]. split.
  { rewrite Apply_output, Hschema. unfold s.ApplyTo.
    apply apply_schema_lookup; [reflexivity|by rewrite Humap|apply Forall_nil_2]. }
  set (reporting := c.Dict "reporting" reporting_fields [c.DictOptional]).
  assert (Hxpack : entry_errors "usage" usage ("xpack", s.Object [("reporting", reporting)])
                   = []).
  { apply (proj1 (Forall_forall _ _) Hfields). apply list_elem_of_In.
    unfold usage_fields. cbn [In]. tauto. }
  unfold entry_errors in Hxpack. cbn [snd] in Hxpack.
  rewrite map_node_Object in Hxpack. cbv zeta in Hxpack. cbn [snd] in Hxpack.
  apply apply_schema_no_error in Hxpack. apply Forall_cons in Hxpack as [Hrep _].
  assert (Hlookup : forall walked,
            s.output (s.apply_schema "usage" usage [("reporting", reporting)]
                        s.empty_result) = walked ->
            s.output (s.apply_schema "usage" usage usage_fields s.empty_result)
              !! "xpack" = Some (FDoc walked)).
  { intros walked <-.
    apply (apply_schema_lookup_In "usage" usage usage_fields "xpack"
             (s.Object [("reporting", reporting)]));
      [apply usage_fields_distinct|unfold usage_fields; cbn [In]; tauto
      |reflexivity|by rewrite map_node_Object]. }
  apply optional_Dict_no_error in Hrep
    as [[Hnone Hmap]|(rep & Hsome & Hleaves & Hmap)];
    rewrite Resolve_single in * by reflexivity.
  - left. split; [done|]. apply Hlookup. walk_output. unfold reporting.
    by rewrite Hmap.
  - right. change (join_path "usage" "reporting") with "usage.reporting" in *.
    pose proof Hleaves as Hfour.
    apply Forall_cons in Hfour as [Havailable Hfour].
    apply Forall_cons in Hfour as [Henabled Hfour].
    apply Forall_cons in Hfour as [Hbrowser Hfour].
    apply Forall_cons in Hfour as [Hcount _].
    apply required_Bool_no_error in Havailable as (available & Havailable & Hamap).
    apply required_Bool_no_error in Henabled as (enabled & Henabled & Hemap).
    apply required_Str_no_error in Hbrowser as (browser & Hbrowser & Hbmap).
    apply required_Int_no_error in Hcount as (count & Hcount & Hcmap).
    rewrite Resolve_single in Havailable, Henabled, Hbrowser, Hcount by reflexivity.
    exists rep, available, enabled, browser, count,
      (s.output (s.apply_schema "usage.reporting" rep reporting_fields s.empty_result)).
    repeat (split; [assumption|]). split.
    { apply Hlookup. walk_output. unfold reporting. rewrite Hmap. literal_keys.
      by rewrite insert_empty. }
    repeat split.
    + apply (apply_schema_lookup_In _ _ _ "available" (c.Bool "available" []));
        [apply reporting_fields_distinct|unfold reporting_fields; cbn [In]; tauto
        |reflexivity|by rewrite Hamap].
    + apply (apply_schema_lookup_In _ _ _ "enabled" (c.Bool "enabled" []));
        [apply reporting_fields_distinct|unfold reporting_fields; cbn [In]; tauto
        |reflexivity|by rewrite Hemap].
    + apply (apply_schema_lookup_In _ _ _ "browser_type" (c.Str "browser_type" []));
        [apply reporting_fields_distinct|unfold reporting_fields; cbn [In]; tauto
        |reflexivity|by rewrite Hbmap].
    + apply (apply_schema_lookup_In _ _ _ "_all" (c.Int "all" []));
        [apply reporting_fields_distinct|unfold reporting_fields; cbn [In]; tauto
        |reflexivity|by rewrite Hcmap].
    + apply apply_schema_lookup_None.
      repeat (apply Forall_cons; split; [discriminate|]). apply Forall_nil_2.
Qed.

(** X10: a payload the schema accepts has a kibana document with the strings
    uuid, name, index, host, transport_address, version and status and the
    boolean snapshot; the kibana block of the output holds exactly these
    eight, under the same names and unchanged. *)
Theorem accepted_kibana_block d :
  (s.Apply schema d).2 = None ->
  exists kibana uuid name index host address version snapshot status,
    d !! "kibana" = Some (VDocument kibana)
    /\ kibana !! "uuid" = Some (VString uuid)
    /\ kibana !! "name" = Some (VString name)
    /\ kibana !! "index" = Some (VString index)
    /\ kibana !! "host" = Some (VString host)
    /\ kibana !! "transport_address" = Some (VString address)
    /\ kibana !! "version" = Some (VString version)
    /\ kibana !! "snapshot" = Some (VBool snapshot)
    /\ kibana !! "status" = Some (VString status)
    /\ (s.Apply schema d).1 !! "kibana"
       = Some (FDoc
           (<["status" := FStr status]>
           (<["snapshot" := FBool snapshot]>
           (<["version" := FStr version]>
           (<["transport_address" := FStr address]>
           (<["host" := FStr host]>
           (<["index" := FStr index]>
           (<["name" := FStr name]>
           (<["uuid" := FStr uuid]> ∅))))))))).
Proof.
  intros Hok. pose proof (accepted_entries d Hok) as Hall.
  unfold schemaXPackMonitoring in Hall.
  do 5 (apply Forall_cons in Hall as [_ Hall]).
  apply Forall_cons in Hall as [Hkibana _].
  apply required_Dict_no_error in Hkibana as (kibana & Hres & Hfields & Hkmap).
  rewrite Resolve_single in Hres by reflexivity.
  apply Forall_cons in Hfields as [Huuid Hfields].
  apply Forall_cons in Hfields as [Hname Hfields].
  apply Forall_cons in Hfields as [Hindex Hfields].
  apply Forall_cons in Hfields as [Hhost Hfields].
  apply Forall_cons in Hfields as [Haddress Hfields].
  apply Forall_cons in Hfields as [Hversion Hfields].
  apply Forall_cons in Hfields as [Hsnapshot Hfields].
  apply Forall_cons in Hfields as [Hstatus _].
  apply required_Str_no_error in Huuid as (uuid & Huuid & Huuidmap).
  apply required_Str_no_error in Hname as (name & Hname & Hnamemap).
  apply required_Str_no_error in Hindex as (index & Hindex & Hindexmap).
  apply required_Str_no_error in Hhost as (host & Hhost & Hhostmap).
  apply required_Str_no_error in Haddress as (address & Haddress & Haddressmap).
  apply required_Str_no_error in Hversion as (version & Hversion & Hversionmap).
  apply required_Bool_no_error in Hsnapshot as (snapshot & Hsnapshot & Hsnapshotmap).
  apply required_Str_no_error in Hstatus as (status & Hstatus & Hstatusmap).
  rewrite Resolve_single in Huuid, Hname, Hindex, Hhost, Haddress, Hversion,
    Hsnapshot, Hstatus by reflexivity.
  exists kibana, uuid, name, index, host, address, version, snapshot, status.
  repeat (split; [assumption|]).
  rewrite Apply_output. unfold s.ApplyTo, schemaXPackMonitoring.
  match goal with
  | |- context [s.apply_schema _ _ (?e1 :: ?e2 :: ?e3 :: ?e4 :: ?e5 :: (?f, ?n) :: ?rest)] =>
      pose proof (apply_schema_lookup EmptyString d [e1; e2; e3; e4; e5] f n rest
                    s.empty_result "kibana" _ eq_refl ltac:(by rewrite Hkmap))
        as Hlookup
  end.
  cbn [app] in Hlookup. rewrite Hlookup.
  - do 2 f_equal. walk_output.
    rewrite Huuidmap, Hnamemap, Hindexmap, Hhostmap, Haddressmap, Hversionmap,
      Hsnapshotmap, Hstatusmap.
    by literal_keys.
  - repeat (apply Forall_cons; split; [discriminate|]). apply Forall_nil_2.
Qed.

(** X11: the connection and response-time figures.  A payload the schema
    accepts has a number concurrent_connections, which the output holds
    converted.  Its response_times are optional as a whole and in each figure:
    without the document the output has no response_times; with it, avg_ms
    and max_ms are numbers where present, and the output holds each one that
    is present, converted, under average and max, and nothing else. *)
Theorem accepted_response_times d :
  s.node_target RequestsDict = EmptyString ->
  (s.Apply schema d).2 = None ->
  (exists n,
     d !! "concurrent_connections" = Some (VNumber n)
     /\ (s.Apply schema d).1 !! "concurrent_connections"
        = Some (FInt (int64_of_float64 n)))
  /\ ((d !! "response_times" = None
       /\ (s.Apply schema d).1 !! "response_times" = None)
      \/ exists rt rout,
           d !! "response_times" = Some (VDocument rt)
           /\ (s.Apply schema d).1 !! "response_times" = Some (FDoc rout)
           /\ (forall k v, k ∈ ["avg_ms"; "max_ms"] -> rt !! k = Some v ->
               exists x, v = VNumber x)
           /\ rout !! "average" = rt !! "avg_ms" ≫= s.coerce s.KInt
           /\ rout !! "max" = rt !! "max_ms" ≫= s.coerce s.KInt
           /\ forall k, k <> "average" -> k <> "max" -> rout !! k = None).
Proof.
  intros Htarget Hok. pose proof (accepted_entries d Hok) as Hall.
  unfold schemaXPackMonitoring in Hall.
  assert (Hreq : entry_head ("requests", RequestsDict) = "requests").
  { unfold entry_head, s.target. cbn [fst snd]. by rewrite Htarget. }
  apply Forall_cons in Hall as [Hconn Hall].
  do 3 (apply Forall_cons in Hall as [_ Hall]).
  apply Forall_cons in Hall as [Htimes _].
  split.
  - apply required_Int_no_error in Hconn as (n & Hn & Hnmap).
    rewrite Resolve_single in Hn by reflexivity.
    exists n. split; [done|].
    rewrite Apply_output. unfold s.ApplyTo, schemaXPackMonitoring.
    match goal with
    | |- context [s.apply_schema _ _ ((?f, ?n) :: ?rest)] =>
        pose proof (apply_schema_lookup EmptyString d [] f n rest s.empty_result
                      "concurrent_connections" _ eq_refl ltac:(by rewrite Hnmap))
          as Hlookup
    end.
    cbn [app] in Hlookup. apply Hlookup.
    repeat (apply Forall_cons; split; [try rewrite Hreq; discriminate|]).
    apply Forall_nil_2.
  - apply optional_Dict_no_error in Htimes
      as [[Hres Hmap]|(rt & Hres & Hfields & Hmap)];
      rewrite Resolve_single in Hres by reflexivity.
    + left. split; [done|].
      rewrite Apply_output. unfold s.ApplyTo, schemaXPackMonitoring.
      match goal with
      | |- context [s.apply_schema _ _ (?e1 :: ?e2 :: ?e3 :: ?e4 :: (?f, ?n) :: ?rest)] =>
          pose proof (apply_schema_lookup_absent EmptyString d [e1; e2; e3; e4] f n
                        rest "response_times" ltac:(by rewrite Hmap)) as Hlookup
      end.
      cbn [app] in Hlookup. apply Hlookup;
        repeat (apply Forall_cons; split; [try rewrite Hreq; discriminate|]);
        apply Forall_nil_2.
    + right.
      apply Forall_cons in Hfields as [Havg Hfields].
      apply Forall_cons in Hfields as [Hmax _].
      eexists rt, _. split; [done|]. split.
      { rewrite Apply_output. unfold s.ApplyTo, schemaXPackMonitoring.
        match goal with
        | |- context [s.apply_schema _ _ (?e1 :: ?e2 :: ?e3 :: ?e4 :: (?f, ?n) :: ?rest)] =>
            pose proof (apply_schema_lookup EmptyString d [e1; e2; e3; e4] f n rest
                          s.empty_result "response_times" _ eq_refl
                          ltac:(by rewrite Hmap)) as Hlookup
        end.
        cbn [app] in Hlookup. apply Hlookup.
        repeat (apply Forall_cons; split; [discriminate|]). apply Forall_nil_2. }
      apply optional_Int_no_error in Havg as [[Havg Hamap]|(a & Havg & Hamap)];
        apply optional_Int_no_error in Hmax as [[Hmax Hmmap]|(m & Hmax & Hmmap)];
        rewrite Resolve_single in Havg, Hmax by reflexivity;
        walk_output; rewrite Hamap, Hmmap; literal_keys; rewrite Havg, Hmax;
        (split; [intros k v Hk Hv;
                 apply elem_of_cons in Hk as [->|Hk];
                 [|apply elem_of_cons in Hk as [->|Hk]; [|by apply elem_of_nil in Hk]];
                 rewrite ?Havg, ?Hmax in Hv; simplify_eq; eauto|]);
        cbn [mbind option_bind s.coerce];
        (split; [by rewrite ?lookup_insert_eq, ?lookup_insert_ne, ?lookup_empty by done|]);
        (split; [by rewrite ?lookup_insert_eq, ?lookup_insert_ne, ?lookup_empty by done|]);
        intros k Hk1 Hk2;
        by rewrite ?lookup_insert_ne, ?lookup_empty by done.
Qed.

(** The process block of an accepted payload: its two scalars, and the
    three fields of the output block. *)
Lemma accepted_process_scalars d :
  s.node_target RequestsDict = EmptyString ->
  (s.Apply schema d).2 = None ->
  exists process delay uptime mem,
    d !! "process" = Some (VDocument process)
    /\ process !! "event_loop_delay" = Some (VNumber delay)
    /\ process !! "uptime_ms" = Some (VNumber uptime)
    /\ (s.Apply schema d).1 !! "process"
       = Some (FDoc (<["uptime_in_millis" := FInt (int64_of_float64 uptime)]>
                    (<["memory" := FDoc mem]>
                    (<["event_loop_delay" := FFloat delay]> ∅)))).
Proof.
  intros Htarget Hok. pose proof (accepted_entries d Hok) as Hall.
  unfold schemaXPackMonitoring in Hall.
  apply Forall_cons in Hall as [_ Hall]. apply Forall_cons in Hall as [_ Hall].
  apply Forall_cons in Hall as [Hprocess _].
  apply required_Dict_no_error in Hprocess as (process & Hres & Hchild & Hpmap).
  rewrite Resolve_single in Hres by reflexivity.
  apply Forall_cons in Hchild as [Hdelay Hchild].
  apply Forall_cons in Hchild as [Hmemory Hchild].
  apply Forall_cons in Hchild as [Huptime _].
  apply required_Float_no_error in Hdelay as (delay & Hdelay & Hdmap).
  apply required_Dict_no_error in Hmemory as (memory & _ & _ & Hmmap).
  apply required_Int_no_error in Huptime as (uptime & Huptime & Humap).
  rewrite Resolve_single in Hdelay, Huptime by reflexivity.
  eexists process, delay, uptime, _. repeat (split; [eassumption|]).
  rewrite Apply_output. unfold s.ApplyTo, schemaXPackMonitoring.
  match goal with
  | |- context [s.apply_schema _ _ (?e1 :: ?e2 :: (?f, ?n) :: ?rest)] =>
      pose proof (apply_schema_lookup EmptyString d [e1; e2] f n rest s.empty_result
                    "process" _ eq_refl ltac:(by rewrite Hpmap)) as Hlookup
  end.
  cbn [app] in Hlookup. rewrite Hlookup.
  - do 2 f_equal. walk_output. rewrite Hdmap, Hmmap, Humap. by literal_keys.
  - assert (Hreq : entry_head ("requests", RequestsDict) = "requests").
    { unfold entry_head, s.target. cbn [fst snd]. by rewrite Htarget. }
    repeat (apply Forall_cons; split; [try rewrite Hreq; discriminate|]).
    apply Forall_nil_2.
Qed.

(** The reporting document of an accepted payload raises no error, and the
    output holds the walk of its fields at usage.xpack.reporting. *)
Lemma accepted_reporting_fields d rep :
  (s.Apply schema d).2 = None ->
  s.Resolve "usage.reporting" d = Some (VDocument rep) ->
  Forall (fun entry => entry_errors "usage.reporting" rep entry = []) reporting_fields
  /\ common.Get "usage.xpack.reporting" (s.Apply schema d).1
     = Some (FDoc (s.output (s.apply_schema "usage.reporting" rep reporting_fields
                               s.empty_result))).
Proof.
  intros Hok Hrep. pose proof (accepted_entries d Hok) as Hall.
  destruct (schema_usage_entry) as [front Hschema].
  rewrite Hschema in Hall. apply Forall_app in Hall as [_ Hall].
  apply Forall_cons in Hall as [Husage _].
  apply required_Dict_no_error in Husage as (usage & Hres & Hfields & Humap).
  rewrite Resolve_single in Hres by reflexivity. cbn [join_path] in Hfields, Humap.
  rewrite (Resolve_pair _ "usage" "reporting"), Hres in Hrep by reflexivity.
  set (reporting := c.Dict "reporting" reporting_fields [c.DictOptional]).
  assert (Hxpack : entry_errors "usage" usage ("xpack", s.Object [("reporting", reporting)])
                   = []).
  { apply (proj1 (Forall_forall _ _) Hfields). apply list_elem_of_In.
    unfold usage_fields. cbn [In]. tauto. }
  unfold entry_errors in Hxpack. cbn [snd] in Hxpack.
  rewrite map_node_Object in Hxpack. cbv zeta in Hxpack. cbn [snd] in Hxpack.
  apply apply_schema_no_error in Hxpack. apply Forall_cons in Hxpack as [Hentry _].
  apply optional_Dict_no_error in Hentry
    as [[Hnone _]|(rep' & Hsome & Hleaves & Hmap)];
    rewrite Resolve_single in * by reflexivity; [by rewrite Hrep in Hnone|].
  rewrite Hrep in Hsome. injection Hsome as <-.
  change (join_path "usage" "reporting") with "usage.reporting" in *.
  split; [exact Hleaves|].
  assert (Hout : (s.Apply schema d).1 !! "usage"
                 = Some (FDoc (s.output (s.apply_schema "usage" usage usage_fields
                                           s.empty_result)))).
  { rewrite Apply_output, Hschema. unfold s.ApplyTo.
    apply apply_schema_lookup; [reflexivity|by rewrite Humap|apply Forall_nil_2]. }
  assert (Hx : s.output (s.apply_schema "usage" usage usage_fields s.empty_result)
                 !! "xpack"
               = Some (FDoc (s.output (s.apply_schema "usage" usage
                                         [("reporting", reporting)] s.empty_result)))).
  { apply (apply_schema_lookup_In "usage" usage usage_fields "xpack"
             (s.Object [("reporting", reporting)]));
      [apply usage_fields_distinct|unfold usage_fields; cbn [In]; tauto
      |reflexivity|by rewrite map_node_Object]. }
  match goal with
  | |- common.Get _ ?m = _ =>
      change (common.Get "usage.xpack.reporting" m)
        with (match m !! "usage" with
              | Some (FDoc u) =>
                  match u !! "xpack" with
                  | Some (FDoc x) => x !! "reporting"
                  | _ => None
                  end
              | _ => None
              end)
  end.
  rewrite Hout, Hx. walk_output. unfold reporting. rewrite Hmap. literal_keys.
  apply lookup_insert_eq.
Qed.

Lemma reportingPeriodSchema_distinct : NoDup (map entry_head reportingPeriodSchema).
Proof. vm_compute. distinct. Qed.

(** X13: the two reporting periods.  In a payload the schema accepts, each
    of last_day and last_7_days of the reporting document is absent, and then
    so is lastDay or last7Days in the output, or is a document whose all is a
    number, which the output holds converted under lastDay._all or
    last7Days._all; the output has neither source name. *)
Theorem accepted_reporting_periods d rep :
  (s.Apply schema d).2 = None ->
  s.Resolve "usage.reporting" d = Some (VDocument rep) ->
  exists rout,
    common.Get "usage.xpack.reporting" (s.Apply schema d).1 = Some (FDoc rout)
    /\ forall src tgt,
         (src, tgt) ∈ [("last_day", "lastDay"); ("last_7_days", "last7Days")] ->
         rout !! src = None
         /\ ((rep !! src = None /\ rout !! tgt = None)
             \/ exists period count pout,
                  rep !! src = Some (VDocument period)
                  /\ period !! "all" = Some (VNumber count)
                  /\ rout !! tgt = Some (FDoc pout)
                  /\ pout !! "_all" = Some (FInt (int64_of_float64 count))
                  /\ pout !! "all" = None).
Proof.
  intros Hok Hrep.
  destruct (accepted_reporting_fields d rep Hok Hrep) as [Hfields Hget].
  eexists. split; [exact Hget|].
  assert (Hperiod : forall src tgt,
            In (tgt, c.Dict src reportingPeriodSchema [c.DictOptional]) reporting_fields ->
            split_path tgt = [tgt] -> split_path src = [src] ->
            (rep !! src = None
             /\ s.output (s.apply_schema "usage.reporting" rep reporting_fields
                            s.empty_result) !! tgt = None)
            \/ exists period count pout,
                 rep !! src = Some (VDocument period)
                 /\ period !! "all" = Some (VNumber count)
                 /\ s.output (s.apply_schema "usage.reporting" rep reporting_fields
                                s.empty_result) !! tgt = Some (FDoc pout)
                 /\ pout !! "_all" = Some (FInt (int64_of_float64 count))
                 /\ pout !! "all" = None).
  { intros src tgt Hin Htgt Hsrc.
    destruct (accepted_optional_Dict _ _ _ _ _ _ reporting_fields_distinct Hfields
                Hin Htgt) as [[Hnone Hout]|(period & Hsome & Hchild & Hout)];
      rewrite Resolve_single in * by done; [by left|right].
    pose proof Hchild as Hall. apply Forall_cons in Hall as [Hcount _].
    apply required_Int_no_error in Hcount as (count & Hcount & Hcmap).
    rewrite Resolve_single in Hcount by reflexivity.
    eexists period, count, _. split; [done|]. split; [done|]. split; [exact Hout|].
    split.
    - apply (apply_schema_lookup_In _ _ _ "_all" (c.Int "all" []));
        [apply reportingPeriodSchema_distinct|by left|reflexivity|by rewrite Hcmap].
    - apply apply_schema_lookup_None.
      repeat (apply Forall_cons; split; [discriminate|]). apply Forall_nil_2. }
  intros src tgt Hin. split.
  - apply elem_of_cons in Hin as [[= -> ->]|Hin];
      [|apply elem_of_cons in Hin as [[= -> ->]|Hin]; [|by apply elem_of_nil in Hin]];
      apply apply_schema_lookup_None;
      repeat (apply Forall_cons; split; [discriminate|]); apply Forall_nil_2.
  - apply elem_of_cons in Hin as [[= -> ->]|Hin];
      [|apply elem_of_cons in Hin as [[= -> ->]|Hin]; [|by apply elem_of_nil in Hin]];
      (apply Hperiod;
       [unfold reporting_fields; cbn [In]; repeat (first [left; reflexivity | right])
       |reflexivity|reflexivity]).
Qed.

(** X14: the reporting status counts.  In a payload the schema accepts, the
    status document of the reporting document is optional and so is each of
    its four counts: where a count is present it is a number, and the output
    status block holds exactly the counts that are present, converted. *)
Theorem accepted_reporting_status d rep :
  (s.Apply schema d).2 = None ->
  s.Resolve "usage.reporting" d = Some (VDocument rep) ->
  exists rout,
    common.Get "usage.xpack.reporting" (s.Apply schema d).1 = Some (FDoc rout)
    /\ ((rep !! "status" = None /\ rout !! "status" = None)
        \/ exists st sout,
             rep !! "status" = Some (VDocument st)
             /\ rout !! "status" = Some (FDoc sout)
             /\ (forall k, k ∈ ["completed"; "failed"; "processing"; "pending"] ->
                 (forall v, st !! k = Some v -> exists x, v = VNumber x)
                 /\ sout !! k = st !! k ≫= s.coerce s.KInt)
             /\ (forall k, k ∉ ["completed"; "failed"; "processing"; "pending"] ->
                 sout !! k = None)).
Proof.
  intros Hok Hrep.
  destruct (accepted_reporting_fields d rep Hok Hrep) as [Hfields Hget].
  eexists. split; [exact Hget|].
  assert (Hin : In ("status", reportingStatusDict) reporting_fields)
    by (unfold reporting_fields; cbn [In]; tauto).
  unfold reportingStatusDict in Hin.
  destruct (accepted_optional_Dict _ _ _ _ _ _ reporting_fields_distinct Hfields
              Hin eq_refl) as [[Hnone Hout]|(st & Hsome & Hchild & Hout)];
    rewrite Resolve_single in * by done; [by left|right].
  eexists st, _. split; [done|]. split; [exact Hout|].
  match type of Hchild with Forall _ ?l => set (child := l) in * end.
  assert (Hnd : NoDup (map entry_head child)) by (vm_compute; distinct).
  split.
  - intros k Hk.
    repeat (apply elem_of_cons in Hk as [->|Hk];
            [apply (accepted_optional_Int _ _ _ _ _ Hnd Hchild);
             [unfold child; cbn [In]; repeat (first [left; reflexivity | right])
             |reflexivity|reflexivity]|]).
    by apply elem_of_nil in Hk.
  - intros k Hk. apply apply_schema_lookup_None. unfold child.
    repeat (apply Forall_cons; split; [intros E; apply Hk; rewrite <- E; among|]).
    apply Forall_nil_2.
Qed.

(** X15: the reporting formats.  In a payload the schema accepts, csv and
    printable_pdf of the reporting document are optional; a csv document has
    a boolean available and a number total, which are all the output holds
    for it; a printable_pdf document has the same two and, optionally, app
    with the numbers visualization and dashboard and layout with the numbers
    print and preserve_layout, each block mapped as a whole or left out. *)
Theorem accepted_reporting_formats d rep :
  (s.Apply schema d).2 = None ->
  s.Resolve "usage.reporting" d = Some (VDocument rep) ->
  exists rout,
    common.Get "usage.xpack.reporting" (s.Apply schema d).1 = Some (FDoc rout)
    /\ ((rep !! "csv" = None /\ rout !! "csv" = None)
        \/ exists csv available total,
             rep !! "csv" = Some (VDocument csv)
             /\ csv !! "available" = Some (VBool available)
             /\ csv !! "total" = Some (VNumber total)
             /\ rout !! "csv"
                = Some (FDoc (<["total" := FInt (int64_of_float64 total)]>
                             (<["available" := FBool available]> ∅))))
    /\ ((rep !! "printable_pdf" = None /\ rout !! "printable_pdf" = None)
        \/ exists pdf available total pout,
             rep !! "printable_pdf" = Some (VDocument pdf)
             /\ pdf !! "available" = Some (VBool available)
             /\ pdf !! "total" = Some (VNumber total)
             /\ rout !! "printable_pdf" = Some (FDoc pout)
             /\ pout !! "available" = Some (FBool available)
             /\ pout !! "total" = Some (FInt (int64_of_float64 total))
             /\ ((pdf !! "app" = None /\ pout !! "app" = None)
                 \/ exists app visualization dashboard,
                      pdf !! "app" = Some (VDocument app)
                      /\ app !! "visualization" = Some (VNumber visualization)
                      /\ app !! "dashboard" = Some (VNumber dashboard)
                      /\ pout !! "app"
                         = Some (FDoc
                             (<["dashboard" := FInt (int64_of_float64 dashboard)]>
                             (<["visualization" :=
                                 FInt (int64_of_float64 visualization)]> ∅))))
             /\ ((pdf !! "layout" = None /\ pout !! "layout" = None)
                 \/ exists layout print preserve,
                      pdf !! "layout" = Some (VDocument layout)
                      /\ layout !! "print" = Some (VNumber print)
                      /\ layout !! "preserve_layout" = Some (VNumber preserve)
                      /\ pout !! "layout"
                         = Some (FDoc
                             (<["preserve_layout" := FInt (int64_of_float64 preserve)]>
                             (<["print" := FInt (int64_of_float64 print)]> ∅))))).
Proof.
  intros Hok Hrep.
  destruct (accepted_reporting_fields d rep Hok Hrep) as [Hfields Hget].
  eexists. split; [exact Hget|]. split.
  - assert (Hin : In ("csv", reportingCsvDict) reporting_fields)
      by (unfold reporting_fields; cbn [In]; tauto).
    unfold reportingCsvDict in Hin.
    destruct (accepted_optional_Dict _ _ _ _ _ _ reporting_fields_distinct Hfields
                Hin eq_refl) as [[Hnone Hout]|(csv & Hsome & Hchild & Hout)];
      rewrite Resolve_single in * by done; [by left|right].
    apply Forall_cons in Hchild as [Havailable Hchild].
    apply Forall_cons in Hchild as [Htotal _].
    apply required_Bool_no_error in Havailable as (available & Havailable & Hamap).
    apply required_Int_no_error in Htotal as (total & Htotal & Htmap).
    rewrite Resolve_single in Havailable, Htotal by reflexivity.
    exists csv, available, total. repeat (split; [done|]).
    rewrite Hout. do 2 f_equal. walk_output. rewrite Hamap, Htmap. by literal_keys.
  - assert (Hin : In ("printable_pdf", reportingPrintablePdfDict) reporting_fields)
      by (unfold reporting_fields; cbn [In]; tauto).
    unfold reportingPrintablePdfDict in Hin.
    destruct (accepted_optional_Dict _ _ _ _ _ _ reporting_fields_distinct Hfields
                Hin eq_refl) as [[Hnone Hout]|(pdf & Hsome & Hchild & Hout)];
      rewrite Resolve_single in * by done; [by left|right].
    match type of Hchild with Forall _ ?l => set (child := l) in * end.
    assert (Hnd : NoDup (map entry_head child)) by (vm_compute; distinct).
    pose proof Hchild as Hleaves.
    apply Forall_cons in Hleaves as [Havailable Hleaves].
    apply Forall_cons in Hleaves as [Htotal _].
    apply required_Bool_no_error in Havailable as (available & Havailable & Hamap).
    apply required_Int_no_error in Htotal as (total & Htotal & Htmap).
    rewrite Resolve_single in Havailable, Htotal by reflexivity.
    eexists pdf, available, total, _.
    split; [done|]. split; [done|]. split; [done|]. split; [exact Hout|].
    split; [|split; [|split]].
    + apply (apply_schema_lookup_In _ _ _ "available" (c.Bool "available" []));
        [exact Hnd|unfold child; cbn [In]; tauto|reflexivity|by rewrite Hamap].
    + apply (apply_schema_lookup_In _ _ _ "total" (c.Int "total" []));
        [exact Hnd|unfold child; cbn [In]; tauto|reflexivity|by rewrite Htmap].
    + assert (Hin' : In ("app", c.Dict "app" [("visualization", c.Int "visualization" []);
                                               ("dashboard", c.Int "dashboard" [])]
                                    [c.DictOptional]) child)
        by (unfold child; cbn [In]; tauto).
      destruct (accepted_optional_Dict _ _ _ _ _ _ Hnd Hchild Hin' eq_refl)
        as [[Hnone' Hout']|(app & Hsome' & Hchild' & Hout')];
        rewrite Resolve_single in * by done; [by left|right].
      apply Forall_cons in Hchild' as [Hv Hchild'].
      apply Forall_cons in Hchild' as [Hd _].
      apply required_Int_no_error in Hv as (visualization & Hv & Hvmap).
      apply required_Int_no_error in Hd as (dashboard & Hd & Hdmap).
      rewrite Resolve_single in Hv, Hd by reflexivity.
      exists app, visualization, dashboard. repeat (split; [done|]).
      rewrite Hout'. do 2 f_equal. walk_output. rewrite Hvmap, Hdmap. by literal_keys.
    + assert (Hin' : In ("layout", c.Dict "layout" [("print", c.Int "print" []);
                                                     ("preserve_layout",
                                                      c.Int "preserve_layout" [])]
                                       [c.DictOptional]) child)
        by (unfold child; cbn [In]; tauto).
      destruct (accepted_optional_Dict _ _ _ _ _ _ Hnd Hchild Hin' eq_refl)
        as [[Hnone' Hout']|(layout & Hsome' & Hchild' & Hout')];
        rewrite Resolve_single in * by done; [by left|right].
      apply Forall_cons in Hchild' as [Hp Hchild'].
      apply Forall_cons in Hchild' as [Hl _].
      apply required_Int_no_error in Hp as (print & Hp & Hpmap).
      apply required_Int_no_error in Hl as (preserve & Hl & Hlmap).
      rewrite Resolve_single in Hp, Hl by reflexivity.
      exists layout, print, preserve. repeat (split; [done|]).
      rewrite Hout'. do 2 f_equal. walk_output. rewrite Hpmap, Hlmap. by literal_keys.
Qed.

(** The monitoring schema is collision free when [RequestsDict] is: no two
    fields of any of its dictionaries write under the same key. *)
Lemma schema_well_keyed :
  s.node_target RequestsDict = EmptyString ->
  well_keyed RequestsDict ->
  well_keyed_schema schema.
Proof.
  intros Htarget Hwk.
  assert (Hreq : entry_head ("requests", RequestsDict) = "requests").
  { unfold entry_head, s.target. cbn [fst snd]. by rewrite Htarget. }
  split.
  - unfold schemaXPackMonitoring. cbn [map]. rewrite Hreq.
    vm_compute. distinct.
  - unfold schemaXPackMonitoring.
    repeat (apply Forall_cons; split;
            [first [exact Hwk | cbn [snd]; well_keyed_tac]|]).
    apply Forall_nil_2.
Qed.

(** X9: which payloads the monitoring schema accepts, and the document it
    builds from them, do not depend on the order in which its Go maps are
    visited, at any level; only the order of the reported errors does. *)
Theorem monitoring_schema_order_independent d sch' :
  s.node_target RequestsDict = EmptyString ->
  well_keyed RequestsDict ->
  same_map schema sch' ->
  (s.Apply sch' d).1 = (s.Apply schema d).1
  /\ ((s.Apply sch' d).2 = None <-> (s.Apply schema d).2 = None)
  /\ Permutation (s.errors (s.ApplyTo sch' d)) (s.errors (s.ApplyTo schema d)).
Proof.
  intros Htarget Hwk Hsame.
  destruct (proj2 same_schema_same_result schema sch' Hsame) as [_ Hres].
  destruct (Hres (schema_well_keyed Htarget Hwk)) as [_ Hres'].
  destruct (Hres' EmptyString d) as [Hfold Hperm].
  assert (Herr : Permutation (s.errors (s.ApplyTo sch' d))
                             (s.errors (s.ApplyTo schema d))).
  { unfold s.ApplyTo. rewrite !apply_schema_errors. exact Hperm. }
  split; [|split; [|exact Herr]].
  - rewrite !Apply_output. unfold s.ApplyTo. rewrite !apply_schema_output.
    apply Hfold.
  - rewrite !Apply_error_nil. split; intros E; rewrite E in Herr.
    + apply Permutation_nil_r. by symmetry.
    + by apply Permutation_nil_r.
Qed.

End Monitoring.

End AcceptedPayload.

(** ** More on the event mapping *)

Section CallProperties.

Context `{Arch}.

Variable RequestsDict : s.SchemaNode.
Variable json_Unmarshal : list Byte.byte -> string + gmap string Value.
Variable time_Now : Z.
Variable MakeXPackMonitoringIndexName : Product -> string.

#[local] Abbreviation schema := (schemaXPackMonitoring RequestsDict).
#[local] Abbreviation run :=
  (eventMappingXPack RequestsDict json_Unmarshal time_Now MakeXPackMonitoringIndexName).

Implicit Types (r : mb.ReporterV2) (data : gmap string Value).

(** X1: a call hands the reporter exactly one thing and says which: one error
    together with that same error as result, or one event together with a
    [nil] result, or nothing at all when it panics.  What the reporter held
    before is kept in front, and neither what is reported nor the result
    depends on it. *)
Theorem eventMappingXPack_reports_once r intervalMs content :
  ((exists e,
      eventMappingXPack RequestsDict json_Unmarshal time_Now
        MakeXPackMonitoringIndexName r intervalMs content
      = (r ++ [mb.ReportedError e], Returned (Some e)))
   \/ (exists ev,
      eventMappingXPack RequestsDict json_Unmarshal time_Now
        MakeXPackMonitoringIndexName r intervalMs content
      = (r ++ [mb.ReportedEvent ev], Returned None))
   \/ eventMappingXPack RequestsDict json_Unmarshal time_Now
        MakeXPackMonitoringIndexName r intervalMs content
      = (r, Panicked))
  /\ eventMappingXPack RequestsDict json_Unmarshal time_Now
       MakeXPackMonitoringIndexName r intervalMs content
     = (r ++ (eventMappingXPack RequestsDict json_Unmarshal time_Now
                MakeXPackMonitoringIndexName [] intervalMs content).1,
        (eventMappingXPack RequestsDict json_Unmarshal time_Now
           MakeXPackMonitoringIndexName [] intervalMs content).2).
Proof.
  unfold eventMappingXPack, ReportErrorForMissingField, mb.Error, mb.Emit.
  destruct (json_Unmarshal content) as [msg|data].
  { split; [left; eauto|reflexivity]. }
  destruct (s.Apply schema data) as [out [err|]].
  { split; [left; eauto|reflexivity]. }
  destruct (data !! "process") as [[| | | |process|]|];
    try (split; [left; eauto|reflexivity]).
  destruct (process !! "memory") as [[| | | |memory|]|];
    try (split; [left; eauto|reflexivity]).
  destruct (memory !! "resident_set_size_bytes") as [[| |rss| | |]|];
    try (split; [left; eauto|reflexivity]).
  destruct (data !! "cluster_uuid") as [[| | |uuid| |]|];
    try (split; [right; right; reflexivity|by rewrite app_nil_r]).
  split; [right; left; eauto|reflexivity].
Qed.

(** X2: the schema already requires the process and process.memory
    dictionaries, so the patch's own checks for them never fire: a
    missing-field error returned by a call always names
    process.memory.resident_set_size_bytes, and the payload then has both
    documents and no number under that key. *)
Theorem missing_field_error_names_rss r r' intervalMs content field product :
  run r intervalMs content = (r', Returned (Some (MissingFieldError field product))) ->
  field = rss_path /\ product = Kibana
  /\ exists data process memory,
       json_Unmarshal content = inr data
       /\ (s.Apply schema data).2 = None
       /\ data !! "process" = Some (VDocument process)
       /\ process !! "memory" = Some (VDocument memory)
       /\ forall rss, memory !! "resident_set_size_bytes" <> Some (VNumber rss).
Proof.
  unfold eventMappingXPack. destruct (json_Unmarshal content) as [msg|data];
    [discriminate|].
  destruct (s.Apply schema data) as [out err] eqn:Happly.
  assert (Herr : (s.Apply schema data).2 = err) by by rewrite Happly.
  destruct err as [err|].
  { apply Apply_error_shape in Herr. subst err. discriminate. }
  destruct (accepted_process_memory RequestsDict data Herr)
    as (process & memory & Hprocess & Hmemory).
  rewrite Hprocess, Hmemory. unfold ReportErrorForMissingField.
  destruct (memory !! "resident_set_size_bytes") as [[| |rss| | |]|] eqn:Hrss;
    try (intros E; simplify_eq; split; [done|]; split; [by destruct product|];
         exists data, process, memory; rewrite Hrss;
         repeat split; try done; intros rss'; discriminate).
  cbv zeta. destruct (data !! "cluster_uuid") as [[| | |uuid| |]|]; intros [=].
Qed.

(** X3: an emitted event has exactly five root fields: cluster_uuid, copied
    from the payload as it is, timestamp, interval_ms with the interval the
    caller passed, type "kibana_stats", and kibana_stats; its index is the
    monitoring index of Kibana. *)
Theorem emitted_event_shape r intervalMs content :
  (eventMappingXPack RequestsDict json_Unmarshal time_Now
     MakeXPackMonitoringIndexName r intervalMs content).2 = Returned None ->
  exists ev data uuid sub,
    (eventMappingXPack RequestsDict json_Unmarshal time_Now
       MakeXPackMonitoringIndexName r intervalMs content).1
    = r ++ [mb.ReportedEvent ev]
    /\ json_Unmarshal content = inr data
    /\ data !! "cluster_uuid" = Some (VString uuid)
    /\ mb.RootFields ev
       = <["cluster_uuid" := FStr uuid]>
         (<["timestamp" := FTime time_Now]>
         (<["interval_ms" := FInt intervalMs]>
         (<["type" := FStr "kibana_stats"]>
         (<["kibana_stats" := FDoc sub]> ∅))))
    /\ dom (mb.RootFields ev)
       = ({["cluster_uuid"; "timestamp"; "interval_ms"; "type"; "kibana_stats"]}
          : gset string)
    /\ mb.Index ev = MakeXPackMonitoringIndexName Kibana.
Proof.
  intros Hrun.
  destruct (eventMappingXPack_nil_inv _ _ _ _ _ _ _ Hrun)
    as (data & rss & uuid & Hdec & Happly & Hrss & Huuid).
  rewrite (eventMappingXPack_success _ _ _ _ r intervalMs content data rss uuid)
    by done.
  eexists _, data, uuid, _. cbn [fst mb.RootFields mb.Index].
  split; [reflexivity|]. split; [done|]. split; [done|].
  split; [reflexivity|]. split; [|reflexivity].
  cbn [mb.RootFields]. rewrite !dom_insert_L, dom_empty_L.
  by rewrite (right_id_L ∅ (∪)), !(assoc_L (∪)).
Qed.

(** X4: in an emitted event the process.memory block of the sub-document is
    exactly the three heap figures the schema mapped (total_bytes, used_bytes
    and size_limit of the payload, renamed and converted) together with the
    patched resident set size; the patch and the timestamp are the only
    changes made to the schema output, every other top-level field of which
    is passed on as it is. *)
Theorem patch_joins_heap r intervalMs content :
  s.node_target RequestsDict = EmptyString ->
  (run r intervalMs content).2 = Returned None ->
  exists ev sub data memory heap total used limit rss,
    (run r intervalMs content).1 = r ++ [mb.ReportedEvent ev]
    /\ mb.RootFields ev !! "kibana_stats" = Some (FDoc sub)
    /\ json_Unmarshal content = inr data
    /\ s.Resolve "process.memory" data = Some (VDocument memory)
    /\ memory !! "resident_set_size_bytes" = Some (VNumber rss)
    /\ memory !! "heap" = Some (VDocument heap)
    /\ heap !! "total_bytes" = Some (VNumber total)
    /\ heap !! "used_bytes" = Some (VNumber used)
    /\ heap !! "size_limit" = Some (VNumber limit)
    /\ common.Get "process.memory" sub
       = Some (FDoc (<["resident_set_size_in_bytes" := FInt (int64_of_float64 rss)]>
                    (<["heap" :=
                        FDoc (<["size_limit" := FInt (int64_of_float64 limit)]>
                             (<["used_in_bytes" := FInt (int64_of_float64 used)]>
                             (<["total_in_bytes" := FInt (int64_of_float64 total)]> ∅)))]>
                     ∅)))
    /\ (forall k, k <> "process" -> k <> "timestamp" ->
        sub !! k = (s.Apply schema data).1 !! k).
Proof.
  intros Htarget Hrun.
  destruct (eventMappingXPack_nil_inv _ _ _ _ _ _ _ Hrun)
    as (data & rss & uuid & Hdec & Happly & Hrss & Huuid).
  destruct (accepted_process_block RequestsDict data Htarget Happly)
    as (process & memory & heap & total & used & limit & pout
        & Hprocess & Hmemory & Hheap & Htotal & Hused & Hlimit & Hout & Hpout).
  rewrite Resolve_rss_path, Hprocess, Hmemory in Hrss.
  rewrite (eventMappingXPack_success _ _ _ _ r intervalMs content data rss uuid);
    [|done|done|by rewrite Resolve_rss_path, Hprocess, Hmemory|done].
  eexists _, _, data, memory, heap, total, used, limit, rss.
  cbn [fst]. split; [reflexivity|]. cbn [mb.RootFields].
  split; [repeat (rewrite lookup_insert_ne by discriminate); apply lookup_insert_eq|].
  split; [done|]. split.
  { change (s.Resolve "process.memory" data)
      with (match data !! "process" with
            | Some (VDocument p) => p !! "memory"
            | _ => None
            end).
    by rewrite Hprocess. }
  repeat (split; [done|]). split.
  - match goal with
    | |- common.Get _ ?m = _ =>
        change (common.Get "process.memory" m)
          with (match m !! "process" with
                | Some (FDoc p) => p !! "memory"
                | _ => None
                end)
    end.
    rewrite Put_lookup_ne by discriminate.
    change (common.Put "process.memory.resident_set_size_in_bytes")
      with (common.put ["process"; "memory"; "resident_set_size_in_bytes"]).
    rewrite (put_through _ _ _ _ _ _ _ Hout Hpout).
    by rewrite !lookup_insert_eq.
  - intros k Hk1 Hk2.
    rewrite Put_lookup_ne by (intros E; apply Hk2; by rewrite <- E).
    apply Put_lookup_ne. intros E. apply Hk1. by rewrite <- E.
Qed.

(** X7: once a payload has a usage.reporting document, the fields available,
    enabled, browser_type and all are required of it: if one of them is
    absent the call reports and returns the schema error, which names the
    missing field, and emits no event. *)
Theorem incomplete_reporting_fails r intervalMs content data rep k :
  json_Unmarshal content = inr data ->
  s.Resolve "usage.reporting" data = Some (VDocument rep) ->
  k ∈ reporting_required ->
  rep !! k = None ->
  exists errs,
    In (missing (join_path "usage.reporting" k)) errs
    /\ run r intervalMs content
       = (r ++ [mb.ReportedError (AggregateError errs)],
          Returned (Some (AggregateError errs))).
Proof.
  intros Hdec Hres Hk Hnone.
  destruct (reporting_incomplete_rejected RequestsDict data rep k Hres Hk Hnone)
    as [Hin Herr].
  exists (s.errors (s.ApplyTo schema data)). split; [exact Hin|].
  unfold eventMappingXPack. rewrite Hdec.
  destruct (s.Apply schema data) as [out [err|]] eqn:Happly; [|done].
  assert (Hshape : (s.Apply schema data).2 = Some err) by by rewrite Happly.
  apply Apply_error_shape in Hshape. by subst err.
Qed.

(** X12: the patch leaves the rest of the process block alone.  In an
    emitted event the process block of the sub-document has exactly three
    fields: event_loop_delay, the float of the payload; uptime_in_millis, the
    converted uptime_ms of the payload; and memory, the document that
    process.memory reads. *)
Theorem patch_keeps_process_siblings r intervalMs content :
  s.node_target RequestsDict = EmptyString ->
  (run r intervalMs content).2 = Returned None ->
  exists ev sub data process delay uptime mem,
    (run r intervalMs content).1 = r ++ [mb.ReportedEvent ev]
    /\ mb.RootFields ev !! "kibana_stats" = Some (FDoc sub)
    /\ json_Unmarshal content = inr data
    /\ data !! "process" = Some (VDocument process)
    /\ process !! "event_loop_delay" = Some (VNumber delay)
    /\ process !! "uptime_ms" = Some (VNumber uptime)
    /\ common.Get "process.memory" sub = Some (FDoc mem)
    /\ sub !! "process"
       = Some (FDoc (<["uptime_in_millis" := FInt (int64_of_float64 uptime)]>
                    (<["memory" := FDoc mem]>
                    (<["event_loop_delay" := FFloat delay]> ∅)))).
Proof.
  intros Htarget Hrun.
  destruct (eventMappingXPack_nil_inv _ _ _ _ _ _ _ Hrun)
    as (data & rss & uuid & Hdec & Happly & Hrss & Huuid).
  destruct (accepted_process_scalars RequestsDict data Htarget Happly)
    as (process & delay & uptime & mem & Hprocess & Hdelay & Huptime & Hout).
  rewrite (eventMappingXPack_success _ _ _ _ r intervalMs content data rss uuid)
    by done.
  eexists _, _, data, process, delay, uptime, _.
  cbn [fst]. split; [reflexivity|]. cbn [mb.RootFields].
  split; [repeat (rewrite lookup_insert_ne by discriminate); apply lookup_insert_eq|].
  repeat (split; [done|]).
  assert (Hsub :
            common.Put "timestamp" (FTime time_Now)
              (common.Put "process.memory.resident_set_size_in_bytes"
                 (FInt (int64_of_float64 rss)) (s.Apply schema data).1) !! "process"
            = Some (FDoc (<["uptime_in_millis" := FInt (int64_of_float64 uptime)]>
                         (<["memory" :=
                             FDoc (<["resident_set_size_in_bytes" :=
                                       FInt (int64_of_float64 rss)]> mem)]>
                         (<["event_loop_delay" := FFloat delay]> ∅))))).
  { rewrite Put_lookup_ne by discriminate.
    change (common.Put "process.memory.resident_set_size_in_bytes")
      with (common.put ["process"; "memory"; "resident_set_size_in_bytes"]).
    rewrite (put_through _ _ _ _ _ _ mem Hout)
      by (by rewrite lookup_insert_ne, lookup_insert_eq by discriminate).
    rewrite lookup_insert_eq. by do 2 f_equal. }
  split; [|exact Hsub].
  match goal with
  | |- common.Get _ ?m = _ =>
      change (common.Get "process.memory" m)
        with (match m !! "process" with
              | Some (FDoc p) => p !! "memory"
              | _ => None
              end)
  end.
  rewrite Hsub. by rewrite lookup_insert_ne, lookup_insert_eq by discriminate.
Qed.

End CallProperties.

(** ** The further properties at concrete inputs *)

(** X2, on the sample payload with the string "big" as resident set size. *)
Lemma missing_field_error_names_rss_witness :
  sample_run (sample_data (VString "big"))
  = ([mb.ReportedError (MissingFieldError rss_path Kibana)],
     Returned (Some (MissingFieldError rss_path Kibana)))
  /\ exists data process memory,
       decodes_to (sample_data (VString "big")) [] = inr data
       /\ data !! "process" = Some (VDocument process)
       /\ process !! "memory" = Some (VDocument memory)
       /\ forall rss, memory !! "resident_set_size_bytes" <> Some (VNumber rss).
Proof.
  assert (Hrun : sample_run (sample_data (VString "big"))
                 = ([mb.ReportedError (MissingFieldError rss_path Kibana)],
                    Returned (Some (MissingFieldError rss_path Kibana))))
    by (vm_compute; reflexivity).
  split; [exact Hrun|].
  destruct (@missing_field_error_names_rss amd64 sample_RequestsDict
              (decodes_to (sample_data (VString "big"))) 1700 sample_index [] _
              10000 [] _ _ Hrun)
    as (_ & _ & data & process & memory & Hdec & _ & Hprocess & Hmemory & Hrss).
  by exists data, process, memory.
Defined.

(** X3, on the full sample payload. *)
Lemma emitted_event_shape_witness :
  (sample_run (sample_data (num 123))).2 = Returned None
  /\ exists ev,
       (sample_run (sample_data (num 123))).1 = [mb.ReportedEvent ev]
       /\ dom (mb.RootFields ev)
          = ({["cluster_uuid"; "timestamp"; "interval_ms"; "type"; "kibana_stats"]}
             : gset string)
       /\ mb.Index ev = sample_index Kibana.
Proof.
  assert (Hrun : (sample_run (sample_data (num 123))).2 = Returned None)
    by (vm_compute; reflexivity).
  split; [exact Hrun|].
  destruct (@emitted_event_shape amd64 sample_RequestsDict
              (decodes_to (sample_data (num 123))) 1700 sample_index [] 10000 [] Hrun)
    as (ev & data & uuid & sub & Hev & _ & _ & _ & Hdom & Hindex).
  by exists ev.
Defined.

(** X4, on the full sample payload. *)
Lemma patch_joins_heap_witness :
  (sample_run (sample_data (num 123))).2 = Returned None
  /\ exists ev sub rss heap,
       (sample_run (sample_data (num 123))).1 = [mb.ReportedEvent ev]
       /\ mb.RootFields ev !! "kibana_stats" = Some (FDoc sub)
       /\ common.Get "process.memory" sub
          = Some (FDoc (<["resident_set_size_in_bytes" := FInt (@int64_of_float64 amd64 rss)]>
                       (<["heap" := FDoc heap]> ∅))).
Proof.
  assert (Hrun : (sample_run (sample_data (num 123))).2 = Returned None)
    by (vm_compute; reflexivity).
  split; [exact Hrun|].
  destruct (@patch_joins_heap amd64 sample_RequestsDict
              (decodes_to (sample_data (num 123))) 1700 sample_index [] 10000 []
              eq_refl Hrun)
    as (ev & sub & data & memory & heap & total & used & limit & rss
        & Hev & Hsub & _ & _ & _ & _ & _ & _ & _ & Hget & _).
  eexists ev, sub, rss, _. split; [exact Hev|]. split; [exact Hsub|exact Hget].
Defined.

(** X5, on the full sample payload. *)
Lemma accepted_os_block_witness :
  (@s.Apply amd64 sample_schema (sample_data (num 123))).2 = None
  /\ exists uptime memory load,
       (@s.Apply amd64 sample_schema (sample_data (num 123))).1 !! "os"
       = Some (FDoc (<["uptime_in_millis" := FInt uptime]>
                    (<["memory" := FDoc memory]> (<["load" := FDoc load]> ∅)))).
Proof.
  assert (Hok : (@s.Apply amd64 sample_schema (sample_data (num 123))).2 = None)
    by (vm_compute; reflexivity).
  split; [exact Hok|].
  destruct (@accepted_os_block amd64 sample_RequestsDict (sample_data (num 123))
              eq_refl Hok)
    as (os & load & memory & l1 & l5 & l15 & total & free & used & uptime
        & _ & _ & _ & _ & _ & _ & _ & _ & _ & _ & Hout).
  eexists _, _, _. exact Hout.
Defined.

(** X6, on the full sample payload. *)
Lemma accepted_usage_flattened_witness :
  (@s.Apply amd64 sample_schema (sample_data (num 123))).2 = None
  /\ exists uout index total,
       (@s.Apply amd64 sample_schema (sample_data (num 123))).1 !! "usage"
       = Some (FDoc uout)
       /\ uout !! "index" = Some (FStr index)
       /\ uout !! "kibana" = None
       /\ uout !! "search" = Some (FDoc {["total" := FInt total]}).
Proof.
  assert (Hok : (@s.Apply amd64 sample_schema (sample_data (num 123))).2 = None)
    by (vm_compute; reflexivity).
  split; [exact Hok|].
  destruct (@accepted_usage_flattened amd64 sample_RequestsDict
              (sample_data (num 123)) Hok)
    as (usage & kibana & index & uout & _ & _ & _ & Hout & Hindex & Hkibana & Hcounters).
  destruct (Hcounters "search") as (counter & total & _ & _ & Hsearch).
  { apply list_elem_of_further, list_elem_of_here. }
  eexists uout, index, _. split; [exact Hout|]. split; [exact Hindex|].
  split; [exact Hkibana|exact Hsearch].
Defined.

(** X7, on the sample payload with a reporting document that lacks its
    browser type. *)
Lemma incomplete_reporting_fails_witness :
  s.Resolve "usage.reporting"
    (sample_data_reporting (VDocument sample_reporting_incomplete))
  = Some (VDocument sample_reporting_incomplete)
  /\ sample_reporting_incomplete !! "browser_type" = None
  /\ exists errs,
       In (missing "usage.reporting.browser_type") errs
       /\ sample_run (sample_data_reporting (VDocument sample_reporting_incomplete))
          = ([mb.ReportedError (AggregateError errs)],
             Returned (Some (AggregateError errs))).
Proof.
  assert (Hres : s.Resolve "usage.reporting"
                   (sample_data_reporting (VDocument sample_reporting_incomplete))
                 = Some (VDocument sample_reporting_incomplete))
    by (vm_compute; reflexivity).
  assert (Hnone : sample_reporting_incomplete !! "browser_type" = None)
    by (vm_compute; reflexivity).
  split; [exact Hres|]. split; [exact Hnone|].
  apply (@incomplete_reporting_fails amd64 sample_RequestsDict
           (decodes_to (sample_data_reporting (VDocument sample_reporting_incomplete)))
           1700 sample_index [] 10000 [] _ sample_reporting_incomplete "browser_type"
           eq_refl Hres); [|exact Hnone].
  apply list_elem_of_further, list_elem_of_further, list_elem_of_here.
Defined.

(** X8, on the sample payload with a reporting document that has exactly its
    four required fields. *)
Lemma accepted_reporting_block_witness :
  (@s.Apply amd64 sample_schema
     (sample_data_reporting (VDocument sample_reporting))).2 = None
  /\ exists usage uout,
       sample_data_reporting (VDocument sample_reporting) !! "usage"
       = Some (VDocument usage)
       /\ usage !! "reporting" = Some (VDocument sample_reporting)
       /\ (@s.Apply amd64 sample_schema
             (sample_data_reporting (VDocument sample_reporting))).1 !! "usage"
          = Some (FDoc uout)
       /\ exists rout,
            uout !! "xpack" = Some (FDoc {["reporting" := FDoc rout]})
            /\ rout !! "browser_type" = Some (FStr "chromium").
Proof.
  assert (Hok : (@s.Apply amd64 sample_schema
                   (sample_data_reporting (VDocument sample_reporting))).2 = None)
    by (vm_compute; reflexivity).
  split; [exact Hok|].
  destruct (@accepted_reporting_block amd64 sample_RequestsDict
              (sample_data_reporting (VDocument sample_reporting)) Hok)
    as (usage & uout & Husage & Hout & Hcases).
  assert (Hrep : usage !! "reporting" = Some (VDocument sample_reporting)).
  { assert (Hres : s.Resolve "usage.reporting"
                     (sample_data_reporting (VDocument sample_reporting))
                   = Some (VDocument sample_reporting)) by (vm_compute; reflexivity).
    rewrite (Resolve_pair _ "usage" "reporting") in Hres by reflexivity.
    by rewrite Husage in Hres. }
  exists usage, uout. split; [exact Husage|]. split; [exact Hrep|].
  split; [exact Hout|].
  destruct Hcases as [[Hnone _]|(rep & a & e & b & n & rout & Hrep' & _ & _ & Hb & _
                                 & Hxpack & _ & _ & Hrb & _)].
  - rewrite Hrep in Hnone. discriminate.
  - exists rout. split; [exact Hxpack|].
    rewrite Hrep in Hrep'. injection Hrep' as <-.
    assert (Hb' : sample_reporting !! "browser_type" = Some (VString "chromium"))
      by (vm_compute; reflexivity).
    rewrite Hb' in Hb. injection Hb as <-. exact Hrb.
Defined.

(** X9, on the monitoring schema in reverse order and the scenario
    document. *)
Lemma monitoring_schema_order_independent_witness :
  same_map sample_schema (rev sample_schema)
  /\ well_keyed sample_RequestsDict
  /\ (@s.Apply amd64 (rev sample_schema) scenario_data).1
     = (@s.Apply amd64 sample_schema scenario_data).1.
Proof.
  assert (Hsame : same_map sample_schema (rev sample_schema))
    by apply Permutation_same_map, Permutation_rev.
  assert (Hwk : well_keyed sample_RequestsDict) by well_keyed_tac.
  split; [exact Hsame|]. split; [exact Hwk|].
  apply (@monitoring_schema_order_independent amd64 sample_RequestsDict
           scenario_data (rev sample_schema) eq_refl Hwk Hsame).
Defined.

(** X10, on the full sample payload. *)
Lemma accepted_kibana_block_witness :
  (@s.Apply amd64 sample_schema (sample_data (num 123))).2 = None
  /\ exists uuid name rest,
       (@s.Apply amd64 sample_schema (sample_data (num 123))).1 !! "kibana"
       = Some (FDoc rest)
       /\ rest !! "uuid" = Some (FStr uuid)
       /\ rest !! "name" = Some (FStr name).
Proof.
  assert (Hok : (@s.Apply amd64 sample_schema (sample_data (num 123))).2 = None)
    by (vm_compute; reflexivity).
  split; [exact Hok|].
  destruct (@accepted_kibana_block amd64 sample_RequestsDict (sample_data (num 123)) Hok)
    as (kibana & uuid & name & index & host & address & version & snapshot & status
        & _ & _ & _ & _ & _ & _ & _ & _ & _ & Hout).
  eexists uuid, name, _. split; [exact Hout|].
  split; [|done].
  by repeat (rewrite lookup_insert_ne by discriminate); rewrite lookup_insert_eq.
Defined.

(** X11, on the sample payload with response times that give an average and
    no maximum. *)
Lemma accepted_response_times_witness :
  (@s.Apply amd64 sample_schema
     (sample_data_response_times (obj [("avg_ms", num 12)]))).2 = None
  /\ exists rout,
       (@s.Apply amd64 sample_schema
          (sample_data_response_times (obj [("avg_ms", num 12)]))).1 !! "response_times"
       = Some (FDoc rout)
       /\ rout !! "average" = Some (FInt 12)
       /\ rout !! "max" = None.
Proof.
  assert (Hok : (@s.Apply amd64 sample_schema
                   (sample_data_response_times (obj [("avg_ms", num 12)]))).2 = None)
    by (vm_compute; reflexivity).
  split; [exact Hok|].
  assert (Hd : sample_data_response_times (obj [("avg_ms", num 12)]) !! "response_times"
               = Some (obj [("avg_ms", num 12)])) by apply lookup_insert_eq.
  destruct (@accepted_response_times amd64 sample_RequestsDict
              (sample_data_response_times (obj [("avg_ms", num 12)])) eq_refl Hok)
    as (_ & [[Hnone _]|(rt & rout & Hrt & Hout & _ & Havg & Hmax & _)]).
  - rewrite Hd in Hnone. discriminate.
  - rewrite Hd in Hrt. injection Hrt as <-.
    exists rout. split; [exact Hout|]. split; [exact Havg|exact Hmax].
Defined.

(** X12, on the full sample payload. *)
Lemma patch_keeps_process_siblings_witness :
  (sample_run (sample_data (num 123))).2 = Returned None
  /\ exists ev sub delay uptime mem,
       (sample_run (sample_data (num 123))).1 = [mb.ReportedEvent ev]
       /\ mb.RootFields ev !! "kibana_stats" = Some (FDoc sub)
       /\ sub !! "process"
          = Some (FDoc (<["uptime_in_millis" := FInt uptime]>
                       (<["memory" := FDoc mem]>
                       (<["event_loop_delay" := FFloat delay]> ∅)))).
Proof.
  assert (Hrun : (sample_run (sample_data (num 123))).2 = Returned None)
    by (vm_compute; reflexivity).
  split; [exact Hrun|].
  destruct (@patch_keeps_process_siblings amd64 sample_RequestsDict
              (decodes_to (sample_data (num 123))) 1700 sample_index [] 10000 []
              eq_refl Hrun)
    as (ev & sub & data & process & delay & uptime & mem
        & Hev & Hsub & _ & _ & _ & _ & _ & Hprocess).
  eexists ev, sub, delay, _, mem. split; [exact Hev|]. split; [exact Hsub|exact Hprocess].
Defined.

(** X13, on the sample payload with the fuller reporting document. *)
Lemma accepted_reporting_periods_witness :
  (@s.Apply amd64 sample_schema
     (sample_data_reporting (VDocument sample_reporting_full))).2 = None
  /\ s.Resolve "usage.reporting" (sample_data_reporting (VDocument sample_reporting_full))
     = Some (VDocument sample_reporting_full)
  /\ exists rout pout,
       common.Get "usage.xpack.reporting"
         (@s.Apply amd64 sample_schema
            (sample_data_reporting (VDocument sample_reporting_full))).1
       = Some (FDoc rout)
       /\ rout !! "lastDay" = Some (FDoc pout)
       /\ pout !! "_all" = Some (FInt 1)
       /\ rout !! "last7Days" = None.
Proof.
  assert (Hok : (@s.Apply amd64 sample_schema
                   (sample_data_reporting (VDocument sample_reporting_full))).2 = None)
    by (vm_compute; reflexivity).
  assert (Hres : s.Resolve "usage.reporting"
                   (sample_data_reporting (VDocument sample_reporting_full))
                 = Some (VDocument sample_reporting_full))
    by (vm_compute; reflexivity).
  split; [exact Hok|]. split; [exact Hres|].
  destruct (@accepted_reporting_periods amd64 sample_RequestsDict _ _ Hok Hres)
    as (rout & Hget & Hperiods).
  assert (Hday : sample_reporting_full !! "last_day"
                 = Some (VDocument (list_to_map [("all", num 1)])))
    by (vm_compute; reflexivity).
  assert (Hweek : sample_reporting_full !! "last_7_days" = None)
    by (vm_compute; reflexivity).
  destruct (Hperiods "last_day" "lastDay" ltac:(among))
    as [_ [[Hnone _]|(period & count & pout & Hperiod & Hcount & Hout & Hall & _)]].
  { rewrite Hday in Hnone. discriminate. }
  rewrite Hday in Hperiod.
  assert (Heq : period = list_to_map [("all", num 1)]) by congruence.
  subst period.
  assert (Hone : (list_to_map [("all", num 1)] : gmap string Value) !! "all"
                 = Some (num 1)) by (vm_compute; reflexivity).
  rewrite Hone in Hcount. injection Hcount as <-.
  exists rout, pout. split; [exact Hget|]. split; [exact Hout|]. split; [exact Hall|].
  destruct (Hperiods "last_7_days" "last7Days" ltac:(among))
    as [_ [[_ Hnone]|(period & count & pout7 & Hperiod7 & _)]]; [exact Hnone|].
  rewrite Hweek in Hperiod7. discriminate.
Defined.

(** X14, on the sample payload with the fuller reporting document. *)
Lemma accepted_reporting_status_witness :
  (@s.Apply amd64 sample_schema
     (sample_data_reporting (VDocument sample_reporting_full))).2 = None
  /\ s.Resolve "usage.reporting" (sample_data_reporting (VDocument sample_reporting_full))
     = Some (VDocument sample_reporting_full)
  /\ exists rout sout,
       common.Get "usage.xpack.reporting"
         (@s.Apply amd64 sample_schema
            (sample_data_reporting (VDocument sample_reporting_full))).1
       = Some (FDoc rout)
       /\ rout !! "status" = Some (FDoc sout)
       /\ sout !! "completed" = Some (FInt 3)
       /\ sout !! "failed" = None.
Proof.
  assert (Hok : (@s.Apply amd64 sample_schema
                   (sample_data_reporting (VDocument sample_reporting_full))).2 = None)
    by (vm_compute; reflexivity).
  assert (Hres : s.Resolve "usage.reporting"
                   (sample_data_reporting (VDocument sample_reporting_full))
                 = Some (VDocument sample_reporting_full))
    by (vm_compute; reflexivity).
  split; [exact Hok|]. split; [exact Hres|].
  destruct (@accepted_reporting_status amd64 sample_RequestsDict _ _ Hok Hres)
    as (rout & Hget & [[Hnone _]|(st & sout & Hst & Hout & Hcounts & _)]).
  { assert (Hstatus : sample_reporting_full !! "status" <> None)
      by (vm_compute; discriminate).
    destruct (Hstatus Hnone). }
  assert (Hstatus : sample_reporting_full !! "status"
                    = Some (VDocument (list_to_map [("completed", num 3)])))
    by (vm_compute; reflexivity).
  rewrite Hstatus in Hst.
  assert (Heq : st = list_to_map [("completed", num 3)]) by congruence.
  subst st.
  exists rout, sout. split; [exact Hget|]. split; [exact Hout|]. split.
  - destruct (Hcounts "completed" ltac:(among)) as [_ Hcompleted]. exact Hcompleted.
  - destruct (Hcounts "failed" ltac:(among)) as [_ Hfailed]. exact Hfailed.
Defined.

(** X15, on the sample payload with the fuller reporting document. *)
Lemma accepted_reporting_formats_witness :
  (@s.Apply amd64 sample_schema
     (sample_data_reporting (VDocument sample_reporting_full))).2 = None
  /\ s.Resolve "usage.reporting" (sample_data_reporting (VDocument sample_reporting_full))
     = Some (VDocument sample_reporting_full)
  /\ exists rout pout,
       common.Get "usage.xpack.reporting"
         (@s.Apply amd64 sample_schema
            (sample_data_reporting (VDocument sample_reporting_full))).1
       = Some (FDoc rout)
       /\ rout !! "printable_pdf" = Some (FDoc pout)
       /\ pout !! "available" = Some (FBool true)
       /\ pout !! "layout" = None.
Proof.
  assert (Hok : (@s.Apply amd64 sample_schema
                   (sample_data_reporting (VDocument sample_reporting_full))).2 = None)
    by (vm_compute; reflexivity).
  assert (Hres : s.Resolve "usage.reporting"
                   (sample_data_reporting (VDocument sample_reporting_full))
                 = Some (VDocument sample_reporting_full))
    by (vm_compute; reflexivity).
  split; [exact Hok|]. split; [exact Hres|].
  destruct (@accepted_reporting_formats amd64 sample_RequestsDict _ _ Hok Hres)
    as (rout & Hget & _
        & [[Hnone _]|(pdf & available & total & pout & Hpdf & Havailable & _ & Hout
                      & Hpa & _ & _ & Hlayout)]).
  { assert (Hsome : sample_reporting_full !! "printable_pdf" <> None)
      by (vm_compute; discriminate).
    destruct (Hsome Hnone). }
  assert (Hsample : sample_reporting_full !! "printable_pdf"
                    = Some (VDocument (list_to_map [
                        ("available", VBool true); ("total", num 1);
                        ("app", obj [("visualization", num 1); ("dashboard", num 0)])])))
    by (vm_compute; reflexivity).
  rewrite Hsample in Hpdf.
  assert (Heq : pdf = list_to_map [
                  ("available", VBool true); ("total", num 1);
                  ("app", obj [("visualization", num 1); ("dashboard", num 0)])])
    by congruence.
  subst pdf.
  assert (Htrue : (list_to_map [
                     ("available", VBool true); ("total", num 1);
                     ("app", obj [("visualization", num 1); ("dashboard", num 0)])]
                   : gmap string Value) !! "available" = Some (VBool true))
    by (vm_compute; reflexivity).
  rewrite Htrue in Havailable. injection Havailable as <-.
  exists rout, pout. split; [exact Hget|]. split; [exact Hout|]. split; [exact Hpa|].
  destruct Hlayout as [[_ Hnone]|(layout & print & preserve & Hsome & _)];
    [exact Hnone|].
  assert (Hno : (list_to_map [
                   ("available", VBool true); ("total", num 1);
                   ("app", obj [("visualization", num 1); ("dashboard", num 0)])]
                 : gmap string Value) !! "layout" = None)
    by (vm_compute; reflexivity).
  rewrite Hno in Hsome. discriminate.
Defined.
